(** * NOVA tiered discovery: classification, hybrid search, lazy metadata

    A shallow embedding of the discovery core of the NOVA SAP OData MCP
    server:

    - the domain and tier configuration (imported by the registry as
      [config/domain-tier-config.js]): rule based classification
      ([classifyService]) and the service hints;
    - [tools/hierarchical-tool-registry.ts]: the three tools
      [discoverServicesAndEntities], [getEntityMetadata] and
      [executeOperation], with [patternSearch] and [buildKeyValue], the
      metadata resource and the statistics by domain;
    - [services/sap-discovery.ts]: the tagging done by [discoverCatalog]
      and [parseMetadata] over the document as the DOM presents it;
    - the embedding service (class [EmbeddingService]):
      [computeServicesHash], the validation done by [loadCache], the
      index in memory with its two indexing loops, [searchServices] and
      [saveCache].

    Modelling conventions.  JavaScript strings are byte strings and the
    case conversions, [trim] and the [\s] class are the ASCII ones.  Scores
    are JavaScript numbers; they are modelled by rationals, which is exact
    for the comparisons made here (all weights are two-digit decimals and
    no two distinct products that can meet in one call are closer than
    1/400).  The vector arithmetic of [cosineSimilarity] is done over the
    rationals with the square root as a parameter.  A parameter object is
    the finite map of its own properties together with the members it
    inherits from [Object.prototype].  Asynchronous calls are run to completion one after the other;
    a thrown exception is the [Throw] case of the [Exc] monad. *)

From Stdlib Require Import String Ascii List ZArith QArith Qround Lia Lqa Bool Sorted.
From Stdlib Require Import Numbers.DecimalString.
From stdpp Require Import gmap strings.

Import ListNotations.
Local Open Scope string_scope.
Local Open Scope list_scope.

(** ** JavaScript string primitives *)

Module JS.

Definition isUpper (c : ascii) : bool :=
  let n := nat_of_ascii c in (65 <=? n)%nat && (n <=? 90)%nat.

Definition isLower (c : ascii) : bool :=
  let n := nat_of_ascii c in (97 <=? n)%nat && (n <=? 122)%nat.

Definition lowerChar (c : ascii) : ascii :=
  if isUpper c then ascii_of_nat (nat_of_ascii c + 32) else c.

Definition upperChar (c : ascii) : ascii :=
  if isLower c then ascii_of_nat (nat_of_ascii c - 32) else c.

Fixpoint mapString (f : ascii -> ascii) (s : string) : string :=
  match s with
  | EmptyString => EmptyString
  | String c s' => String (f c) (mapString f s')
  end.

Definition toLowerCase : string -> string := mapString lowerChar.
Definition toUpperCase : string -> string := mapString upperChar.

(** The class [\s]: tab, line feed, vertical tab, form feed, carriage
    return and space. *)
Definition isSpace (c : ascii) : bool :=
  let n := nat_of_ascii c in
  ((9 <=? n)%nat && (n <=? 13)%nat) || (n =? 32)%nat.

Fixpoint trimStart (s : string) : string :=
  match s with
  | EmptyString => EmptyString
  | String c s' => if isSpace c then trimStart s' else s
  end.

(** [trimEnd] keeps a character when it is not a space or when something
    survives after it. *)
Fixpoint trimEnd (s : string) : string :=
  match s with
  | EmptyString => EmptyString
  | String c s' =>
      match trimEnd s' with
      | EmptyString => if isSpace c then EmptyString else String c EmptyString
      | t => String c t
      end
  end.

Definition trim (s : string) : string := trimEnd (trimStart s).

(** [text.includes(sub)] *)
Fixpoint includes (text sub : string) : bool :=
  if String.prefix sub text then true
  else match text with
       | EmptyString => false
       | String _ rest => includes rest sub
       end.

(** [s.split(/\s+/)]: the pieces between maximal runs of white space.  A
    leading or trailing run yields an empty first or last piece, and the
    empty string splits into one empty piece. *)
Fixpoint splitSpacesFrom (s cur : string) (inRun : bool) : list string :=
  match s with
  | EmptyString => [cur]
  | String c rest =>
      if isSpace c then
        if inRun then splitSpacesFrom rest EmptyString true
        else cur :: splitSpacesFrom rest EmptyString true
      else splitSpacesFrom rest (cur +:+ String c EmptyString) false
  end.

Definition splitSpaces (s : string) : list string :=
  splitSpacesFrom s EmptyString false.

(** [parts.join(sep)] *)
Fixpoint join (sep : string) (parts : list string) : string :=
  match parts with
  | [] => EmptyString
  | [p] => p
  | p :: rest => p +:+ sep +:+ join sep rest
  end.

(** Truthiness of a string: only the empty string is falsy. *)
Definition truthy (s : string) : bool :=
  match s with EmptyString => false | _ => true end.

(** [a || b] on strings. *)
Definition orElse (a b : string) : string := if truthy a then a else b.

End JS.

(** ** Regular expressions

    The patterns of the configuration use literals, [?], [.*], [\d] and the
    anchors [^] and [$], all with the [i] flag.  [RegExp.test] only asks
    whether some substring belongs to the language, which Brzozowski
    derivatives decide. *)

Module Regex.

Inductive re : Type :=
| Nul                       (* matches nothing *)
| Eps                       (* the empty word *)
| Chr (c : ascii)
| Dot                       (* [.]: anything but a line terminator *)
| AnyChar                   (* any character, used for the unanchored ends *)
| Digit                     (* [\d] *)
| Cat (r1 r2 : re)
| Alt (r1 r2 : re)
| Star (r : re).

Definition Opt (r : re) : re := Alt r Eps.

Fixpoint lit (s : string) : re :=
  match s with
  | EmptyString => Eps
  | String c s' => Cat (Chr c) (lit s')
  end.

Record RegExp : Type := {
  anchorStart : bool;       (* pattern begins with [^] *)
  body : re;
  anchorEnd : bool;         (* pattern ends with [$] *)
  ignoreCase : bool         (* the [i] flag *)
}.

Fixpoint nullable (r : re) : bool :=
  match r with
  | Nul | Chr _ | Dot | AnyChar | Digit => false
  | Eps | Star _ => true
  | Cat r1 r2 => nullable r1 && nullable r2
  | Alt r1 r2 => nullable r1 || nullable r2
  end.

Definition cat (r1 r2 : re) : re :=
  match r1, r2 with
  | Nul, _ | _, Nul => Nul
  | Eps, r | r, Eps => r
  | _, _ => Cat r1 r2
  end.

Definition alt (r1 r2 : re) : re :=
  match r1, r2 with
  | Nul, r | r, Nul => r
  | _, _ => Alt r1 r2
  end.

Definition isDigit (c : ascii) : bool :=
  let n := nat_of_ascii c in (48 <=? n)%nat && (n <=? 57)%nat.

Definition isLineTerminator (c : ascii) : bool :=
  let n := nat_of_ascii c in (n =? 10)%nat || (n =? 13)%nat.

Definition sameChar (i : bool) (c x : ascii) : bool :=
  if i then Ascii.eqb (JS.upperChar c) (JS.upperChar x) else Ascii.eqb c x.

Fixpoint deriv (i : bool) (x : ascii) (r : re) : re :=
  match r with
  | Nul | Eps => Nul
  | Chr c => if sameChar i c x then Eps else Nul
  | Dot => if isLineTerminator x then Nul else Eps
  | AnyChar => Eps
  | Digit => if isDigit x then Eps else Nul
  | Cat r1 r2 =>
      alt (cat (deriv i x r1) r2)
          (if nullable r1 then deriv i x r2 else Nul)
  | Alt r1 r2 => alt (deriv i x r1) (deriv i x r2)
  | Star r1 => cat (deriv i x r1) (Star r1)
  end.

Fixpoint matches (i : bool) (r : re) (s : string) : bool :=
  match s with
  | EmptyString => nullable r
  | String x s' => matches i (deriv i x r) s'
  end.

Definition searchForm (p : RegExp) : re :=
  Cat (if anchorStart p then Eps else Star AnyChar)
      (Cat (body p) (if anchorEnd p then Eps else Star AnyChar)).

(** [pattern.test(value)] *)
Definition test (p : RegExp) (value : string) : bool :=
  matches (ignoreCase p) (searchForm p) value.

(** [/body/i], [/^body/i] and [/body$/i]. *)
Definition containing (r : re) : RegExp :=
  {| anchorStart := false; body := r; anchorEnd := false; ignoreCase := true |}.
Definition starting (r : re) : RegExp :=
  {| anchorStart := true; body := r; anchorEnd := false; ignoreCase := true |}.
Definition ending (r : re) : RegExp :=
  {| anchorStart := false; body := r; anchorEnd := true; ignoreCase := true |}.

End Regex.

(** ** Domain and tier configuration *)

Import Regex.

Record DomainConfig : Type := {
  name : string;
  displayName : string;
  prefixes : list RegExp;
  tier1Keywords : list RegExp;
  tier2Keywords : list RegExp;
  tier3Keywords : list RegExp;
  excludePatterns : list RegExp;
  priorityServices : list string
}.

Record ServiceClassification : Type := {
  cl_domain : option string;
  cl_tier : Z;
  cl_priority : Z;
  cl_isPriorityService : bool
}.

(** [Z?] followed by a literal, as in [/^Z?FAR_/i]. *)
Definition optZ (s : string) : re := Cat (Opt (Chr "Z")) (lit s).

(** [a.*b] *)
Definition thenLater (a b : string) : re := Cat (lit a) (Cat (Star Dot) (lit b)).

(** The three entries of [DOMAIN_CONFIGS], in declaration order. *)
Definition AR_DOMAIN : DomainConfig :=
    {| name := "AR";
       displayName := "Accounts Receivable";
       prefixes :=
         [ starting (optZ "FAR_");
           starting (optZ "FIAR_");
           containing (lit "RECEIVABLE");
           starting (Cat (optZ "UI_") (Cat (Star Dot) (lit "RECEIVABLE")));
           starting (optZ "UI_COLL");
           starting (optZ "UDMO_COLLECTION") ];
       tier1Keywords :=
         [ containing (lit "CUSTOMER_LINE_ITEMS");
           containing (lit "PAYMENT_POST");
           containing (lit "MANAGE");
           containing (lit "CREATE");
           containing (lit "WORKLIST");
           containing (lit "DOWN_PAYMENT");
           containing (Cat (lit "POSTING_RULE") (Opt (Chr "S")));
           containing (lit "INCOMING_PAYT") ];
       tier2Keywords :=
         [ containing (lit "DISPLAY");
           containing (lit "HISTORY");
           containing (Cat (lit "LIST_") (Cat (Opt (Chr "V")) (Opt Digit)));
           containing (lit "BALANCES");
           containing (lit "CORRESPONDENCE");
           containing (lit "INSPECT");
           containing (lit "VALUATION");
           containing (lit "RESERVE") ];
       tier3Keywords :=
         [ ending (lit "_CDS");
           containing (lit "_OVP_");
           containing (lit "PROCFLOW");
           containing (lit "_FS_SRV");
           containing (lit "OVERVIEW");
           containing (lit "TRACKER");
           containing (lit "BREAKDOWN");
           containing (lit "AGING");
           containing (lit "PROGRESS") ];
       excludePatterns := [ starting (lit "RAR_") ];
       priorityServices := [ "ZFAR_CUSTOMER_LINE_ITEMS_0001" ] |}.

Definition SD_DOMAIN : DomainConfig :=
    {| name := "SD";
       displayName := "Sales & Distribution";
       prefixes :=
         [ starting (optZ "SD_");
           containing (lit "BILLING");
           containing (lit "INVOICE");
           containing (thenLater "CREDIT" "MEMO");
           containing (thenLater "DEBIT" "MEMO") ];
       tier1Keywords :=
         [ containing (lit "MANAGE");
           containing (lit "CREATE");
           containing (lit "_WL_SRV") ];
       tier2Keywords :=
         [ containing (lit "DISPLAY");
           containing (lit "LIST");
           containing (lit "_OP_SRV") ];
       tier3Keywords :=
         [ ending (lit "_CDS");
           containing (lit "PROCFLOW");
           containing (lit "_FS_SRV") ];
       excludePatterns := [];
       priorityServices :=
         [ "ZSD_CUSTOMER_INVOICES_MANAGE_0001";
           "ZSD_CUSTOMER_INVOICES_CREATE_0001" ] |}.

Definition FI_DOMAIN : DomainConfig :=
    {| name := "FI";
       displayName := "Finance";
       prefixes :=
         [ starting (optZ "FAC_");
           starting (optZ "FI_");
           containing (lit "DUNNING");
           containing (lit "COLLECTION");
           containing (thenLater "FINANCIAL" "DOC") ];
       tier1Keywords :=
         [ containing (lit "MANAGE");
           containing (lit "POST");
           containing (lit "PROPOSAL");
           containing (lit "EXCEPTION") ];
       tier2Keywords :=
         [ containing (lit "DISPLAY");
           containing (lit "HISTORY");
           containing (lit "REVERSAL") ];
       tier3Keywords :=
         [ ending (lit "_CDS");
           containing (lit "_OVP_");
           containing (lit "DISTRIBUTION") ];
       excludePatterns := [];
       priorityServices := [] |}.

Definition DOMAIN_CONFIGS : list DomainConfig :=
  [ AR_DOMAIN; SD_DOMAIN; FI_DOMAIN ].

Module PRIORITY_SCORES.
Definition PRIORITY_SERVICE : Z := 1.
Definition TIER_1 : Z := 10.
Definition TIER_2 : Z := 20.
Definition TIER_3 : Z := 30.
Definition UNCLASSIFIED : Z := 100.
End PRIORITY_SCORES.

Definition matchesAny (value : string) (patterns : list RegExp) : bool :=
  existsb (fun pattern => test pattern value) patterns.

Definition determineTier (serviceId title : string) (config : DomainConfig) : Z :=
  let searchText := serviceId +:+ " " +:+ title in
  if matchesAny searchText (tier1Keywords config) then 1
  else if matchesAny searchText (tier2Keywords config) then 2
  else if matchesAny searchText (tier3Keywords config) then 3
  else 1.

(** The body of [classifyService]'s loop for one domain: [None] stands for
    falling through to the next domain. *)
Definition classifyAgainst (config : DomainConfig) (serviceId title : string)
  : option ServiceClassification :=
  let upperServiceId := JS.toUpperCase serviceId in
  if matchesAny upperServiceId (excludePatterns config) then None
  else if matchesAny upperServiceId (prefixes config)
          || matchesAny title (prefixes config) then
    let isPriorityService :=
      existsb (fun ps => String.eqb (JS.toUpperCase ps) upperServiceId)
              (priorityServices config) in
    if isPriorityService then
      Some {| cl_domain := Some (name config);
              cl_tier := 1;
              cl_priority := PRIORITY_SCORES.PRIORITY_SERVICE;
              cl_isPriorityService := true |}
    else
      let tier := determineTier serviceId title config in
      let basePriority :=
        if (tier =? 1)%Z then PRIORITY_SCORES.TIER_1
        else if (tier =? 2)%Z then PRIORITY_SCORES.TIER_2
        else PRIORITY_SCORES.TIER_3 in
      Some {| cl_domain := Some (name config);
              cl_tier := tier;
              cl_priority := basePriority;
              cl_isPriorityService := false |}
  else None.

Fixpoint classifyOver (configs : list DomainConfig) (serviceId title : string)
  : ServiceClassification :=
  match configs with
  | [] => {| cl_domain := None;
             cl_tier := 0;
             cl_priority := PRIORITY_SCORES.UNCLASSIFIED;
             cl_isPriorityService := false |}
  | config :: rest =>
      match classifyAgainst config serviceId title with
      | Some c => c
      | None => classifyOver rest serviceId title
      end
  end.

Definition classifyService (serviceId title : string) : ServiceClassification :=
  classifyOver DOMAIN_CONFIGS serviceId title.

Definition isExcludedService (serviceId : string) : bool :=
  let upperServiceId := JS.toUpperCase serviceId in
  existsb (fun config => matchesAny upperServiceId (excludePatterns config))
          DOMAIN_CONFIGS.

Definition getDomainDisplayName (domain : option string) : string :=
  match domain with
  | None => "Unclassified"
  | Some d =>
      if JS.truthy d then
        match find (fun c => String.eqb (name c) d) DOMAIN_CONFIGS with
        | Some c => JS.orElse (displayName c) d
        | None => d
        end
      else "Unclassified"
  end.

(** ** Service hints *)

Record ServiceHint : Type := {
  label : string;
  useFor : string;
  entities : option (list string);
  tcode : option string
}.

(** The double quote character, for the one hint text that quotes. *)
Definition dq : string := String (ascii_of_nat 34) EmptyString.

(** [SERVICE_HINTS], in the order of the object literal. *)
Definition SERVICE_HINTS : list (string * ServiceHint) :=
  [
    ("ZFAR_CUSTOMER_LINE_ITEMS_0001",
     {| label := "Customer Line Items (FBL5N)";
        useFor := ("View INDIVIDUAL customer invoices, line items, open items "
          +:+ "list, cleared items, document details, specific invoice "
          +:+ "lookup, set payment blocks. Use this for item-level details "
          +:+ "NOT for aggregate balances/totals.");
        entities := Some ["Item"; "UpdatableItem"; "Customer"];
        tcode := Some "FBL5N" |});
    ("ZFAR_PAYMENT_POST_SRV_0001",
     {| label := "Post Incoming Payments (F-28)";
        useFor := ("Post customer payments, cash receipts, payment on account, "
          +:+ "clear open items");
        entities := Some ["Payment"; "PaymentItem"];
        tcode := Some "F-28" |});
    ("ZFAR_DOWN_PAYMENT_REQUEST_MANAGE_SR_0001",
     {| label := "Manage Down Payment Requests";
        useFor := ("Create, display, modify customer down payment requests and "
          +:+ "advances");
        entities := Some ["DownPaymentRequest"];
        tcode := Some "F-37" |});
    ("ZFAR_MANAGE_PR_SRV_0001",
     {| label := "Manage Posting Rules";
        useFor := ("Create and maintain automatic posting rules for incoming "
          +:+ "payments");
        entities := Some ["PostingRule"];
        tcode := None |});
    ("ZFAR_MANAGE_INCOMING_PAYT_FILES_SRV_0001",
     {| label := "Manage Incoming Payment Files";
        useFor := ("Upload, process, and manage bank payment files (lockbox, "
          +:+ "BAI, MT940)");
        entities := Some ["PaymentFile"; "PaymentFileItem"];
        tcode := None |});
    ("ZFAR_MY_DUNNING_PROPOSAL_SRV_0001",
     {| label := "Dunning Proposal Management";
        useFor := ("Create dunning proposals, review dunning letters, execute "
          +:+ "dunning runs");
        entities := Some ["DunningProposal"; "DunningItem"];
        tcode := Some "F150" |});
    ("ZFAR_DISP_PROCESS_FLOW_SRV_0001",
     {| label := "AR Document Process Flow";
        useFor := "View document flow from sales order to invoice to payment";
        entities := Some ["ProcessFlow"; "DocumentFlow"];
        tcode := None |});
    ("ZFAR_DISP_PAYMENT_CARD_DATA_SRV_0001",
     {| label := "Payment Card Data";
        useFor := ("View and manage credit card payment information for "
          +:+ "customers");
        entities := Some ["PaymentCard"];
        tcode := None |});
    ("ZUI_PROCESSRECEIVABLES_MAN_0001",
     {| label := "Manage Customer Receivables";
        useFor := ("Process receivables, apply payments, handle disputes, "
          +:+ "manage collections");
        entities := Some ["Receivable"; "Payment"; "Dispute"];
        tcode := None |});
    ("ZUI_COLL_CONTACT_MANAGE_0001",
     {| label := "Collections Contact Management";
        useFor := ("Log collection calls, schedule follow-ups, record customer "
          +:+ "promises to pay");
        entities := Some ["CollectionContact"; "PromiseToPay"];
        tcode := None |});
    ("ZUI_COLLECTIONS_EMAIL_0001",
     {| label := "Collections Email";
        useFor := "Send collection emails to customers, track email history";
        entities := Some ["CollectionEmail"];
        tcode := None |});
    ("ZUDMO_COLLECTION_WORKLIST_0001",
     {| label := "Collections Worklist";
        useFor := ("View and work collection worklist items, prioritize "
          +:+ "collection activities");
        entities := Some ["WorklistItem"; "CollectionCase"];
        tcode := None |});
    ("ZFAR_BALANCES_V2_SRV_0001",
     {| label := "Customer Balances (FD10N)";
        useFor := ("Show customer BALANCE, total balance, account balance "
          +:+ "summary, aggregate amounts owed by customer per fiscal "
          +:+ "year. Use this for "
          +:+ dq
          +:+ "show balance"
          +:+ dq
          +:+ " or "
          +:+ dq
          +:+ "what is the balance"
          +:+ dq
          +:+ " queries, NOT for individual line items.");
        entities := Some ["CustomerBalanceSet"; "BalanceComparisonSet"; "SpecialGLBalanceSet"];
        tcode := Some "FD10N" |});
    ("ZFAR_CUSTOMER_LIST_V2_0001",
     {| label := "Customer Master List";
        useFor := "Search and browse customer master data";
        entities := Some ["Customer"];
        tcode := None |});
    ("ZFAR_DUNNING_HISTORY_SRV_0001",
     {| label := "Dunning History";
        useFor := "View dunning history, past dunning letters sent to customers";
        entities := Some ["DunningHistory"];
        tcode := None |});
    ("ZFAR_CORRESPONDENCE_HISTORY_SRV_0001",
     {| label := "AR Correspondence History";
        useFor := ("View account statements, balance confirmations sent to "
          +:+ "customers");
        entities := Some ["Correspondence"];
        tcode := None |});
    ("ZFAR_INSPECT_ITEMS_CHNGLOG_SRV_0001",
     {| label := "Line Item Change Log";
        useFor := ("View audit trail of changes to AR line items (who changed "
          +:+ "what, when)");
        entities := Some ["ChangeLog"];
        tcode := None |});
    ("ZFAR_DOUBTFUL_ACCTS_VALUATION_SRV_0001",
     {| label := "Doubtful Accounts Valuation";
        useFor := "View bad debt provisions, doubtful receivables valuation";
        entities := Some ["ValuationResult"];
        tcode := None |});
    ("ZFAR_BAD_DEBT_RESERVE_SRV_0001",
     {| label := "Bad Debt Reserve";
        useFor := "View bad debt reserve calculations and allowances";
        entities := Some ["BadDebtReserve"];
        tcode := None |});
    ("ZUI_HOBRECEIVABLES_DISPLAY_0001",
     {| label := "Receivables Overview Display";
        useFor := "Display receivables overview, high-level AR summaries";
        entities := Some ["ReceivablesOverview"];
        tcode := None |});
    ("ZC_TOTALACCOUNTSRECEIVABLES_CDS_0001",
     {| label := "Total Accounts Receivable Analytics";
        useFor := ("View AR KPIs, aging analysis, total receivables by company "
          +:+ "code, aging buckets report, overdue amounts dashboard, AR "
          +:+ "analytics");
        entities := Some ["TotalReceivables"; "AgingBucket"];
        tcode := None |});
    ("ZFAR_AR_OVP_SRV_0001",
     {| label := "AR Overview Page";
        useFor := ("Accounts receivable dashboard, AR manager overview, key "
          +:+ "metrics and charts");
        entities := Some ["AROverview"; "ARMetrics"];
        tcode := None |})
  ].

(** The first entry whose key equals the id, both upper-cased. *)
Definition getServiceHint (serviceId : string) : option ServiceHint :=
  let upperServiceId := JS.toUpperCase serviceId in
  match find (fun entry => String.eqb (JS.toUpperCase (fst entry)) upperServiceId)
             SERVICE_HINTS with
  | Some (_, hint) => Some hint
  | None => None
  end.

(** ** SAP types ([types/sap-types.ts]) *)

Module Property.
Record t : Type := {
  name : string;
  type : string;
  nullable : bool;
  maxLength : option string
}.
End Property.

Module EntityType.
Record t : Type := {
  name : string;
  entitySet : option string;
  namespace : string;
  properties : list Property.t;
  keys : list string;
  creatable : bool;
  updatable : bool;
  deletable : bool;
  addressable : bool
}.
End EntityType.

Module ServiceMetadata.
Record t : Type := {
  entityTypes : list EntityType.t;
  version : string;
  namespace : string
}.
End ServiceMetadata.

(** The classification fields are optional in the interface; [None] is
    [undefined] (or [null] for the domain). *)
Module ODataService.
Record t : Type := {
  id : string;
  version : string;
  title : string;
  description : string;
  url : string;
  metadataUrl : string;
  metadata : option ServiceMetadata.t;
  domain : option string;
  tier : option Z;
  priority : option Z;
  isPriorityService : option bool
}.

Definition withMetadata (s : t) (m : ServiceMetadata.t) : t :=
  {| id := id s; version := version s; title := title s;
     description := description s; url := url s;
     metadataUrl := metadataUrl s; metadata := Some m;
     domain := domain s; tier := tier s; priority := priority s;
     isPriorityService := isPriorityService s |}.
End ODataService.

(** The tagging step of [discoverCatalog]: the catalog entry extended with
    its classification. *)
Definition tagService (s : ODataService.t) : ODataService.t :=
  let classification := classifyService (ODataService.id s) (ODataService.title s) in
  {| ODataService.id := ODataService.id s;
     ODataService.version := ODataService.version s;
     ODataService.title := ODataService.title s;
     ODataService.description := ODataService.description s;
     ODataService.url := ODataService.url s;
     ODataService.metadataUrl := ODataService.metadataUrl s;
     ODataService.metadata := ODataService.metadata s;
     ODataService.domain := cl_domain classification;
     ODataService.tier := Some (cl_tier classification);
     ODataService.priority := Some (cl_priority classification);
     ODataService.isPriorityService := Some (cl_isPriorityService classification) |}.

(** [discoverCatalog] after the catalog has been fetched: tag every service,
    then drop the excluded ones. *)
Definition discoverCatalog (services : list ODataService.t) : list ODataService.t :=
  let taggedServices := map tagService services in
  List.filter (fun service => negb (isExcludedService (ODataService.id service)))
              taggedServices.

(** ** Scores *)

Definition Qgtb (a b : Q) : bool :=
  match Qcompare a b with Gt => true | _ => false end.

Definition Qneqb (a b : Q) : bool := negb (Qeq_bool a b).

Record Scored : Type := {
  service : ODataService.t;
  score : Q;
  matchReason : string
}.

(** ** Pattern search ([patternSearch]) *)

Record SearchTarget : Type := {
  text : string;
  weight : Q;
  targetName : string
}.

Definition hintText (hint : option ServiceHint) (field : ServiceHint -> option string)
  : string :=
  match hint with
  | Some h => match field h with
              | Some v => JS.orElse (JS.toLowerCase v) EmptyString
              | None => EmptyString
              end
  | None => EmptyString
  end.

Definition searchTargets (service : ODataService.t) : list SearchTarget :=
  let hint := getServiceHint (ODataService.id service) in
  [ {| text := JS.toLowerCase (ODataService.id service);
       weight := 9 # 10; targetName := "ID" |};
    {| text := JS.toLowerCase (ODataService.title service);
       weight := 85 # 100; targetName := "Title" |};
    {| text := JS.toLowerCase (ODataService.description service);
       weight := 6 # 10; targetName := "Description" |};
    {| text := hintText hint (fun h => Some (label h));
       weight := 95 # 100; targetName := "Label" |};
    {| text := hintText hint (fun h => Some (useFor h));
       weight := 9 # 10; targetName := "UseFor" |};
    {| text := hintText hint tcode;
       weight := 85 # 100; targetName := "TCode" |};
    {| text := hintText hint (fun h => option_map (JS.join " ") (entities h));
       weight := 8 # 10; targetName := "Entities" |} ].

(** [queryLower.split(/\s+/).filter(w => w.length > 2)] *)
Definition queryWordsOf (queryLower : string) : list string :=
  List.filter (fun w => (2 <? String.length w)%nat) (JS.splitSpaces queryLower).

(** One iteration of the loop over the search targets; the state is
    [(bestScore, matchReason)]. *)
Definition considerTarget (queryLower : string) (queryWords : list string)
    (acc : Q * string) (target : SearchTarget) : Q * string :=
  let '(bestScore, reason) := acc in
  if negb (JS.truthy (text target)) then acc
  else if JS.includes (text target) queryLower then
    if Qgtb (weight target) bestScore
    then (weight target, targetName target +:+ " match")
    else acc
  else if (1 <? length queryWords)%nat then
    let allWordsMatch := forallb (fun word => JS.includes (text target) word) queryWords in
    if allWordsMatch && Qgtb ((weight target * (9 # 10))%Q) bestScore
    then ((weight target * (9 # 10))%Q, targetName target +:+ " (all words)")
    else acc
  else if (length queryWords =? 1)%nat
          && JS.includes (text target) (hd EmptyString queryWords) then
    if Qgtb ((weight target * (85 # 100))%Q) bestScore
    then ((weight target * (85 # 100))%Q, targetName target +:+ " (partial)")
    else acc
  else acc.

Definition scoreService (queryLower : string) (queryWords : list string)
    (service : ODataService.t) : Scored :=
  let '(bestScore, reason) :=
    fold_left (considerTarget queryLower queryWords) (searchTargets service)
              (0%Q, EmptyString) in
  {| service := service; score := bestScore; matchReason := reason |}.

Definition patternSearch (services : list ODataService.t) (queryLower : string)
  : list Scored :=
  let queryWords := queryWordsOf queryLower in
  List.filter (fun item => Qgtb (score item) 0%Q)
              (map (scoreService queryLower queryWords) services).

(** ** Exceptions *)

Inductive Exc (A : Type) : Type :=
| Ok (value : A)
| Throw (message : string).

Arguments Ok {A} value.
Arguments Throw {A} message.

Definition bindExc {A B : Type} (c : Exc A) (k : A -> Exc B) : Exc B :=
  match c with
  | Ok a => k a
  | Throw e => Throw e
  end.

Notation "x <- c ;; k" := (bindExc c (fun x => k))
  (at level 100, c at next level, right associativity).

(** [try { c } catch (e) { handler e }] *)
Definition tryCatch {A : Type} (c : Exc A) (handler : string -> A) : A :=
  match c with
  | Ok a => a
  | Throw e => handler e
  end.

(** ** Number formatting *)

Definition showNat (n : nat) : string := NilZero.string_of_uint (Nat.to_uint n).

Definition showZ (z : Z) : string :=
  if (z <? 0)%Z then "-" +:+ showNat (Z.to_nat (- z)) else showNat (Z.to_nat z).

(** [x.toFixed(0)]: the nearest integer, ties to the larger magnitude, the
    sign printed apart. *)
Definition toFixed0 (x : Q) : string :=
  let nearest (y : Q) := Z.to_nat (Qfloor (y + (1 # 2))%Q) in
  if Qgtb 0%Q x then "-" +:+ showNat (nearest (- x)%Q) else showNat (nearest x).

(** ** Level 1: discovery ([discoverServicesAndEntities]) *)

(** What the registry reads of a semantic [SearchResult]. *)
Record SearchResult : Type := {
  metadata_serviceId : string;
  result_score : Q
}.

(** The embedding service as the registry sees it: [isReady()] and
    [searchServices(query, topK, minScore)], which may throw. *)
Record EmbeddingService : Type := {
  isReady : bool;
  searchServices : string -> nat -> Q -> Exc (list SearchResult)
}.

Record DiscoverArgs : Type := {
  arg_query : option string;
  arg_domain : option string;
  arg_limit : option nat
}.

Definition queryOf (args : DiscoverArgs) : string :=
  match arg_query args with
  | Some q => JS.orElse (JS.trim q) EmptyString
  | None => EmptyString
  end.

Definition domainFilterOf (args : DiscoverArgs) : string :=
  match arg_domain args with
  | Some d => JS.orElse (JS.toUpperCase d) "ALL"
  | None => "ALL"
  end.

(** [args.limit || 20] *)
Definition limitOf (args : DiscoverArgs) : nat :=
  match arg_limit args with
  | Some (S n) => S n
  | _ => 20
  end.

Definition hasDomain (domainFilter : string) (s : ODataService.t) : bool :=
  match ODataService.domain s with
  | Some d => String.eqb d domainFilter
  | None => false
  end.

Definition filterByDomain (catalogServices : list ODataService.t)
    (domainFilter : string) : list ODataService.t :=
  if negb (String.eqb domainFilter "ALL")
  then List.filter (hasDomain domainFilter) catalogServices
  else catalogServices.

(** The loop that converts semantic results: results whose service is not
    among the filtered services are skipped. *)
Fixpoint semanticMatches (services : list ODataService.t)
    (semanticResults : list SearchResult) : list Scored :=
  match semanticResults with
  | [] => []
  | result :: rest =>
      match find (fun s => String.eqb (ODataService.id s) (metadata_serviceId result))
                 services with
      | Some s =>
          {| service := s;
             score := result_score result;
             matchReason :=
               "Semantic match (" +:+ toFixed0 (result_score result * 100)%Q +:+ "%)" |}
          :: semanticMatches services rest
      | None => semanticMatches services rest
      end
  end.

(** The body of the inner [try]: the method label and the scored services
    after it. *)
Definition semanticStage (embedding : EmbeddingService)
    (services : list ODataService.t) (query : string) (limit : nat)
  : Exc (string * list Scored) :=
  semanticResults <- searchServices embedding query (limit * 2) (1 # 4) ;;
  match semanticResults with
  | [] => Ok ("none", [])
  | _ => Ok ("semantic", semanticMatches services semanticResults)
  end.

(** Pattern matching and, after it, every service with the neutral score. *)
Definition allServices (services : list ODataService.t) : list Scored :=
  map (fun s => {| service := s; score := 5 # 10; matchReason := "All services" |})
      services.

Definition lexicalStage (services : list ODataService.t) (queryLower : string)
    (found : string * list Scored) : string * list Scored :=
  match snd found with
  | [] => ("pattern", patternSearch services queryLower)
  | _ => found
  end.

Definition fallbackStage (services : list ODataService.t) (query : string)
    (found : string * list Scored) : string * list Scored :=
  match snd found with
  | [] => (if JS.truthy query then "fallback" else "all", allServices services)
  | _ => found
  end.

Definition collectCandidates (embeddingService : option EmbeddingService)
    (services : list ODataService.t) (query : string) (limit : nat)
  : string * list Scored :=
  let queryLower := JS.toLowerCase query in
  let none : string * list Scored := ("none", []) in
  let searched :=
    if JS.truthy query then
      let semantic :=
        match embeddingService with
        | Some embedding =>
            if isReady embedding
            then tryCatch (semanticStage embedding services query limit)
                          (fun semanticError => none)
            else none
        | None => none
        end in
      lexicalStage services queryLower semantic
    else none in
  fallbackStage services query searched.

(** [a || d] on an optional number: [undefined] and [0] are falsy. *)
Definition numberOr (a : option Z) (d : Z) : Z :=
  match a with
  | Some 0%Z | None => d
  | Some v => v
  end.

Definition flagTruthy (b : option bool) : bool :=
  match b with Some true => true | _ => false end.

(** [a !== b] on an optional boolean. *)
Definition flagDiffers (a b : option bool) : bool :=
  match a, b with
  | Some x, Some y => negb (Bool.eqb x y)
  | None, None => false
  | _, _ => true
  end.

(** The comparator handed to [sort]; only the sign of the result matters. *)
Definition compareScored (a b : Scored) : Q :=
  if flagDiffers (ODataService.isPriorityService (service a))
                 (ODataService.isPriorityService (service b)) then
    if flagTruthy (ODataService.isPriorityService (service a)) then (-1)%Q else 1%Q
  else
    let tierA := numberOr (ODataService.tier (service a)) 99 in
    let tierB := numberOr (ODataService.tier (service b)) 99 in
    if negb (tierA =? tierB)%Z then inject_Z (tierA - tierB)
    else
      let prioA := numberOr (ODataService.priority (service a)) 100 in
      let prioB := numberOr (ODataService.priority (service b)) 100 in
      if negb (prioA =? prioB)%Z then inject_Z (prioA - prioB)
      else (score b - score a)%Q.

(** [Array.prototype.sort] with a comparator.  The sort is stable, so for a
    consistent comparator its result is the one of a stable insertion
    sort: an element moves past exactly the elements it compares greater
    than. *)
Section Sort.
Context {A : Type} (cmp : A -> A -> Q).

Fixpoint insertBy (x : A) (l : list A) : list A :=
  match l with
  | [] => [x]
  | y :: l' => if Qgtb (cmp x y) 0%Q then y :: insertBy x l' else x :: l
  end.

Definition sortBy (l : list A) : list A := fold_right insertBy [] l.
End Sort.

Definition getTierLabel (tier : option Z) : string :=
  match tier with
  | Some 1%Z => "Tier 1 (Transactional)"
  | Some 2%Z => "Tier 2 (Display)"
  | Some 3%Z => "Tier 3 (Analytics)"
  | _ => "Unclassified"
  end.

Record ResultRow : Type := {
  row_serviceId : string;
  row_serviceName : string;
  row_useFor : string;
  row_keyEntities : option (list string);
  row_tcode : option string;
  row_domain : option string;
  row_domainName : string;
  row_tier : option Z;
  row_tierLabel : string;
  row_isPriority : option bool;
  row_matchReason : string;
  row_hasMetadata : bool
}.

Definition resultRow (item : Scored) : ResultRow :=
  let s := service item in
  let hint := getServiceHint (ODataService.id s) in
  {| row_serviceId := ODataService.id s;
     row_serviceName :=
       match hint with
       | Some h => JS.orElse (label h) (ODataService.title s)
       | None => ODataService.title s
       end;
     row_useFor :=
       match hint with
       | Some h => JS.orElse (useFor h) (ODataService.description s)
       | None => ODataService.description s
       end;
     row_keyEntities := match hint with Some h => entities h | None => None end;
     row_tcode := match hint with Some h => tcode h | None => None end;
     row_domain := ODataService.domain s;
     row_domainName := getDomainDisplayName (ODataService.domain s);
     row_tier := ODataService.tier s;
     row_tierLabel := getTierLabel (ODataService.tier s);
     row_isPriority := ODataService.isPriorityService s;
     row_matchReason := matchReason item;
     row_hasMetadata :=
       match ODataService.metadata s with Some _ => true | None => false end |}.

(** The [response] object that the tool serialises into its text. *)
Record DiscoveryResponse : Type := {
  resp_query : string;
  resp_domain : string;
  searchMethod : string;
  totalFound : nat;
  showing : nat;
  results : list ResultRow
}.

(** The ranking part of the tool: the method label, the sorted candidates
    and the slice that is shown ([limitedResults]). *)
Definition rankedCandidates (catalogServices : list ODataService.t)
    (embeddingService : option EmbeddingService) (args : DiscoverArgs)
  : string * list Scored :=
  let query := queryOf args in
  let services := filterByDomain catalogServices (domainFilterOf args) in
  let '(method, scoredServices) :=
    collectCandidates embeddingService services query (limitOf args) in
  (method, sortBy compareScored scoredServices).

Definition limitedResults (catalogServices : list ODataService.t)
    (embeddingService : option EmbeddingService) (args : DiscoverArgs)
  : list Scored :=
  firstn (limitOf args) (snd (rankedCandidates catalogServices embeddingService args)).

(** The tool itself.  Nothing in its body throws once the semantic stage
    has been guarded, so the outer [catch] is never entered and the result
    is always the response. *)
Definition discoverServicesAndEntities (catalogServices : list ODataService.t)
    (embeddingService : option EmbeddingService) (args : DiscoverArgs)
  : Exc DiscoveryResponse :=
  let query := queryOf args in
  let '(method, scoredServices) :=
    rankedCandidates catalogServices embeddingService args in
  let shown := map resultRow (firstn (limitOf args) scoredServices) in
  Ok {| resp_query := JS.orElse query "(all)";
        resp_domain := domainFilterOf args;
        searchMethod := method;
        totalFound := length scoredServices;
        showing := length shown;
        results := shown |}.

(** ** Lazy metadata and execution (Levels 2 and 3) *)

(** The values a tool parameter can hold, and [String(v)], which is also
    what a template literal prints. *)
Inductive JSValue : Type :=
| JString (s : string)
| JNumber (z : Z)
| JBool (b : bool)
| JNull.

Definition toStringJS (v : JSValue) : string :=
  match v with
  | JString s => s
  | JNumber z => showZ z
  | JBool true => "true"
  | JBool false => "false"
  | JNull => "null"
  end.

Record QueryOptions : Type := {
  opt_filter : option string;
  opt_select : option string;
  opt_expand : option string;
  opt_orderby : option string;
  opt_top : option Z;
  opt_skip : option Z
}.

(** The calls the registry makes on the SAP client. *)
Inductive SapCall : Type :=
| ReadEntitySet (url : string) (entitySet : option string) (options : QueryOptions)
| ReadEntity (url : string) (entitySet : option string) (key : string)
| CreateEntity (url : string) (entitySet : option string) (data : gmap string JSValue)
| UpdateEntity (url : string) (entitySet : option string) (key : string)
    (data : gmap string JSValue)
| DeleteEntity (url : string) (entitySet : option string) (key : string).

Definition isWrite (c : SapCall) : bool :=
  match c with
  | CreateEntity _ _ _ | UpdateEntity _ _ _ _ | DeleteEntity _ _ _ => true
  | _ => false
  end.

(** One request to the schema provider and whether it succeeded. *)
Record Fetch : Type := {
  fetch_serviceId : string;
  fetch_succeeded : bool
}.

(** The registry's fields together with the two upstream logs, oldest
    entry first. *)
Record World : Type := {
  catalogServices : list ODataService.t;
  metadataCache : gmap string ServiceMetadata.t;
  userToken : option string;
  clientToken : option string;
  fetches : list Fetch;
  sapCalls : list SapCall
}.

Definition withCatalog (w : World) (c : list ODataService.t) : World :=
  {| catalogServices := c; metadataCache := metadataCache w;
     userToken := userToken w; clientToken := clientToken w;
     fetches := fetches w; sapCalls := sapCalls w |}.

Definition withCache (w : World) (m : gmap string ServiceMetadata.t) : World :=
  {| catalogServices := catalogServices w; metadataCache := m;
     userToken := userToken w; clientToken := clientToken w;
     fetches := fetches w; sapCalls := sapCalls w |}.

Definition withClientToken (w : World) (t : option string) : World :=
  {| catalogServices := catalogServices w; metadataCache := metadataCache w;
     userToken := userToken w; clientToken := t;
     fetches := fetches w; sapCalls := sapCalls w |}.

Definition logFetch (w : World) (f : Fetch) : World :=
  {| catalogServices := catalogServices w; metadataCache := metadataCache w;
     userToken := userToken w; clientToken := clientToken w;
     fetches := fetches w ++ [f]; sapCalls := sapCalls w |}.

Definition logCall (w : World) (c : SapCall) : World :=
  {| catalogServices := catalogServices w; metadataCache := metadataCache w;
     userToken := userToken w; clientToken := clientToken w;
     fetches := fetches w; sapCalls := sapCalls w ++ [c] |}.

Definition truthyText (o : option string) : option string :=
  match o with
  | Some s => if JS.truthy s then Some s else None
  | None => None
  end.

Definition truthyNumber (o : option Z) : option Z :=
  match o with
  | Some 0%Z | None => None
  | Some n => Some n
  end.

(** [setUserToken]: the registry keeps the token and hands it to the
    SAP client. *)
Definition setUserToken (token : option string) (w : World) : World :=
  {| catalogServices := catalogServices w; metadataCache := metadataCache w;
     userToken := token; clientToken := token;
     fetches := fetches w; sapCalls := sapCalls w |}.

(** [if (this.userToken) this.sapClient.setUserToken(this.userToken)] *)
Definition refreshClientToken (w : World) : World :=
  match truthyText (userToken w) with
  | Some token => withClientToken w (Some token)
  | None => w
  end.

(** Stateful code that may throw: the state reached is kept when it does. *)
Definition Action (A : Type) : Type := World -> Exc A * World.

Definition ret {A : Type} (a : A) : Action A := fun w => (Ok a, w).

Definition throw {A : Type} (message : string) : Action A :=
  fun w => (Throw message, w).

Definition bindAction {A B : Type} (c : Action A) (k : A -> Action B) : Action B :=
  fun w =>
    match c w with
    | (Ok a, w') => k a w'
    | (Throw e, w') => (Throw e, w')
    end.

Notation "x <~ c ;; k" := (bindAction c (fun x => k))
  (at level 100, c at next level, right associativity).

Definition liftExc {A : Type} (c : Exc A) : Action A := fun w => (c, w).

Definition modify (f : World -> World) : Action unit := fun w => (Ok tt, f w).

Definition findService (services : list ODataService.t) (serviceId : string)
  : option ODataService.t :=
  find (fun s => String.eqb (ODataService.id s) serviceId) services.

(** [service.metadata = m], where [service] is the object that [find]
    returned: the first catalog entry with that id. *)
Fixpoint storeMetadata (serviceId : string) (m : ServiceMetadata.t)
    (services : list ODataService.t) : list ODataService.t :=
  match services with
  | [] => []
  | s :: rest =>
      if String.eqb (ODataService.id s) serviceId
      then ODataService.withMetadata s m :: rest
      else s :: storeMetadata serviceId m rest
  end.

Definition findEntity (m : ServiceMetadata.t) (entityName : string)
  : option EntityType.t :=
  find (fun e => String.eqb (EntityType.name e) entityName)
       (ServiceMetadata.entityTypes m).

(** The members that a parameter object inherits from [Object.prototype],
    each with what [String(member)] prints: the native functions, and for
    [__proto__] the prototype object itself. *)
Definition nativeFunction (name : string) : string :=
  "function " +:+ name +:+ "() { [native code] }".

Definition OBJECT_PROTOTYPE : list (string * string) :=
  [ ("constructor", nativeFunction "Object");
    ("__defineGetter__", nativeFunction "__defineGetter__");
    ("__defineSetter__", nativeFunction "__defineSetter__");
    ("hasOwnProperty", nativeFunction "hasOwnProperty");
    ("__lookupGetter__", nativeFunction "__lookupGetter__");
    ("__lookupSetter__", nativeFunction "__lookupSetter__");
    ("isPrototypeOf", nativeFunction "isPrototypeOf");
    ("propertyIsEnumerable", nativeFunction "propertyIsEnumerable");
    ("toString", nativeFunction "toString");
    ("valueOf", nativeFunction "valueOf");
    ("__proto__", "[object Object]");
    ("toLocaleString", nativeFunction "toLocaleString") ].

Definition inheritedMember (key : string) : option string :=
  option_map snd (find (fun member => String.eqb (fst member) key) OBJECT_PROTOTYPE).

(** [key in parameters]: an own property, given in the call, or an
    inherited one. *)
Definition hasProperty (parameters : gmap string JSValue) (key : string) : bool :=
  match parameters !! key with
  | Some _ => true
  | None => match inheritedMember key with Some _ => true | None => false end
  end.

(** [String(parameters[key])] *)
Definition propertyText (parameters : gmap string JSValue) (key : string) : string :=
  match parameters !! key with
  | Some v => toStringJS v
  | None =>
      match inheritedMember key with
      | Some printed => printed
      | None => "undefined"
      end
  end.

(** [buildKeyValue] *)
Definition keyPart (parameters : gmap string JSValue) (key : string) : Exc string :=
  if negb (hasProperty parameters key) then Throw ("Missing key: " +:+ key)
  else Ok (key +:+ "='" +:+ propertyText parameters key +:+ "'").

Fixpoint mapExc {A B : Type} (f : A -> Exc B) (l : list A) : Exc (list B) :=
  match l with
  | [] => Ok []
  | x :: rest =>
      y <- f x ;;
      ys <- mapExc f rest ;;
      Ok (y :: ys)
  end.

Definition buildKeyValue (entityType : EntityType.t)
    (parameters : gmap string JSValue) : Exc string :=
  let keys := EntityType.keys entityType in
  match keys with
  | [keyName] =>
      if negb (hasProperty parameters keyName) then Throw ("Missing key: " +:+ keyName)
      else Ok (propertyText parameters keyName)
  | _ =>
      parts <- mapExc (keyPart parameters) keys ;;
      Ok (JS.join "," parts)
  end.

Record MetadataArgs : Type := {
  marg_serviceId : string;
  marg_entityName : string
}.

Record ExecuteArgs : Type := {
  xarg_serviceId : string;
  xarg_entityName : string;
  xarg_operation : string;
  xarg_parameters : option (gmap string JSValue);
  xarg_filterString : option string;
  xarg_selectString : option string;
  xarg_expandString : option string;
  xarg_orderbyString : option string;
  xarg_topNumber : option Z;
  xarg_skipNumber : option Z
}.

(** What a tool hands back: its payload, or the text of an [isError]
    response. *)
Inductive ToolResult (A : Type) : Type :=
| Content (payload : A)
| IsError (text : string).

Arguments Content {A} payload.
Arguments IsError {A} text.

Definition newline : string := String (ascii_of_nat 10) EmptyString.

(** The schema of one entity as Level 2 reports it. *)
Record PropertyRow : Type := {
  prop_name : string;
  prop_type : string;
  prop_nullable : bool;
  prop_maxLength : option string;
  prop_isKey : bool
}.

Record EntitySchema : Type := {
  schema_serviceId : string;
  schema_serviceTitle : string;
  schema_domain : option string;
  schema_tier : option Z;
  schema_name : string;
  schema_entitySet : option string;
  schema_namespace : string;
  schema_keyProperties : list string;
  schema_propertyCount : nat;
  schema_creatable : bool;
  schema_updatable : bool;
  schema_deletable : bool;
  schema_properties : list PropertyRow
}.

Definition describeEntity (service : ODataService.t) (entityType : EntityType.t)
  : EntitySchema :=
  {| schema_serviceId := ODataService.id service;
     schema_serviceTitle := ODataService.title service;
     schema_domain := ODataService.domain service;
     schema_tier := ODataService.tier service;
     schema_name := EntityType.name entityType;
     schema_entitySet := EntityType.entitySet entityType;
     schema_namespace := EntityType.namespace entityType;
     schema_keyProperties := EntityType.keys entityType;
     schema_propertyCount := length (EntityType.properties entityType);
     schema_creatable := EntityType.creatable entityType;
     schema_updatable := EntityType.updatable entityType;
     schema_deletable := EntityType.deletable entityType;
     schema_properties :=
       map (fun prop =>
              {| prop_name := Property.name prop;
                 prop_type := Property.type prop;
                 prop_nullable := Property.nullable prop;
                 prop_maxLength := Property.maxLength prop;
                 prop_isKey :=
                   existsb (String.eqb (Property.name prop))
                           (EntityType.keys entityType) |})
           (EntityType.properties entityType) |}.

(** The data of a successful Level 3 call: what the SAP client returned, or
    the acknowledgement that [delete] builds itself. *)
Inductive ResponseData : Type :=
| FromUpstream (data : string)
| Deleted (message : string).

Record Execution : Type := {
  opDescription : string;
  responseData : ResponseData
}.

Section Registry.

(** The schema provider ([discoveryService.fetchServiceMetadata]) and the
    SAP client.  Their answers may change from one request to the next, so
    they depend on the number of requests made before. *)
Variable schemaProvider : nat -> ODataService.t -> Exc ServiceMetadata.t.
Variable sapClient : nat -> SapCall -> Exc string.

Definition fetchServiceMetadata (service : ODataService.t)
  : Action ServiceMetadata.t :=
  fun w =>
    let answer := schemaProvider (length (fetches w)) service in
    (answer,
     logFetch w {| fetch_serviceId := ODataService.id service;
                   fetch_succeeded :=
                     match answer with Ok _ => true | Throw _ => false end |}).

Definition callSap (c : SapCall) : Action string :=
  fun w => (sapClient (length (sapCalls w)) c, logCall w c).

(** The block that both tools run before they look for the entity: use
    the metadata on the service, else the cache, else fetch and cache. *)
Definition ensureMetadata (serviceId : string) (service : ODataService.t)
  : Action ServiceMetadata.t :=
  match ODataService.metadata service with
  | Some m => ret m
  | None =>
      fun w =>
        match metadataCache w !! serviceId with
        | Some m =>
            (Ok m, withCatalog w (storeMetadata serviceId m (catalogServices w)))
        | None =>
            (m <~ fetchServiceMetadata service ;;
             _ <~ modify (fun w' =>
                    withCache
                      (withCatalog w' (storeMetadata serviceId m (catalogServices w')))
                      (<[serviceId := m]> (metadataCache w'))) ;;
             ret m) w
        end
  end.

(** Level 2: [getEntityMetadata] *)
Definition getEntityMetadata (args : MetadataArgs)
  : World -> ToolResult EntitySchema * World :=
  fun w =>
    let serviceId := marg_serviceId args in
    let entityName := marg_entityName args in
    if negb (JS.truthy serviceId) || negb (JS.truthy entityName) then
      (IsError "ERROR: Both serviceId and entityName are required.", w)
    else
      match findService (catalogServices w) serviceId with
      | None => (IsError ("ERROR: Service not found: " +:+ serviceId), w)
      | Some service =>
          match ensureMetadata serviceId service w with
          | (Throw fetchError, w') =>
              (IsError ("ERROR: Failed to load metadata for " +:+ serviceId
                        +:+ ": Error: " +:+ fetchError), w')
          | (Ok m, w') =>
              match findEntity m entityName with
              | None =>
                  let available :=
                    JS.orElse
                      (JS.join ", " (map EntityType.name (ServiceMetadata.entityTypes m)))
                      "none" in
                  (IsError ("ERROR: Entity '" +:+ entityName +:+ "' not found in "
                            +:+ serviceId +:+ "." +:+ newline +:+ newline
                            +:+ "Available entities: " +:+ available), w')
              | Some entityType => (Content (describeEntity service entityType), w')
              end
          end
      end.

Definition validOps : list string :=
  ["read"; "read-single"; "create"; "update"; "delete"].

Definition queryOptionsOf (args : ExecuteArgs) : QueryOptions :=
  {| opt_filter := truthyText (xarg_filterString args);
     opt_select := truthyText (xarg_selectString args);
     opt_expand := truthyText (xarg_expandString args);
     opt_orderby := truthyText (xarg_orderbyString args);
     opt_top := truthyNumber (xarg_topNumber args);
     opt_skip := truthyNumber (xarg_skipNumber args) |}.

(** The [switch] over the operation. *)
Definition dispatch (operation : string) (service : ODataService.t)
    (entityType : EntityType.t) (entityName : string)
    (parameters : gmap string JSValue) (queryOptions : QueryOptions)
  : Action Execution :=
  let url := ODataService.url service in
  let entitySet := EntityType.entitySet entityType in
  if String.eqb operation "read" then
    let described :=
      "Reading " +:+ entityName
      +:+ match opt_top queryOptions with
          | Some n => " (top " +:+ showZ n +:+ ")"
          | None => EmptyString
          end
      +:+ match opt_filter queryOptions with
          | Some f => " where " +:+ f
          | None => EmptyString
          end in
    data <~ callSap (ReadEntitySet url entitySet queryOptions) ;;
    ret {| opDescription := described; responseData := FromUpstream data |}
  else if String.eqb operation "read-single" then
    keyValue <~ liftExc (buildKeyValue entityType parameters) ;;
    data <~ callSap (ReadEntity url entitySet keyValue) ;;
    ret {| opDescription :=
             "Reading single " +:+ entityName +:+ " with key: " +:+ keyValue;
           responseData := FromUpstream data |}
  else if String.eqb operation "create" then
    if negb (EntityType.creatable entityType) then
      throw ("Entity '" +:+ entityName +:+ "' is not creatable")
    else
      data <~ callSap (CreateEntity url entitySet parameters) ;;
      ret {| opDescription := "Creating " +:+ entityName;
             responseData := FromUpstream data |}
  else if String.eqb operation "update" then
    if negb (EntityType.updatable entityType) then
      throw ("Entity '" +:+ entityName +:+ "' is not updatable")
    else
      updateKey <~ liftExc (buildKeyValue entityType parameters) ;;
      let updateData :=
        fold_left (fun data key => delete key data)
                  (EntityType.keys entityType) parameters in
      data <~ callSap (UpdateEntity url entitySet updateKey updateData) ;;
      ret {| opDescription :=
               "Updating " +:+ entityName +:+ " with key: " +:+ updateKey;
             responseData := FromUpstream data |}
  else if String.eqb operation "delete" then
    if negb (EntityType.deletable entityType) then
      throw ("Entity '" +:+ entityName +:+ "' is not deletable")
    else
      deleteKey <~ liftExc (buildKeyValue entityType parameters) ;;
      _ <~ callSap (DeleteEntity url entitySet deleteKey) ;;
      ret {| opDescription :=
               "Deleting " +:+ entityName +:+ " with key: " +:+ deleteKey;
             responseData :=
               Deleted ("Deleted " +:+ entityName +:+ ": " +:+ deleteKey) |}
  else
    ret {| opDescription := EmptyString; responseData := FromUpstream "null" |}.

(** The body of [executeOperation]'s [try]. *)
Definition executeBody (args : ExecuteArgs) : Action Execution :=
  let serviceId := xarg_serviceId args in
  let entityName := xarg_entityName args in
  let operation := JS.toLowerCase (xarg_operation args) in
  let parameters := default ∅ (xarg_parameters args) in
  if negb (existsb (String.eqb operation) validOps) then
    throw ("Invalid operation: " +:+ operation +:+ ". Valid: "
           +:+ JS.join ", " validOps)
  else
    fun w =>
      match findService (catalogServices w) serviceId with
      | None => (Throw ("Service not found: " +:+ serviceId), w)
      | Some service =>
          (m <~ ensureMetadata serviceId service ;;
           match findEntity m entityName with
           | None =>
               throw ("Entity '" +:+ entityName +:+ "' not found in " +:+ serviceId)
           | Some entityType =>
               _ <~ modify refreshClientToken ;;
               dispatch operation service entityType entityName parameters
                        (queryOptionsOf args)
           end) w
      end.

(** The text of the [catch] block: the message and, when a select string
    was given and the message mentions [select], a tip. *)
Definition errorResponse (args : ExecuteArgs) (errorMsg : string) : string :=
  let tip :=
    match truthyText (xarg_selectString args) with
    | Some _ =>
        if JS.includes (JS.toLowerCase errorMsg) "select"
        then "TIP: This might be a $select issue. Try again without selectString."
             +:+ newline
        else EmptyString
    | None => EmptyString
    end in
  "[LEVEL 3 - ERROR] " +:+ errorMsg +:+ newline +:+ newline +:+ tip.

(** Level 3: [executeOperation].  The [catch] turns a thrown error into
    the error text. *)
Definition executeOperation (args : ExecuteArgs)
  : World -> ToolResult Execution * World :=
  fun w =>
    match executeBody args w with
    | (Ok done, w') => (Content done, w')
    | (Throw errorMsg, w') => (IsError (errorResponse args errorMsg), w')
    end.

(** A session: the tool calls of Levels 2 and 3, one after the other. *)
Inductive ToolCall : Type :=
| Inspect (args : MetadataArgs)
| Act (args : ExecuteArgs).

Definition runCall (c : ToolCall) (w : World) : World :=
  match c with
  | Inspect args => snd (getEntityMetadata args w)
  | Act args => snd (executeOperation args w)
  end.

Definition runCalls (calls : list ToolCall) (w : World) : World :=
  fold_left (fun w' c => runCall c w') calls w.

End Registry.

(** ** Catalog statistics ([getServicesByDomain]) *)

(** [service.domain || 'unclassified'] *)
Definition domainKey (s : ODataService.t) : string :=
  match ODataService.domain s with
  | Some d => JS.orElse d "unclassified"
  | None => "unclassified"
  end.

(** [counts[domain] = (counts[domain] || 0) + 1] over the catalog.  The
    object [counts] is a map for the domain names that occur: those of the
    configuration and [unclassified]. *)
Definition getServicesByDomain (catalog : list ODataService.t) : gmap string nat :=
  fold_left
    (fun counts service =>
       let domain := domainKey service in
       <[domain := (default 0%nat (counts !! domain) + 1)%nat]> counts)
    catalog ∅.

(** ** The metadata resource ([sap://service/{serviceId}/metadata]) *)

Record EntitySummary : Type := {
  sum_name : string;
  sum_entitySet : option string;
  sum_keys : list string;
  sum_propertyCount : nat;
  sum_creatable : bool;
  sum_updatable : bool;
  sum_deletable : bool
}.

Record ServiceResource : Type := {
  res_id : string;
  res_title : string;
  res_domain : option string;
  res_tier : option Z;
  res_entities : list EntitySummary
}.

Definition summariseEntity (e : EntityType.t) : EntitySummary :=
  {| sum_name := EntityType.name e;
     sum_entitySet := EntityType.entitySet e;
     sum_keys := EntityType.keys e;
     sum_propertyCount := length (EntityType.properties e);
     sum_creatable := EntityType.creatable e;
     sum_updatable := EntityType.updatable e;
     sum_deletable := EntityType.deletable e |}.

(** The handler of the resource template: it throws for an unknown
    service, loads the metadata as the tools do, and lets a failed fetch
    escape. *)
Definition readServiceMetadata
    (schemaProvider : nat -> ODataService.t -> Exc ServiceMetadata.t)
    (serviceId : string) : Action ServiceResource :=
  fun w =>
    match findService (catalogServices w) serviceId with
    | None => (Throw ("Service not found: " +:+ serviceId), w)
    | Some service =>
        (m <~ ensureMetadata schemaProvider serviceId service ;;
         ret {| res_id := ODataService.id service;
                res_title := ODataService.title service;
                res_domain := ODataService.domain service;
                res_tier := ODataService.tier service;
                res_entities := map summariseEntity (ServiceMetadata.entityTypes m) |}) w
    end.

(** ** The embedding snapshot (class [EmbeddingService]) *)

Definition CACHE_VERSION : string := "1.0".
Definition MODEL_NAME : string := "Xenova/all-MiniLM-L6-v2".

Definition startingCased (r : re) : RegExp :=
  {| anchorStart := true; body := r; anchorEnd := false; ignoreCase := false |}.
Definition endingCased (r : re) : RegExp :=
  {| anchorStart := false; body := r; anchorEnd := true; ignoreCase := false |}.
Definition containingCased (r : re) : RegExp :=
  {| anchorStart := false; body := r; anchorEnd := false; ignoreCase := false |}.

Definition SKIP_PATTERNS : list RegExp :=
  [ startingCased (lit "VL_");
    startingCased (lit "I_");
    startingCased (lit "SAP__");
    startingCased (lit "P_");
    endingCased (lit "Parameters");
    startingCased (lit "_");
    containingCased (lit "DraftAdministrativeData") ].

Definition shouldSkipEntity (entityName : string) : bool :=
  existsb (fun pattern => test pattern entityName) SKIP_PATTERNS.

Record EmbeddingEntry : Type := {
  vector : list Q;
  entry_serviceId : string
}.

(** The cache file, once parsed. *)
Record EmbeddingCache : Type := {
  cache_version : string;
  cache_model : string;
  cache_timestamp : Z;
  cache_entityCount : Z;
  cache_embeddings : gmap string EmbeddingEntry
}.

Definition entityTypesOf (s : ODataService.t) : list EntityType.t :=
  match ODataService.metadata s with
  | Some m => ServiceMetadata.entityTypes m
  | None => []
  end.

(** The default [sort()] of an array of strings. *)
Definition compareStrings (a b : string) : Q :=
  match String.compare a b with
  | Lt => (-1)%Q
  | Eq => 0%Q
  | Gt => 1%Q
  end.

(** [computeServicesHash]: the sorted ids, a bar, and the entity count of
    each service in catalog order. *)
Definition computeServicesHash (services : list ODataService.t) : string :=
  let serviceIds := JS.join "," (sortBy compareStrings (map ODataService.id services)) in
  let entityCounts :=
    JS.join "," (map (fun s => showNat (length (entityTypesOf s))) services) in
  serviceIds +:+ "|" +:+ entityCounts.

(** The number of entities that indexing would embed. *)
Definition expectedCountOf (currentServices : list ODataService.t) : Z :=
  fold_left
    (fun sum s =>
       let businessEntities :=
         List.filter (fun e => negb (shouldSkipEntity (EntityType.name e)))
                     (entityTypesOf s) in
       (sum + Z.of_nat (length businessEntities))%Z)
    currentServices 0%Z.

(** [Math.max(10, Math.floor(expectedCount * 0.05))]; for a count the
    floor of the product is the quotient by twenty. *)
Definition toleranceOf (expectedCount : Z) : Z := Z.max 10 (expectedCount / 20).

(** [loadCache]: [file] is [None] when there is no cache file and a
    [Throw] when it cannot be read or parsed.  The result is the return
    value and the embeddings held afterwards. *)
Definition loadCache (file : option (Exc EmbeddingCache))
    (currentServices : option (list ODataService.t))
    (embeddings : gmap string EmbeddingEntry)
  : bool * gmap string EmbeddingEntry :=
  match file with
  | None => (false, embeddings)
  | Some (Throw _) => (false, embeddings)
  | Some (Ok cache) =>
      if negb (String.eqb (cache_version cache) CACHE_VERSION) then (false, embeddings)
      else if negb (String.eqb (cache_model cache) MODEL_NAME) then (false, embeddings)
      else
        let rejected :=
          match currentServices with
          | Some services =>
              let expectedCount := expectedCountOf services in
              let tolerance := toleranceOf expectedCount in
              (tolerance <? Z.abs (cache_entityCount cache - expectedCount))%Z
          | None => false
          end in
        if rejected then (false, embeddings)
        else (true, cache_embeddings cache)
  end.

(** [indexEntities] up to the embedding loop, which is [reindex] (it adds
    to the embeddings already held): the snapshot is used unless a reindex
    is forced or [loadCache] refuses it. *)
Definition indexEntities
    (reindex : list ODataService.t -> gmap string EmbeddingEntry ->
               gmap string EmbeddingEntry)
    (file : option (Exc EmbeddingCache)) (services : list ODataService.t)
    (forceReindex : bool) (embeddings : gmap string EmbeddingEntry)
  : gmap string EmbeddingEntry :=
  if forceReindex then reindex services embeddings
  else
    match loadCache file (Some services) embeddings with
    | (true, loaded) => loaded
    | (false, unchanged) => reindex services unchanged
    end.

(** ** Further functions of the domain and tier configuration *)

Definition getConfiguredDomains : list string := map name DOMAIN_CONFIGS.

Definition getPriorityServicesForDomain (domain : string) : list string :=
  match find (fun c => String.eqb (name c) domain) DOMAIN_CONFIGS with
  | Some config => priorityServices config
  | None => []
  end.

(** ** The embedding service in memory (class [EmbeddingService]) *)

Definition SKIP_PROPERTY_PATTERNS : list RegExp :=
  [ startingCased (lit "SAP__");
    startingCased (lit "_");
    containing (lit "LastChanged");
    containing (lit "CreatedBy");
    containing (lit "ModifiedBy");
    {| anchorStart := true; body := lit "UUID"; anchorEnd := true; ignoreCase := true |};
    {| anchorStart := true; body := lit "GUID"; anchorEnd := true; ignoreCase := true |};
    {| anchorStart := true; body := lit "ETag"; anchorEnd := true; ignoreCase := true |};
    containing (lit "DraftUUID") ].

Definition isBusinessRelevantProperty (propName : string) : bool :=
  negb (existsb (fun pattern => test pattern propName) SKIP_PROPERTY_PATTERNS).

Definition flagWord (flag : bool) (word : string) : string :=
  if flag then word else EmptyString.

(** [buildEmbeddingDocument]: the template, trimmed. *)
Definition buildEmbeddingDocument (service : ODataService.t) (entity : EntityType.t)
  : string :=
  let relevantProps :=
    JS.join ", "
      (map Property.name
           (firstn 15
              (List.filter (fun p => isBusinessRelevantProperty (Property.name p))
                           (EntityType.properties entity)))) in
  let keyProps := JS.join ", " (EntityType.keys entity) in
  let entitySetOrName :=
    match EntityType.entitySet entity with
    | Some s => JS.orElse s (EntityType.name entity)
    | None => EntityType.name entity
    end in
  JS.trim
    (newline
     +:+ "SAP OData Service: " +:+ ODataService.title service +:+ newline
     +:+ "Service Description: " +:+ ODataService.description service +:+ newline
     +:+ "Entity: " +:+ EntityType.name entity +:+ newline
     +:+ "Entity Set: " +:+ entitySetOrName +:+ newline
     +:+ "Key Fields: " +:+ keyProps +:+ newline
     +:+ "Business Fields: " +:+ relevantProps +:+ newline
     +:+ "Domain: AR Accounts Receivable" +:+ newline
     +:+ "Capabilities: " +:+ flagWord (EntityType.creatable entity) "Create"
     +:+ " " +:+ flagWord (EntityType.updatable entity) "Update"
     +:+ " " +:+ flagWord (EntityType.deletable entity) "Delete"
     +:+ " Read" +:+ newline
     +:+ "        ").

(** The document that [indexServicesWithHints] embeds for a service. *)
Definition buildServiceDocument (service : ODataService.t) (hint : option ServiceHint)
  : string :=
  let labelOrTitle :=
    match hint with
    | Some h => JS.orElse (label h) (ODataService.title service)
    | None => ODataService.title service
    end in
  let useForOrDescription :=
    match hint with
    | Some h => JS.orElse (useFor h) (ODataService.description service)
    | None => ODataService.description service
    end in
  let domainOrGeneral :=
    match ODataService.domain service with
    | Some d => JS.orElse d "General"
    | None => "General"
    end in
  let domainWords :=
    match ODataService.domain service with
    | Some d =>
        if String.eqb d "AR" then "Accounts Receivable Customer Invoices Payments"
        else EmptyString
    | None => EmptyString
    end in
  let tierWords :=
    match ODataService.tier service with
    | Some 1%Z => "Transactional CRUD operations"
    | Some 2%Z => "Display read-only"
    | Some 3%Z => "Analytics dashboard KPIs"
    | _ => "General"
    end in
  let transactionLine :=
    match hint with
    | Some h =>
        match tcode h with
        | Some t => if JS.truthy t then "SAP Transaction: " +:+ t else EmptyString
        | None => EmptyString
        end
    | None => EmptyString
    end in
  let entitiesLine :=
    match hint with
    | Some h =>
        match entities h with
        | Some names => "Key Entities: " +:+ JS.join ", " names
        | None => EmptyString
        end
    | None => EmptyString
    end in
  JS.trim
    (newline
     +:+ "SAP OData Service: " +:+ labelOrTitle +:+ newline
     +:+ "Service ID: " +:+ ODataService.id service +:+ newline
     +:+ "Description: " +:+ useForOrDescription +:+ newline
     +:+ "Domain: " +:+ domainOrGeneral +:+ " " +:+ domainWords +:+ newline
     +:+ "Tier: " +:+ tierWords +:+ newline
     +:+ transactionLine +:+ newline
     +:+ entitiesLine +:+ newline
     +:+ "            ").

(** The [Map] of embeddings, in insertion order.  Of the metadata stored
    with a vector the model keeps the service id, the field that is read
    back. *)
Definition Embeddings : Type := list (string * EmbeddingEntry).

(** [map.set(key, value)]: an existing key keeps its place. *)
Fixpoint mapSet (key : string) (value : EmbeddingEntry) (m : Embeddings) : Embeddings :=
  match m with
  | [] => [(key, value)]
  | (k, v) :: rest =>
      if String.eqb k key then (k, value) :: rest
      else (k, v) :: mapSet key value rest
  end.

Record EmbeddingState : Type := {
  st_initialized : bool;
  st_embeddings : Embeddings;
  st_calls : nat
}.

Definition withEmbeddings (st : EmbeddingState) (m : Embeddings) : EmbeddingState :=
  {| st_initialized := st_initialized st;
     st_embeddings := m;
     st_calls := st_calls st |}.

(** [saveCache]: what is written to the cache file. *)
Definition saveCache (now : Z) (st : EmbeddingState) : EmbeddingCache :=
  {| cache_version := CACHE_VERSION;
     cache_model := MODEL_NAME;
     cache_timestamp := now;
     cache_entityCount := Z.of_nat (length (st_embeddings st));
     cache_embeddings := list_to_map (st_embeddings st) |}.

Module Embedding.
Section Embedder.

(** The outcome of loading the model, the model itself (its answer may
    depend on the number of texts embedded before) and the square root of
    the platform. *)
Variable pipeline : Exc unit.
Variable embedder : nat -> string -> Exc (list Q).
Variable sqrt : Q -> Q.

Definition initialize (st : EmbeddingState) : Exc unit * EmbeddingState :=
  if st_initialized st then (Ok tt, st)
  else
    match pipeline with
    | Ok _ => (Ok tt, {| st_initialized := true;
                         st_embeddings := st_embeddings st;
                         st_calls := st_calls st |})
    | Throw e => (Throw e, st)
    end.

Definition embed (text : string) (st : EmbeddingState)
  : Exc (list Q) * EmbeddingState :=
  if negb (st_initialized st) then
    (Throw "Embedding model not initialized. Call initialize() first.", st)
  else
    (embedder (st_calls st) text,
     {| st_initialized := st_initialized st;
        st_embeddings := st_embeddings st;
        st_calls := S (st_calls st) |}).

Definition cosineSimilarity (a b : list Q) : Exc Q :=
  if negb (length a =? length b)%nat then Throw "Vectors must have same dimensions"
  else
    let '(dotProduct, normA, normB) :=
      fold_left
        (fun '(dotProduct, normA, normB) '(x, y) =>
           (dotProduct + x * y, normA + x * x, normB + y * y)%Q)
        (combine a b) (0%Q, 0%Q, 0%Q) in
    let magnitude := (sqrt normA * sqrt normB)%Q in
    if Qeq_bool magnitude 0 then Ok 0%Q
    else Ok (dotProduct / magnitude)%Q.

(** The scoring loop of the two searches. *)
Fixpoint scoreEntries (queryVector : list Q) (entries : Embeddings) (minScore : Q)
  : Exc (list SearchResult) :=
  match entries with
  | [] => Ok []
  | (_, item) :: rest =>
      score <- cosineSimilarity queryVector (vector item) ;;
      scored <- scoreEntries queryVector rest minScore ;;
      Ok (if Qle_bool minScore score
          then {| metadata_serviceId := entry_serviceId item;
                  result_score := score |} :: scored
          else scored)
  end.

Definition searchServices (query : string) (topK : nat) (minScore : Q)
    (st : EmbeddingState) : Exc (list SearchResult) * EmbeddingState :=
  if negb (st_initialized st) then (Throw "Embedding service not initialized", st)
  else if (length (st_embeddings st) =? 0)%nat then (Ok [], st)
  else
    match embed query st with
    | (Throw e, st') => (Throw e, st')
    | (Ok queryVector, st') =>
        (scored <- scoreEntries queryVector (st_embeddings st') minScore ;;
         Ok (firstn topK
               (sortBy (fun a b => (result_score b - result_score a)%Q) scored)),
         st')
    end.

(** [isReady()] *)
Definition isReady (st : EmbeddingState) : bool :=
  st_initialized st && (0 <? length (st_embeddings st))%nat.

(** One turn of an indexing loop: embed the document and store the vector
    under the key; a failure is logged and the item is left out. *)
Definition embedAndStore (key serviceId doc : string) (st : EmbeddingState)
  : EmbeddingState :=
  match embed doc st with
  | (Ok v, st') =>
      withEmbeddings st'
        (mapSet key {| vector := v; entry_serviceId := serviceId |} (st_embeddings st'))
  | (Throw _, st') => st'
  end.

(** [indexServicesWithHints]: the model is loaded when it is not yet, and
    then every service is embedded under its id. *)
Definition indexServicesWithHints (services : list ODataService.t)
    (getHint : string -> option ServiceHint) (st : EmbeddingState)
  : Exc unit * EmbeddingState :=
  match initialize st with
  | (Throw e, st') => (Throw e, st')
  | (Ok _, st') =>
      (Ok tt,
       fold_left
         (fun acc service =>
            embedAndStore (ODataService.id service) (ODataService.id service)
              (buildServiceDocument service (getHint (ODataService.id service))) acc)
         services st')
  end.

(** The embedding loop of [indexEntities] over the entities that are not
    skipped, each under the key [serviceId::entityName]. *)
Definition embeddingId (service : ODataService.t) (entity : EntityType.t) : string :=
  ODataService.id service +:+ "::" +:+ EntityType.name entity.

Definition embedEntities (services : list ODataService.t) (st : EmbeddingState)
  : EmbeddingState :=
  fold_left
    (fun acc service =>
       fold_left
         (fun acc' entity =>
            if shouldSkipEntity (EntityType.name entity) then acc'
            else embedAndStore (embeddingId service entity) (ODataService.id service)
                   (buildEmbeddingDocument service entity) acc')
         (entityTypesOf service) acc)
    services st.

End Embedder.
End Embedding.

(** The service in the state [st], as the registry uses it. *)
Definition embeddingServiceAt (embedder : nat -> string -> Exc (list Q))
    (sqrt : Q -> Q) (st : EmbeddingState) : EmbeddingService :=
  {| isReady := Embedding.isReady st;
     searchServices := fun query topK minScore =>
                         fst (Embedding.searchServices embedder sqrt
                                query topK minScore st) |}.

(** ** Parsing service metadata ([SAPDiscoveryService.parseMetadata]) *)

(** An element of the parsed document is what [getAttribute] answers for
    it; [None] is [null]. *)
Definition Element : Type := string -> option string.

(** What the selectors of the code find under an [EntityType] node. *)
Record EntityTypeNode : Type := {
  node : Element;
  parentElement : option Element;
  propertyNodes : list Element;      (* [querySelectorAll("Property")] *)
  keyNodes : list Element            (* [querySelectorAll("Key PropertyRef")] *)
}.

Record MetadataDocument : Type := {
  entitySetNodes : list Element;     (* [querySelectorAll("EntitySet")] *)
  entityTypeNodes : list EntityTypeNode;
  schemaNode : option Element        (* [querySelector("Schema")] *)
}.

(** The object built for an entity set. *)
Record EntitySetInfo : Type := {
  es_name : string;
  es_entitytype : option string;
  es_creatable : bool;
  es_updatable : bool;
  es_deletable : bool;
  es_pageable : bool;
  es_addressable : bool;
  es_contentVersion : option string
}.

(** [text.split(sep)] for a separator of one character. *)
Fixpoint splitOn (sep : ascii) (text : string) : list string :=
  match text with
  | EmptyString => [EmptyString]
  | String c rest =>
      if Ascii.eqb c sep then EmptyString :: splitOn sep rest
      else
        match splitOn sep rest with
        | [] => [String c EmptyString]
        | segment :: segments => String c segment :: segments
        end
  end.

(** [value || ''] on an attribute. *)
Definition attributeOr (value : option string) : string :=
  match value with
  | Some s => s
  | None => EmptyString
  end.

(** [node.getAttribute(attr) === "false" ? false : true] *)
Definition unlessFalse (value : option string) : bool :=
  match value with
  | Some s => negb (String.eqb s "false")
  | None => true
  end.

Definition extractEntitySets (xmlDoc : MetadataDocument) : list EntitySetInfo :=
  flat_map
    (fun n : Element =>
       match n "name" with
       | Some name =>
           if JS.truthy name then
             [ {| es_name := name;
                  es_entitytype := n "entitytype";
                  es_creatable := unlessFalse (n "sap:creatable");
                  es_updatable := unlessFalse (n "sap:updatable");
                  es_deletable := unlessFalse (n "sap:deletable");
                  es_pageable := unlessFalse (n "sap:pageable");
                  es_addressable := unlessFalse (n "sap:addressable");
                  es_contentVersion := n "sap:content-version" |} ]
           else []
       | None => []
       end)
    (entitySetNodes xmlDoc).

(** [(es.entitytype as string)?.split(".")[1] === node.getAttribute("Name")]:
    an absent segment is [undefined] and an absent attribute is [null],
    which are equal to nothing else and not to each other. *)
Definition refersTo (typeName : option string) (es : EntitySetInfo) : bool :=
  match es_entitytype es with
  | Some qualified =>
      match nth_error (splitOn "." qualified) 1, typeName with
      | Some segment, Some name => String.eqb segment name
      | _, _ => false
      end
  | None => false
  end.

Definition extractProperty (propNode : Element) : Property.t :=
  {| Property.name := attributeOr (propNode "Name");
     Property.type := attributeOr (propNode "Type");
     Property.nullable :=
       match propNode "Nullable" with
       | Some s => negb (String.eqb s "false")
       | None => true
       end;
     Property.maxLength := propNode "MaxLength" |}.

Definition extractEntityType (entitySets : list EntitySetInfo) (n : EntityTypeNode)
  : EntityType.t :=
  let entitySet := find (refersTo (node n "Name")) entitySets in
  let flag (get : EntitySetInfo -> bool) :=
    match entitySet with Some es => get es | None => false end in
  {| EntityType.name := attributeOr (node n "Name");
     EntityType.entitySet := option_map es_name entitySet;
     EntityType.namespace :=
       match parentElement n with
       | Some parent => attributeOr (parent "Namespace")
       | None => EmptyString
       end;
     EntityType.properties := map extractProperty (propertyNodes n);
     EntityType.keys := map (fun keyNode : Element => attributeOr (keyNode "Name"))
                            (keyNodes n);
     EntityType.creatable := flag es_creatable;
     EntityType.updatable := flag es_updatable;
     EntityType.deletable := flag es_deletable;
     EntityType.addressable := flag es_addressable |}.

Definition extractEntityTypes (xmlDoc : MetadataDocument)
    (entitySets : list EntitySetInfo) : list EntityType.t :=
  map (extractEntityType entitySets) (entityTypeNodes xmlDoc).

Definition extractNamespace (xmlDoc : MetadataDocument) : string :=
  match schemaNode xmlDoc with
  | Some schema => attributeOr (schema "Namespace")
  | None => EmptyString
  end.

(** [parseMetadata], with the document as the DOM presents it.  The
    entity sets enter the result through the entity types. *)
Definition parseMetadata (xmlDoc : MetadataDocument) (odataVersion : string)
  : ServiceMetadata.t :=
  let entitySets := extractEntitySets xmlDoc in
  {| ServiceMetadata.entityTypes := extractEntityTypes xmlDoc entitySets;
     ServiceMetadata.version := odataVersion;
     ServiceMetadata.namespace := extractNamespace xmlDoc |}.

(** * Specification-side definitions *)

(** [a] may stay in front of [b] under the comparator [cmp]. *)
Definition notAfter {A : Type} (cmp : A -> A -> Q) (a b : A) : Prop :=
  Qgtb (cmp a b) 0 = false.

(** ** The business-priority order *)

(** A catalog entry whose classification is in the range the classifier
    produces: a boolean flag, a tier from 0 to 3 (or none) and a positive
    priority score. *)
Definition WellClassified (s : ODataService.t) : Prop :=
  (exists f, ODataService.isPriorityService s = Some f) /\
  (ODataService.tier s = None \/
   exists t, ODataService.tier s = Some t /\ (0 <= t <= 3)%Z) /\
  (exists p, ODataService.priority s = Some p /\ (1 <= p)%Z).

(** The order as the specification words it. *)
Definition isPriority (a : Scored) : bool :=
  flagTruthy (ODataService.isPriorityService (service a)).

Definition unclassifiedTier (t : option Z) : Prop := t = None \/ t = Some 0%Z.

Definition tierBefore (ta tb : option Z) : Prop :=
  exists x, ta = Some x /\ x <> 0%Z /\
            (unclassifiedTier tb \/ exists y, tb = Some y /\ y <> 0%Z /\ (x < y)%Z).

Definition tierTied (ta tb : option Z) : Prop :=
  (unclassifiedTier ta /\ unclassifiedTier tb) \/
  (exists x, x <> 0%Z /\ ta = Some x /\ tb = Some x).

Definition priorityBefore (pa pb : option Z) : Prop :=
  exists p q, pa = Some p /\ pb = Some q /\ (p < q)%Z.

Definition businessBefore (a b : Scored) : Prop :=
  let sa := service a in
  let sb := service b in
  (isPriority a = true /\ isPriority b = false) \/
  (isPriority a = isPriority b /\
   (tierBefore (ODataService.tier sa) (ODataService.tier sb) \/
    (tierTied (ODataService.tier sa) (ODataService.tier sb) /\
     (priorityBefore (ODataService.priority sa) (ODataService.priority sb) \/
      (ODataService.priority sa = ODataService.priority sb /\
       (score b <= score a)%Q))))).

(** The keys the comparator reads. *)
Definition flagRank (a : Scored) : Z := if isPriority a then 0 else 1.
Definition tierKey (a : Scored) : Z := numberOr (ODataService.tier (service a)) 99.
Definition priorityKey (a : Scored) : Z :=
  numberOr (ODataService.priority (service a)) 100.

Definition keysBefore (a b : Scored) : Prop :=
  (flagRank a < flagRank b)%Z \/
  (flagRank a = flagRank b /\
   ((tierKey a < tierKey b)%Z \/
    (tierKey a = tierKey b /\
     ((priorityKey a < priorityKey b)%Z \/
      (priorityKey a = priorityKey b /\ (score b <= score a)%Q))))).

Definition flagged (a : Scored) : Prop :=
  exists f, ODataService.isPriorityService (service a) = Some f.


(** Every candidate of a stage carries a service of the filtered list. *)
Definition drawnFrom (services : list ODataService.t) (found : string * list Scored)
  : Prop :=
  forall x, In x (snd found) -> In (service x) services.

(** ** Lexical scoring *)

(** What one field contributes: its full weight for a whole-query match,
    0.9 of it when a query of several words has all of them present, 0.85
    of it for a single word, and nothing otherwise or for an empty field. *)
Definition fieldScore (queryLower : string) (queryWords : list string)
    (target : SearchTarget) : Q :=
  if negb (JS.truthy (text target)) then 0
  else if JS.includes (text target) queryLower then weight target
  else if (1 <? length queryWords)%nat then
    if forallb (fun word => JS.includes (text target) word) queryWords
    then weight target * (9 # 10) else 0
  else if (length queryWords =? 1)%nat
          && JS.includes (text target) (hd EmptyString queryWords)
    then weight target * (85 # 100)
    else 0.

(** The running maximum that the loop keeps. *)
Definition runningMax {T : Type} (f : T -> Q) (l : list T) (start : Q) : Q :=
  fold_left (fun best t => if Qgtb (f t) best then f t else best) l start.

(** The weight of the target with a given name. *)
Definition weightOf (targetName' : string) (s : ODataService.t) : Q :=
  match find (fun t => String.eqb (targetName t) targetName') (searchTargets s) with
  | Some t => weight t
  | None => 0
  end.

(** The order of the weights as the specification lists it. *)
Definition claimedWeightOrder (s : ODataService.t) : Prop :=
  (weightOf "ID" s < weightOf "Label" s)%Q /\
  (weightOf "Title" s < weightOf "ID" s)%Q /\
  (weightOf "UseFor" s < weightOf "Title" s)%Q /\
  (weightOf "Description" s < weightOf "UseFor" s)%Q /\
  (weightOf "TCode" s < weightOf "Description" s)%Q /\
  (weightOf "Entities" s < weightOf "TCode" s)%Q.

(** The order the code has. *)
Definition actualWeightOrder (s : ODataService.t) : Prop :=
  (weightOf "ID" s < weightOf "Label" s)%Q /\
  weightOf "UseFor" s = weightOf "ID" s /\
  (weightOf "Title" s < weightOf "UseFor" s)%Q /\
  weightOf "TCode" s = weightOf "Title" s /\
  (weightOf "Entities" s < weightOf "TCode" s)%Q /\
  (weightOf "Description" s < weightOf "Entities" s)%Q.


(** ** Key composition *)

Definition firstMissingKey (keys : list string) (parameters : gmap string JSValue)
  : option string :=
  find (fun key => match parameters !! key with None => true | Some _ => false end) keys.

Definition keyPair (parameters : gmap string JSValue) (key : string) : string :=
  key +:+ "='" +:+ toStringJS (default JNull (parameters !! key)) +:+ "'".

(** The composed key as the specification words it: an error naming the
    first missing key property; else the bare value for a single key
    property; else the [name='value'] pairs joined by commas. *)
Definition composedKey (entityType : EntityType.t) (parameters : gmap string JSValue)
  : Exc string :=
  let keys := EntityType.keys entityType in
  match firstMissingKey keys parameters with
  | Some key => Throw ("Missing key: " +:+ key)
  | None =>
      match keys with
      | [key] => Ok (toStringJS (default JNull (parameters !! key)))
      | _ => Ok (JS.join "," (map (keyPair parameters) keys))
      end
  end.

(** ** Capability guards *)

(** The flag that guards an operation and the word the error uses. *)
Definition capabilityOf (operation : string) (entityType : EntityType.t)
  : option (bool * string) :=
  if String.eqb operation "create" then Some (EntityType.creatable entityType, "creatable")
  else if String.eqb operation "update" then Some (EntityType.updatable entityType, "updatable")
  else if String.eqb operation "delete" then Some (EntityType.deletable entityType, "deletable")
  else None.

(** An action that issues no call to the SAP client. *)
Definition quiet {A : Type} (c : Action A) : Prop :=
  forall w, sapCalls (snd (c w)) = sapCalls w.

(** ** Schema fetches *)

Definition successfulFetches (serviceId : string) (w : World) : nat :=
  length (List.filter
            (fun f => String.eqb (fetch_serviceId f) serviceId && fetch_succeeded f)
            (fetches w)).

Definition fetchesOf (serviceId : string) (w : World) : nat :=
  length (List.filter (fun f => String.eqb (fetch_serviceId f) serviceId) (fetches w)).

Definition callServiceId (c : ToolCall) : string :=
  match c with
  | Inspect args => marg_serviceId args
  | Act args => xarg_serviceId args
  end.

(** The metadata of a service is at hand: on the catalog entry or in the
    cache. *)
Definition metadataAtHand (w : World) (serviceId : string) : Prop :=
  is_Some (metadataCache w !! serviceId) \/
  exists service m, findService (catalogServices w) serviceId = Some service /\
                    ODataService.metadata service = Some m.

(** What holds of the log between calls: a service fetched with success is
    in the cache, and no service was fetched with success twice. *)
Definition fetchedOnce (w : World) : Prop :=
  (forall serviceId, (0 < successfulFetches serviceId w)%nat ->
                     is_Some (metadataCache w !! serviceId)) /\
  (forall serviceId, (successfulFetches serviceId w <= 1)%nat).

(** An action that neither fetches a schema nor touches the cache. *)
Definition steady {A : Type} (c : Action A) : Prop :=
  forall w, fetches (snd (c w)) = fetches w /\
            metadataCache (snd (c w)) = metadataCache w.

(** What one tool call may do to the fetch log and the cache: nothing, or
    one fetch for a service whose metadata was not at hand, cached when it
    succeeds. *)
Definition fetchStep (serviceId : string) (w w' : World) : Prop :=
  (fetches w' = fetches w /\ metadataCache w' = metadataCache w) \/
  (exists service ok,
     findService (catalogServices w) serviceId = Some service /\
     ODataService.metadata service = None /\
     metadataCache w !! serviceId = None /\
     fetches w' = fetches w ++ [ {| fetch_serviceId := serviceId;
                                    fetch_succeeded := ok |} ] /\
     if ok then exists m, metadataCache w' = <[serviceId := m]> (metadataCache w)
     else metadataCache w' = metadataCache w).

(** ** Stage 1: what the semantic stage finds *)

(** The candidates of the semantic stage: none without an embedding
    service, when the service is not ready or when it throws. *)
Definition semanticFound (embeddingService : option EmbeddingService)
    (services : list ODataService.t) (query : string) (limit : nat) : list Scored :=
  match embeddingService with
  | Some embedding =>
      if isReady embedding then
        match searchServices embedding query (limit * 2) (1 # 4) with
        | Ok found => semanticMatches services found
        | Throw _ => []
        end
      else []
  | None => []
  end.

(** Both search stages came back empty-handed, or were not run. *)
Definition nothingFound (embeddingService : option EmbeddingService)
    (services : list ODataService.t) (query : string) (limit : nat) : Prop :=
  query = EmptyString \/
  (semanticFound embeddingService services query limit = [] /\
   patternSearch services (JS.toLowerCase query) = []).

(** ** Lexical fallback: the weights *)

(** The weight of each searched field. *)
Definition statedWeights : list (string * Q) :=
  [ ("Label", 95 # 100); ("ID", 9 # 10); ("UseFor", 9 # 10);
    ("Title", 85 # 100); ("TCode", 85 # 100); ("Entities", 8 # 10);
    ("Description", 6 # 10) ].

(** ** Loading the schema before an operation *)

(** How the state [w1] in which the schema [m] of a service is available
    comes from the state [w]: the schema was on the catalog entry and
    nothing changed; or it was in the cache and was put on the entry; or it
    was fetched upstream, with one successful fetch logged, then cached and
    put on the entry.  Tokens and the log of SAP calls are as before. *)
Definition schemaLoaded
    (schemaProvider : nat -> ODataService.t -> Exc ServiceMetadata.t)
    (serviceId : string) (service : ODataService.t) (m : ServiceMetadata.t)
    (w w1 : World) : Prop :=
  userToken w1 = userToken w /\ clientToken w1 = clientToken w /\
  sapCalls w1 = sapCalls w /\
  ((ODataService.metadata service = Some m /\ w1 = w) \/
   (ODataService.metadata service = None /\
    catalogServices w1 = storeMetadata serviceId m (catalogServices w) /\
    ((metadataCache w !! serviceId = Some m /\
      fetches w1 = fetches w /\ metadataCache w1 = metadataCache w) \/
     (metadataCache w !! serviceId = None /\
      schemaProvider (length (fetches w)) service = Ok m /\
      fetches w1 = fetches w ++ [ {| fetch_serviceId := ODataService.id service;
                                     fetch_succeeded := true |} ] /\
      metadataCache w1 = <[serviceId := m]> (metadataCache w))))).

(** A call that gets as far as loading the schema: an inspect with both
    arguments, an act with a valid operation. *)
Definition reachesSchema (c : ToolCall) : bool :=
  match c with
  | Inspect args =>
      JS.truthy (marg_serviceId args) && JS.truthy (marg_entityName args)
  | Act args =>
      existsb (String.eqb (JS.toLowerCase (xarg_operation args)))
              ["read"; "read-single"; "create"; "update"; "delete"]
  end.

Definition failedFetch (serviceId : string) : Fetch :=
  {| fetch_serviceId := serviceId; fetch_succeeded := false |}.

(** ** Classification, read off the loop *)

(** A domain admits a service: its exclude patterns do not match the
    upper-cased id and one of its prefix patterns matches the upper-cased id
    or the title. *)
Definition domainAdmits (config : DomainConfig) (serviceId title : string) : bool :=
  negb (matchesAny (JS.toUpperCase serviceId) (excludePatterns config))
  && (matchesAny (JS.toUpperCase serviceId) (prefixes config)
      || matchesAny title (prefixes config)).

(** All patterns of a domain carry the [i] flag. *)
Definition caseBlind (config : DomainConfig) : bool :=
  forallb ignoreCase
    (prefixes config ++ tier1Keywords config ++ tier2Keywords config
     ++ tier3Keywords config ++ excludePatterns config).

(** Two strings that differ in letter case only. *)
Definition sameLetters (a b : string) : Prop := JS.toUpperCase a = JS.toUpperCase b.

(** One of the domain's prefix patterns matches the upper-cased id or the
    title. *)
Definition prefixMatch (config : DomainConfig) (serviceId title : string) : bool :=
  matchesAny (JS.toUpperCase serviceId) (prefixes config)
  || matchesAny title (prefixes config).

(** A list of strings without repetition, as a check. *)
Fixpoint distinctb (l : list string) : bool :=
  match l with
  | [] => true
  | x :: rest => negb (existsb (String.eqb x) rest) && distinctb rest
  end.

(** ** Match reasons *)

(** The reason reported for a candidate is backed by the field it names:
    the field is not empty and holds the whole query, or all of several
    query words, or the single query word, and the score is the field's
    weight times the factor of that kind of match. *)
Definition reasonJustified (queryLower : string) (queryWords : list string)
    (t : SearchTarget) (best : Q) (reason : string) : Prop :=
  text t <> EmptyString /\
  ((reason = targetName t +:+ " match" /\ best = weight t /\
    JS.includes (text t) queryLower = true) \/
   (reason = targetName t +:+ " (all words)" /\
    best = (weight t * (9 # 10))%Q /\
    JS.includes (text t) queryLower = false /\
    (1 < length queryWords)%nat /\
    forallb (fun word => JS.includes (text t) word) queryWords = true) \/
   (reason = targetName t +:+ " (partial)" /\
    best = (weight t * (85 # 100))%Q /\
    JS.includes (text t) queryLower = false /\
    exists word, queryWords = [word] /\ JS.includes (text t) word = true)).

(** ** Ties of the ranking *)

(** Neither of two entries has to go before the other. *)
Definition tiedb {A : Type} (cmp : A -> A -> Q) (a x : A) : bool :=
  negb (Qgtb (cmp a x) 0) && negb (Qgtb (cmp x a) 0).

(** Two candidates of the same rank: same priority flag, same effective
    tier and priority score, equal search score. *)
Definition sameRank (a x : Scored) : bool :=
  Bool.eqb (isPriority a) (isPriority x)
  && (tierKey a =? tierKey x)%Z
  && (priorityKey a =? priorityKey x)%Z
  && Qeq_bool (score a) (score x).

(** ** Calls of Level 3 *)

(** The call that an operation may issue for a resolved service and
    entity: of the kind the operation names, for a write only when the
    entity's flag allows it, and for a key-addressed operation with the
    composed key; an update carries the parameters without the key
    fields. *)
Definition callFor (operation : string) (service : ODataService.t)
    (entityType : EntityType.t) (parameters : gmap string JSValue)
    (options : QueryOptions) (c : SapCall) : Prop :=
  let url := ODataService.url service in
  let entitySet := EntityType.entitySet entityType in
  (operation = "read" /\ c = ReadEntitySet url entitySet options) \/
  (operation = "read-single" /\
   exists key, buildKeyValue entityType parameters = Ok key /\
               c = ReadEntity url entitySet key) \/
  (operation = "create" /\ EntityType.creatable entityType = true /\
   c = CreateEntity url entitySet parameters) \/
  (operation = "update" /\ EntityType.updatable entityType = true /\
   exists key data,
     buildKeyValue entityType parameters = Ok key /\
     c = UpdateEntity url entitySet key data /\
     (forall k, In k (EntityType.keys entityType) -> data !! k = None) /\
     (forall k, ~ In k (EntityType.keys entityType) -> data !! k = parameters !! k)) \/
  (operation = "delete" /\ EntityType.deletable entityType = true /\
   exists key, buildKeyValue entityType parameters = Ok key /\
               c = DeleteEntity url entitySet key).

(** The operations that address one entity by its key, with the flag each
    needs. *)
Definition keyAddressed (operation : string) (entityType : EntityType.t) : Prop :=
  operation = "read-single" \/
  (operation = "update" /\ EntityType.updatable entityType = true) \/
  (operation = "delete" /\ EntityType.deletable entityType = true).

(** A catalog entry without its metadata: what discovery produced. *)
Definition forgetMetadata (s : ODataService.t) : ODataService.t :=
  {| ODataService.id := ODataService.id s;
     ODataService.version := ODataService.version s;
     ODataService.title := ODataService.title s;
     ODataService.description := ODataService.description s;
     ODataService.url := ODataService.url s;
     ODataService.metadataUrl := ODataService.metadataUrl s;
     ODataService.metadata := None;
     ODataService.domain := ODataService.domain s;
     ODataService.tier := ODataService.tier s;
     ODataService.priority := ODataService.priority s;
     ODataService.isPriorityService := ODataService.isPriorityService s |}.

(** The catalog of [w'] is the one of [w] with, possibly, more metadata
    loaded: same entries in the same order, and no entry lost its
    metadata. *)
Definition catalogGrown (w w' : World) : Prop :=
  Forall2
    (fun s s' => forgetMetadata s' = forgetMetadata s /\
                 (ODataService.metadata s <> None ->
                  ODataService.metadata s' = ODataService.metadata s))
    (catalogServices w) (catalogServices w').

(** The key that a call addresses, for the calls that address one entity. *)
Definition callKey (c : SapCall) : option string :=
  match c with
  | ReadEntity _ _ key => Some key
  | UpdateEntity _ _ key _ => Some key
  | DeleteEntity _ _ key => Some key
  | ReadEntitySet _ _ _ => None
  | CreateEntity _ _ _ => None
  end.

(** ** Counts by domain *)

Definition inDomain (d : string) (s : ODataService.t) : bool :=
  String.eqb (domainKey s) d.

(** The sum of the counts of a statistics object. *)
Definition totalCount (counts : gmap string nat) : nat :=
  map_fold (fun _ n acc => (n + acc)%nat) 0%nat counts.

(** ** Semantic search *)

(** The comparator of the two searches: higher scores first. *)
Definition byScore (a b : SearchResult) : Q := (result_score b - result_score a)%Q.


(** The keys under which the entities of a catalog are embedded. *)
Definition embeddingIds (services : list ODataService.t) : list string :=
  flat_map
    (fun s =>
       map (Embedding.embeddingId s)
           (List.filter (fun e => negb (shouldSkipEntity (EntityType.name e)))
                        (entityTypesOf s)))
    services.

(** ** Indexing *)

(** An indexing loop over items given as key, service id and document. *)
Definition storeAll (embedder : nat -> string -> Exc (list Q))
    (items : list (string * string * string)) (st : EmbeddingState) : EmbeddingState :=
  fold_left
    (fun acc '(key, serviceId, doc) => Embedding.embedAndStore embedder key serviceId doc acc)
    items st.

Definition serviceItems (getHint : string -> option ServiceHint)
    (services : list ODataService.t) : list (string * string * string) :=
  map (fun s => (ODataService.id s, ODataService.id s,
                 buildServiceDocument s (getHint (ODataService.id s))))
      services.

Definition entityItems (services : list ODataService.t)
  : list (string * string * string) :=
  flat_map
    (fun s =>
       map (fun e => (Embedding.embeddingId s e, ODataService.id s,
                      buildEmbeddingDocument s e))
           (List.filter (fun e => negb (shouldSkipEntity (EntityType.name e)))
                        (entityTypesOf s)))
    services.

Definition itemKey (item : string * string * string) : string := fst (fst item).

(** The model answers every text. *)
Definition alwaysEmbeds (embedder : nat -> string -> Exc (list Q)) : Prop :=
  forall n doc, exists v, embedder n doc = Ok v.

(** ** Metadata documents *)

Definition dotFree (s : string) : bool :=
  forallb (fun c => negb (Ascii.eqb c ".")) (list_ascii_of_string s).

(** The entity set node that an extracted entity type is linked to. *)
Definition linkedTo (e : EntityType.t) (setNode : Element) : Prop :=
  exists setName qualified,
    setNode "name" = Some setName /\ setName <> EmptyString /\
    EntityType.entitySet e = Some setName /\
    setNode "entitytype" = Some qualified /\
    nth_error (splitOn "." qualified) 1 = Some (EntityType.name e) /\
    EntityType.creatable e = unlessFalse (setNode "sap:creatable") /\
    EntityType.updatable e = unlessFalse (setNode "sap:updatable") /\
    EntityType.deletable e = unlessFalse (setNode "sap:deletable").

Definition unlinked (e : EntityType.t) : Prop :=
  EntityType.entitySet e = None /\
  EntityType.creatable e = false /\
  EntityType.updatable e = false /\
  EntityType.deletable e = false /\
  EntityType.addressable e = false.

(** ** Sample data *)

Definition catalogEntry (id title description : string) : ODataService.t :=
  {| ODataService.id := id;
     ODataService.version := "0001";
     ODataService.title := title;
     ODataService.description := description;
     ODataService.url := "/sap/opu/odata/sap/" +:+ id +:+ "/";
     ODataService.metadataUrl := "/sap/opu/odata/sap/" +:+ id +:+ "/$metadata";
     ODataService.metadata := None;
     ODataService.domain := None;
     ODataService.tier := None;
     ODataService.priority := None;
     ODataService.isPriorityService := None |}.

(** A small catalog as [discoverCatalog] tags it: the AR priority service,
    an AR display service, an SD service, an unclassified one, and an
    excluded one that is dropped. *)
Definition sampleCatalog : list ODataService.t :=
  discoverCatalog
    [ catalogEntry "ZMATERIAL_SRV" "Material master" "Materials and plants";
      catalogEntry "ZFAR_BALANCES_V2_SRV_0001" "Balances" "Customer balances";
      catalogEntry "ZSD_CUSTOMER_INVOICES_MANAGE_0001" "Manage invoices" "Billing";
      catalogEntry "RAR_RECEIVABLE_SRV" "Revenue accounting" "Not receivables";
      catalogEntry "ZFAR_CUSTOMER_LINE_ITEMS_0001" "Customer Line Items" "Line items" ].

Definition searchArgs (query domain : option string) (limit : option nat)
  : DiscoverArgs :=
  {| arg_query := query; arg_domain := domain; arg_limit := limit |}.

(** An embedding service whose provider fails, and one that answers. *)
Definition failingEmbedding : EmbeddingService :=
  {| isReady := true;
     searchServices := fun _ _ _ => Throw "Embedding model not initialized" |}.

Definition answeringEmbedding : EmbeddingService :=
  {| isReady := true;
     searchServices := fun _ _ _ =>
       Ok [ {| metadata_serviceId := "ZMATERIAL_SRV"; result_score := 9 # 10 |};
            {| metadata_serviceId := "ZFAR_BALANCES_V2_SRV_0001";
               result_score := 4 # 10 |};
            {| metadata_serviceId := "ZFAR_CUSTOMER_LINE_ITEMS_0001";
               result_score := 3 # 10 |} ] |}.

(** Services of the lexical examples: one known to the hints, the others
    with a match in a single catalog field. *)
Definition dunningHistory : ODataService.t :=
  catalogEntry "ZFAR_DUNNING_HISTORY_SRV_0001" "Dunning History" "History".

Definition titleOnly : ODataService.t :=
  catalogEntry "ZCORR_SRV" "Letters" "Correspondence".

Definition descriptionOnly : ODataService.t :=
  catalogEntry "ZCORR2_SRV" "Correspondence" "Outgoing f150 runs".

Definition dunningProposal : ODataService.t :=
  catalogEntry "ZFAR_MY_DUNNING_PROPOSAL_SRV_0001" "Dunning" "Proposals".

(** A service with one entity set that allows no writes and one with a
    composite key. *)
Definition customerEntity : EntityType.t :=
  {| EntityType.name := "Customer";
     EntityType.entitySet := Some "CustomerSet";
     EntityType.namespace := "ZFAR";
     EntityType.properties :=
       [ {| Property.name := "CustomerId"; Property.type := "Edm.String";
            Property.nullable := false; Property.maxLength := Some "10" |} ];
     EntityType.keys := ["CustomerId"];
     EntityType.creatable := false;
     EntityType.updatable := false;
     EntityType.deletable := false;
     EntityType.addressable := true |}.

Definition itemEntity : EntityType.t :=
  {| EntityType.name := "Item";
     EntityType.entitySet := Some "Items";
     EntityType.namespace := "ZFAR";
     EntityType.properties := [];
     EntityType.keys := ["CompanyCode"; "Document"; "Line"];
     EntityType.creatable := true;
     EntityType.updatable := true;
     EntityType.deletable := true;
     EntityType.addressable := true |}.

Definition lineItemsMetadata : ServiceMetadata.t :=
  {| ServiceMetadata.entityTypes := [customerEntity; itemEntity];
     ServiceMetadata.version := "v2";
     ServiceMetadata.namespace := "ZFAR" |}.

Definition freshWorld : World :=
  {| catalogServices := sampleCatalog;
     metadataCache := ∅;
     userToken := None;
     clientToken := None;
     fetches := [];
     sapCalls := [] |}.

(** Upstreams: a schema provider that answers, one that is down, and a SAP
    client that answers every call. *)
Definition schemaUp : nat -> ODataService.t -> Exc ServiceMetadata.t :=
  fun _ _ => Ok lineItemsMetadata.

Definition schemaDown : nat -> ODataService.t -> Exc ServiceMetadata.t :=
  fun _ _ => Throw "connect ECONNREFUSED".

Definition sapUp : nat -> SapCall -> Exc string := fun _ _ => Ok "{}".

Definition actArgs (serviceId entityName operation : string)
    (parameters : list (string * JSValue)) : ExecuteArgs :=
  {| xarg_serviceId := serviceId;
     xarg_entityName := entityName;
     xarg_operation := operation;
     xarg_parameters := Some (list_to_map parameters);
     xarg_filterString := None;
     xarg_selectString := None;
     xarg_expandString := None;
     xarg_orderbyString := None;
     xarg_topNumber := None;
     xarg_skipNumber := None |}.

Definition inspectArgs (serviceId entityName : string) : MetadataArgs :=
  {| marg_serviceId := serviceId; marg_entityName := entityName |}.

Definition lineItemsService : ODataService.t :=
  tagService (catalogEntry "ZFAR_CUSTOMER_LINE_ITEMS_0001" "Customer Line Items"
                           "Line items").

Definition createCustomer : ExecuteArgs :=
  actArgs "ZFAR_CUSTOMER_LINE_ITEMS_0001" "Customer" "CREATE"
          [("CustomerId", JString "C1")].

Definition inspectCustomer : MetadataArgs :=
  inspectArgs "ZFAR_CUSTOMER_LINE_ITEMS_0001" "Customer".

(** Two corpora with the same ids and the same number of entities per
    service: in the first every entity is a value help, which indexing
    skips; in the second every entity is a business entity. *)
Definition plainEntity (name : string) : EntityType.t :=
  {| EntityType.name := name;
     EntityType.entitySet := Some (name +:+ "Set");
     EntityType.namespace := "Z";
     EntityType.properties := [];
     EntityType.keys := ["Id"];
     EntityType.creatable := true;
     EntityType.updatable := true;
     EntityType.deletable := true;
     EntityType.addressable := true |}.

Definition corpusOf (entityNames : list string) : list ODataService.t :=
  [ ODataService.withMetadata
      (catalogEntry "ZFAR_BALANCES_V2_SRV_0001" "Balances" "Customer balances")
      {| ServiceMetadata.entityTypes := map plainEntity entityNames;
         ServiceMetadata.version := "v2";
         ServiceMetadata.namespace := "Z" |} ].

Definition elevenNames (stem : string) : list string :=
  map (fun d => stem +:+ d) ["A"; "B"; "C"; "D"; "E"; "F"; "G"; "H"; "I"; "J"; "K"].

Definition valueHelpCorpus : list ODataService.t := corpusOf (elevenNames "VL_").
Definition businessCorpus : list ODataService.t := corpusOf (elevenNames "Balance").

Definition twentyCorpus : list ODataService.t :=
  corpusOf (elevenNames "Balance" ++
            ["L"; "M"; "N"; "O"; "Q"; "R"; "S"; "T"; "U"]).

Definition snapshotOf (version model : string) (entityCount : Z) : EmbeddingCache :=
  {| cache_version := version;
     cache_model := model;
     cache_timestamp := 0;
     cache_entityCount := entityCount;
     cache_embeddings := ∅ |}.

Definition updateItem : ExecuteArgs :=
  actArgs "ZFAR_CUSTOMER_LINE_ITEMS_0001" "Item" "Update"
          [("CompanyCode", JString "1000"); ("Document", JString "D1");
           ("Line", JNumber 1); ("Amount", JNumber 5)].

(** A model that embeds every text as the first unit vector, a square
    root that is exact on the squares used, and a store of three
    services. *)
Definition unitEmbedder : nat -> string -> Exc (list Q) := fun _ _ => Ok [1%Q; 0%Q].

Definition squareRoot (q : Q) : Q :=
  if Qeq_bool q 25 then 5%Q else if Qeq_bool q 1 then 1%Q else 0%Q.

Definition indexedState : EmbeddingState :=
  {| st_initialized := true;
     st_embeddings :=
       [ ("ZMATERIAL_SRV",
          {| vector := [0%Q; 1%Q]; entry_serviceId := "ZMATERIAL_SRV" |});
         ("ZFAR_BALANCES_V2_SRV_0001",
          {| vector := [3%Q; 4%Q]; entry_serviceId := "ZFAR_BALANCES_V2_SRV_0001" |});
         ("ZFAR_CUSTOMER_LINE_ITEMS_0001",
          {| vector := [1%Q; 0%Q];
             entry_serviceId := "ZFAR_CUSTOMER_LINE_ITEMS_0001" |}) ];
     st_calls := 0 |}.

Definition freshState : EmbeddingState :=
  {| st_initialized := false; st_embeddings := []; st_calls := 0 |}.

Definition loadedState : EmbeddingState :=
  {| st_initialized := true; st_embeddings := []; st_calls := 0 |}.

(** A metadata document with one entity type and one entity set whose
    type is qualified by a dotted namespace. *)
Definition attributes (l : list (string * string)) : Element :=
  fun name =>
    match find (fun kv => String.eqb (fst kv) name) l with
    | Some kv => Some (snd kv)
    | None => None
    end.

Definition dottedDocument : MetadataDocument :=
  {| entitySetNodes :=
       [ attributes [("name", "Customers");
                     ("entitytype", "com.sap.Customer");
                     ("sap:creatable", "true")] ];
     entityTypeNodes :=
       [ {| node := attributes [("Name", "Customer")];
            parentElement := Some (attributes [("Namespace", "com.sap")]);
            propertyNodes := [attributes [("Name", "Id"); ("Type", "Edm.String")]];
            keyNodes := [attributes [("Name", "Id")]] |} ];
     schemaNode := Some (attributes [("Namespace", "com.sap")]) |}.

Definition rawServices : list ODataService.t :=
  [ catalogEntry "ZMATERIAL_SRV" "Material master" "Materials and plants";
    catalogEntry "RAR_RECEIVABLE_SRV" "Revenue accounting" "Not receivables";
    catalogEntry "ZFAR_BALANCES_V2_SRV_0001" "Balances" "Customer balances" ].

Definition readItems : ExecuteArgs :=
  {| xarg_serviceId := "ZFAR_CUSTOMER_LINE_ITEMS_0001";
     xarg_entityName := "Item";
     xarg_operation := "READ";
     xarg_parameters := None;
     xarg_filterString := Some "CompanyCode eq '1000'";
     xarg_selectString := None;
     xarg_expandString := None;
     xarg_orderbyString := None;
     xarg_topNumber := Some 5%Z;
     xarg_skipNumber := None |}.

(** Entities with a key property that is named like a member of
    [Object.prototype]. *)
Definition keyedEntity (keys : list string) : EntityType.t :=
  {| EntityType.name := "Node";
     EntityType.entitySet := Some "Nodes";
     EntityType.namespace := "Z";
     EntityType.properties := [];
     EntityType.keys := keys;
     EntityType.creatable := false;
     EntityType.updatable := false;
     EntityType.deletable := false;
     EntityType.addressable := true |}.

Definition constructorEntity : EntityType.t := keyedEntity ["constructor"].

Definition constructorItemEntity : EntityType.t :=
  keyedEntity ["constructor"; "CompanyCode"].

(** * Properties *)

(** ** Classification *)

Example classify_line_items :
  classifyService "ZFAR_CUSTOMER_LINE_ITEMS_0001" "Customer Line Items"
  = {| cl_domain := Some "AR"; cl_tier := 1; cl_priority := 1;
       cl_isPriorityService := true |}.
Proof. vm_compute. reflexivity. Qed.

Example classify_rar :
  classifyService "RAR_RECEIVABLE_SRV" "Receivable postings"
  = {| cl_domain := None; cl_tier := 0; cl_priority := 100;
       cl_isPriorityService := false |}.
Proof. vm_compute. reflexivity. Qed.

Example classify_balances :
  classifyService "ZFAR_BALANCES_V2_SRV_0001" "Balances"
  = {| cl_domain := Some "AR"; cl_tier := 2; cl_priority := 20;
       cl_isPriorityService := false |}.
Proof. vm_compute. reflexivity. Qed.

Example classify_dunning :
  classifyService "ZDUNNING_OVP_SRV" "Dunning statistics"
  = {| cl_domain := Some "FI"; cl_tier := 3; cl_priority := 30;
       cl_isPriorityService := false |}.
Proof. vm_compute. reflexivity. Qed.

(** The tier keywords are tested on the id followed by the title, so an
    end anchor looks at the end of the title. *)
Example classify_cds_suffix :
  cl_tier (classifyService "ZFAR_AGE_CDS" "Totals") = 1%Z /\
  cl_tier (classifyService "ZFAR_X" "Totals_CDS") = 3%Z.
Proof. vm_compute. split; reflexivity. Qed.


Lemma classifyAgainst_excluded config serviceId title :
  matchesAny (JS.toUpperCase serviceId) (excludePatterns config) = true ->
  classifyAgainst config serviceId title = None.
Proof. intros H. unfold classifyAgainst. rewrite H. reflexivity. Qed.

Lemma classifyAgainst_domain config serviceId title c :
  classifyAgainst config serviceId title = Some c ->
  cl_domain c = Some (name config).
Proof.
  unfold classifyAgainst.
  destruct (matchesAny _ (excludePatterns config)); [discriminate|].
  destruct (_ || _); [|discriminate].
  destruct (existsb _ _); intros [= <-]; reflexivity.
Qed.

Lemma classifyOver_domain configs serviceId title d :
  cl_domain (classifyOver configs serviceId title) = Some d ->
  exists config,
    In config configs /\ name config = d /\
    classifyAgainst config serviceId title <> None.
Proof.
  induction configs as [|config rest IH]; simpl.
  - discriminate.
  - destruct (classifyAgainst config serviceId title) as [c|] eqn:E.
    + intros Hd. pose proof (classifyAgainst_domain _ _ _ _ E) as Hdom.
      exists config. split; [now left|]. split; congruence.
    + intros Hd. destruct (IH Hd) as (c' & Hin & Hn & Hc).
      exists c'. split; [now right|]. now split.
Qed.

Lemma DOMAIN_CONFIGS_names : List.NoDup (map name DOMAIN_CONFIGS).
Proof.
  simpl. repeat (constructor; [simpl; intuition discriminate|]). constructor.
Qed.

Lemma NoDup_map_agree {A B : Type} (f : A -> B) (l : list A) (a b : A) :
  List.NoDup (map f l) -> In a l -> In b l -> f a = f b -> a = b.
Proof.
  induction l as [|x l IH]; simpl; [tauto|].
  intros Hnd Ha Hb Hf. inversion Hnd as [|? ? Hx Hl]; subst.
  destruct Ha as [->|Ha], Hb as [->|Hb]; trivial.
  - exfalso. apply Hx. rewrite Hf. now apply in_map.
  - exfalso. apply Hx. rewrite <- Hf. now apply in_map.
  - now apply IH.
Qed.

(** C2.  A service id matched by one of a domain's exclude patterns is
    never assigned that domain, whatever its id or title match among the
    domain's inclusion patterns. *)
Theorem classify_exclusion_dominates (config : DomainConfig) (serviceId title : string) :
  In config DOMAIN_CONFIGS ->
  matchesAny (JS.toUpperCase serviceId) (excludePatterns config) = true ->
  cl_domain (classifyService serviceId title) <> Some (name config).
Proof.
  intros Hin Hex Hd.
  apply classifyOver_domain in Hd. destruct Hd as (c & Hc & Hname & Hsome).
  assert (c = config) as ->
    by (eapply NoDup_map_agree; eauto using DOMAIN_CONFIGS_names).
  apply Hsome. now apply classifyAgainst_excluded.
Qed.

Lemma classify_exclusion_dominates_witness :
  matchesAny "RAR_RECEIVABLE_SRV" (prefixes AR_DOMAIN) = true /\
  cl_domain (classifyService "rar_receivable_srv" "Manage Receivables") <> Some "AR".
Proof.
  split; [vm_compute; reflexivity|].
  apply (classify_exclusion_dominates AR_DOMAIN).
  - simpl. now left.
  - vm_compute. reflexivity.
Defined.

(** ** Sorting with a comparator *)

Lemma Qgtb_true (a b : Q) : Qgtb a b = true <-> (b < a)%Q.
Proof.
  unfold Qgtb. rewrite Qgt_alt.
  destruct (Qcompare a b); split; congruence.
Qed.

Lemma Qgtb_false (a b : Q) : Qgtb a b = false <-> (a <= b)%Q.
Proof.
  rewrite <- not_true_iff_false, Qgtb_true. split.
  - apply Qnot_lt_le.
  - apply Qle_not_lt.
Qed.

Section SortFacts.
Context {A : Type} (cmp : A -> A -> Q) (P : A -> Prop).

Hypothesis total : forall a b, P a -> P b -> Qgtb (cmp a b) 0 = true -> notAfter cmp b a.
Hypothesis trans :
  forall a b c, P a -> P b -> P c -> notAfter cmp a b -> notAfter cmp b c -> notAfter cmp a c.

Lemma insertBy_In x l y : In y (insertBy cmp x l) <-> y = x \/ In y l.
Proof.
  induction l as [|z l IH]; simpl.
  - intuition.
  - destruct (Qgtb (cmp x z) 0); simpl; rewrite ?IH; intuition.
Qed.

Lemma insertBy_Permutation x l : Permutation (x :: l) (insertBy cmp x l).
Proof.
  induction l as [|z l IH]; simpl; [reflexivity|].
  destruct (Qgtb (cmp x z) 0); [|reflexivity].
  rewrite perm_swap. now apply perm_skip.
Qed.

Lemma sortBy_Permutation l : Permutation l (sortBy cmp l).
Proof.
  induction l as [|x l IH]; simpl; [reflexivity|].
  rewrite <- insertBy_Permutation. now apply perm_skip.
Qed.

Lemma sortBy_In l y : In y (sortBy cmp l) <-> In y l.
Proof.
  split; apply Permutation_in; [symmetry|]; apply sortBy_Permutation.
Qed.

Lemma sortBy_length l : length (sortBy cmp l) = length l.
Proof. symmetry. apply Permutation_length, sortBy_Permutation. Qed.

Lemma insertBy_sorted x l :
  P x -> Forall P l ->
  StronglySorted (notAfter cmp) l -> StronglySorted (notAfter cmp) (insertBy cmp x l).
Proof.
  intros Hx. induction l as [|z l IH]; simpl; intros HP Hs.
  - repeat constructor.
  - inversion HP as [|? ? Hz HPl]; subst.
    inversion Hs as [|? ? Hsl Hzl]; subst.
    destruct (Qgtb (cmp x z) 0) eqn:E.
    + constructor; [now apply IH|].
      apply List.Forall_forall. intros y Hy.
      apply -> insertBy_In in Hy. destruct Hy as [->|Hy].
      * now apply total.
      * rewrite List.Forall_forall in Hzl. now apply Hzl.
    + constructor; [assumption|].
      constructor; [exact E|].
      rewrite List.Forall_forall in *. intros y Hy.
      apply (trans x z y); auto.
Qed.

Lemma sortBy_sorted l : Forall P l -> StronglySorted (notAfter cmp) (sortBy cmp l).
Proof.
  induction l as [|x l IH]; simpl; intros HP.
  - constructor.
  - rewrite List.Forall_forall in HP.
    apply insertBy_sorted.
    + apply HP. apply in_eq.
    + apply List.Forall_forall. intros y Hy. apply -> sortBy_In in Hy.
      apply HP. now apply in_cons.
    + apply IH, List.Forall_forall. intros y Hy. apply HP. now apply in_cons.
Qed.
End SortFacts.

Lemma In_firstn_In {A : Type} (n : nat) (l : list A) (y : A) :
  In y (firstn n l) -> In y l.
Proof.
  revert n. induction l as [|x l IH]; intros [|n]; simpl; try tauto.
  intros [->|Hy]; [now left|right; eauto].
Qed.

Lemma StronglySorted_firstn {A : Type} (R : A -> A -> Prop) (n : nat) (l : list A) :
  StronglySorted R l -> StronglySorted R (firstn n l).
Proof.
  revert n. induction l as [|x l IH]; intros [|n] Hs; simpl; try constructor.
  - inversion Hs; subst. now apply IH.
  - inversion Hs as [|? ? _ Hx]; subst.
    rewrite List.Forall_forall in *. intros y Hy. apply Hx.
    now apply (In_firstn_In n).
Qed.

Lemma StronglySorted_weaken {A : Type} (R S : A -> A -> Prop) (P : A -> Prop) (l : list A) :
  (forall a b, P a -> P b -> R a b -> S a b) ->
  Forall P l -> StronglySorted R l -> StronglySorted S l.
Proof.
  intros HRS. induction l as [|x l IH]; intros HP Hs; [constructor|].
  inversion HP; subst. inversion Hs as [|? ? Hl Hx]; subst.
  constructor; [auto|].
  rewrite List.Forall_forall in *. auto.
Qed.

(** ** The business-priority order *)


Lemma Qgtb_inject_Z (z : Z) : Qgtb (inject_Z z) 0 = false <-> (z <= 0)%Z.
Proof.
  rewrite Qgtb_false. unfold Qle. simpl. lia.
Qed.

Lemma Qgtb_difference (x y : Q) : Qgtb (y - x) 0 = false <-> (y <= x)%Q.
Proof. rewrite Qgtb_false. split; intros H; lra. Qed.

Lemma compareScored_keys (a b : Scored) :
  flagged a -> flagged b ->
  (notAfter compareScored a b <-> keysBefore a b).
Proof.
  intros [fa Ha] [fb Hb].
  unfold notAfter, compareScored, keysBefore, flagRank, isPriority.
  fold (tierKey a) (tierKey b) (priorityKey a) (priorityKey b).
  rewrite Ha, Hb. simpl.
  destruct fa, fb; simpl.
  3: { split; [discriminate | intros [H|[H _]]; lia]. }
  2: { split; [intros _; left; lia | reflexivity]. }
  all: destruct (Z.eqb_spec (tierKey a) (tierKey b)) as [Et|Et]; simpl.
  all: try (rewrite Qgtb_inject_Z; split;
            [intros H; right; split; [reflexivity|left; lia]
            |intros [H|[_ [H|[H _]]]]; lia]).
  all: destruct (Z.eqb_spec (priorityKey a) (priorityKey b)) as [Ep|Ep]; simpl.
  all: try (rewrite Qgtb_inject_Z; split;
            [intros H; right; split; [reflexivity|right; split; [assumption|left; lia]]
            |intros [H|[_ [H|[_ [H|[H _]]]]]]; lia]).
  all: rewrite Qgtb_difference; split;
       [intros H; right; split; [reflexivity|right; split; [assumption|right; now split]]
       |intros [H|[_ [H|[_ [H|[_ H]]]]]]; [lia|lia|lia|exact H]].
Qed.

Lemma keysBefore_total (a b : Scored) : ~ keysBefore a b -> keysBefore b a.
Proof.
  unfold keysBefore. intros H.
  destruct (Z.lt_trichotomy (flagRank a) (flagRank b)) as [Hf|[Hf|Hf]];
    [exfalso; apply H; now left| |now left].
  right. split; [lia|].
  destruct (Z.lt_trichotomy (tierKey a) (tierKey b)) as [Ht|[Ht|Ht]];
    [exfalso; apply H; right; split; [exact Hf|now left]| |now left].
  right. split; [lia|].
  destruct (Z.lt_trichotomy (priorityKey a) (priorityKey b)) as [Hp|[Hp|Hp]];
    [exfalso; apply H; right; split; [exact Hf|right; split; [exact Ht|now left]]
    | |now left].
  right. split; [lia|].
  destruct (Qlt_le_dec (score b) (score a)) as [Hs|Hs]; [|exact Hs].
  exfalso. apply H. right. split; [exact Hf|]. right. split; [exact Ht|].
  right. split; [exact Hp|]. now apply Qlt_le_weak.
Qed.

Lemma keysBefore_trans (a b c : Scored) :
  keysBefore a b -> keysBefore b c -> keysBefore a c.
Proof.
  unfold keysBefore.
  intros [H1|[F1 [H1|[T1 [H1|[P1 S1]]]]]] [H2|[F2 [H2|[T2 [H2|[P2 S2]]]]]];
    try (left; lia);
    try (right; split; [lia|left; lia]);
    try (right; split; [lia|right; split; [lia|left; lia]]).
  right. split; [lia|]. right. split; [lia|]. right. split; [lia|].
  now apply Qle_trans with (score b).
Qed.

Lemma numberOr_tier (t : option Z) (d : Z) :
  (t = None \/ exists x, t = Some x /\ (0 <= x <= 3)%Z) ->
  (unclassifiedTier t /\ numberOr t d = d) \/
  (exists x, t = Some x /\ x <> 0%Z /\ (1 <= x <= 3)%Z /\ numberOr t d = x).
Proof.
  intros [->|(x & -> & Hx)].
  - left. split; [now left|reflexivity].
  - destruct (Z.eq_dec x 0%Z) as [->|Hn].
    + left. split; [now right|reflexivity].
    + right. exists x. repeat split; try lia. destruct x; simpl; congruence.
Qed.

(** On classified entries the comparator's keys order the entries as the
    specification says. *)
Lemma keysBefore_businessBefore (a b : Scored) :
  WellClassified (service a) -> WellClassified (service b) ->
  keysBefore a b -> businessBefore a b.
Proof.
  intros (_ & Hta & (pa & Hpa & Hpa1)) (_ & Htb & (pb & Hpb & Hpb1)).
  unfold keysBefore, businessBefore, flagRank, tierKey, priorityKey.
  rewrite Hpa, Hpb.
  assert (numberOr (Some pa) 100 = pa) as -> by (destruct pa; simpl; [lia|reflexivity|reflexivity]).
  assert (numberOr (Some pb) 100 = pb) as -> by (destruct pb; simpl; [lia|reflexivity|reflexivity]).
  intros [Hf|(Hf & Hrest)].
  { left. destruct (isPriority a), (isPriority b); first [now split | lia]. }
  right. split.
  { destruct (isPriority a), (isPriority b); trivial; lia. }
  destruct (numberOr_tier _ 99%Z Hta) as [[Hua Hka]|(x & Hxa & Hx0 & Hxr & Hka)];
  destruct (numberOr_tier _ 99%Z Htb) as [[Hub Hkb]|(y & Hyb & Hy0 & Hyr & Hkb)];
    rewrite Hka, Hkb in Hrest.
  - right. split; [left; now split|].
    destruct Hrest as [Ht|(_ & [Hp|(Hp & Hs)])]; [lia| |].
    + left. now exists pa, pb.
    + right. split; [congruence|exact Hs].
  - exfalso. destruct Hrest as [Ht|(Ht & _)]; lia.
  - left. exists x. repeat split; trivial. now left.
  - destruct Hrest as [Ht|(Ht & [Hp|(Hp & Hs)])].
    + left. exists x. repeat split; trivial. right. exists y. repeat split; trivial.
    + right. split; [right; exists x; subst y; repeat split; trivial|].
      left. now exists pa, pb.
    + right. split; [right; exists x; subst y; repeat split; trivial|].
      right. split; [congruence|exact Hs].
Qed.

Lemma numberOr_priority (p : Z) : (1 <= p)%Z -> numberOr (Some p) 100 = p.
Proof. intros H. destruct p; simpl; [lia|reflexivity|reflexivity]. Qed.

Lemma businessBefore_keysBefore (a b : Scored) :
  WellClassified (service a) -> WellClassified (service b) ->
  businessBefore a b -> keysBefore a b.
Proof.
  intros (_ & Hta & (pa & Hpa & Hpa1)) (_ & Htb & (pb & Hpb & Hpb1)).
  unfold keysBefore, businessBefore, flagRank, tierKey, priorityKey.
  rewrite Hpa, Hpb, !numberOr_priority by assumption.
  intros [[-> ->]|(-> & Hrest)]; [left; lia|].
  right. split; [reflexivity|].
  destruct (numberOr_tier _ 99%Z Hta) as [[Hua ->]|(x & Hxa & Hx0 & Hxr & ->)];
  destruct (numberOr_tier _ 99%Z Htb) as [[Hub ->]|(y & Hyb & Hy0 & Hyr & ->)].
  - right. split; [reflexivity|].
    destruct Hrest as [(x & Hx & Hx0 & _)|(_ & [(p & q & Hp & Hq & Hlt)|(Hp & Hs)])].
    + exfalso. destruct Hua as [Hu|Hu]; congruence.
    + left. congruence.
    + right. split; [congruence|exact Hs].
  - exfalso.
    destruct Hrest as [(x & Hx & Hx0 & _)|([(_ & Hu)|(x & Hx0 & Hx & _)] & _)].
    + destruct Hua as [Hu|Hu]; congruence.
    + destruct Hu as [Hu|Hu]; congruence.
    + destruct Hua as [Hu|Hu]; congruence.
  - left. lia.
  - destruct Hrest as [(x' & Hx' & _ & [Hu|(y' & Hy' & _ & Hlt)])
                      |([(Hu & _)|(z & _ & Hza & Hzb)] & Hprio)].
    + exfalso. destruct Hu as [Hu|Hu]; congruence.
    + left. congruence.
    + exfalso. destruct Hu as [Hu|Hu]; congruence.
    + right. split; [congruence|].
      destruct Hprio as [(p & q & Hp & Hq & Hlt)|(Hp & Hs)].
      * left. congruence.
      * right. split; [congruence|exact Hs].
Qed.

(** On classified entries the order is a total preorder. *)
Lemma businessBefore_total (a b : Scored) :
  WellClassified (service a) -> WellClassified (service b) ->
  businessBefore a b \/ businessBefore b a.
Proof.
  intros Ha Hb.
  assert (Hk : keysBefore a b \/ keysBefore b a).
  { unfold keysBefore.
    destruct (Z.lt_trichotomy (flagRank a) (flagRank b)) as [H|[Hf|H]];
      [left; now left| |right; now left].
    destruct (Z.lt_trichotomy (tierKey a) (tierKey b)) as [H|[Ht|H]];
      [left; right; split; [exact Hf|now left]
      | |right; right; split; [now symmetry|now left]].
    destruct (Z.lt_trichotomy (priorityKey a) (priorityKey b)) as [H|[Hp|H]];
      [left; right; split; [exact Hf|right; split; [exact Ht|now left]]
      | |right; right; split; [now symmetry|right; split; [now symmetry|now left]]].
    destruct (Qlt_le_dec (score a) (score b)) as [Hs|Hs].
    - right. right. split; [now symmetry|]. right. split; [now symmetry|].
      right. split; [now symmetry|now apply Qlt_le_weak].
    - left. right. split; [exact Hf|]. right. split; [exact Ht|].
      right. now split. }
  destruct Hk as [Hk|Hk]; [left|right]; now apply keysBefore_businessBefore.
Qed.

Lemma businessBefore_trans (a b c : Scored) :
  WellClassified (service a) -> WellClassified (service b) ->
  WellClassified (service c) ->
  businessBefore a b -> businessBefore b c -> businessBefore a c.
Proof.
  intros Ha Hb Hc Hab Hbc.
  apply keysBefore_businessBefore; trivial.
  apply keysBefore_trans with b; now apply businessBefore_keysBefore.
Qed.

(** ** Where the candidates come from *)

Lemma filterByDomain_In catalog domainFilter s :
  In s (filterByDomain catalog domainFilter) -> In s catalog.
Proof.
  unfold filterByDomain. destruct (negb _); [|trivial].
  intros H. now apply filter_In in H.
Qed.

Lemma semanticMatches_service services semanticResults x :
  In x (semanticMatches services semanticResults) -> In (service x) services.
Proof.
  induction semanticResults as [|r rest IH]; simpl; [tauto|].
  destruct (find _ services) as [s|] eqn:E; [|exact IH].
  intros [<-|H]; [|now apply IH].
  simpl. now apply find_some in E.
Qed.

Lemma scoreService_service queryLower queryWords s :
  service (scoreService queryLower queryWords s) = s.
Proof.
  unfold scoreService. now destruct (fold_left _ _ _).
Qed.

Lemma patternSearch_service services queryLower x :
  In x (patternSearch services queryLower) -> In (service x) services.
Proof.
  unfold patternSearch. intros H. apply filter_In in H. destruct H as [H _].
  apply in_map_iff in H. destruct H as (s & <- & Hs).
  now rewrite scoreService_service.
Qed.

Lemma allServices_service services x :
  In x (allServices services) -> In (service x) services.
Proof.
  unfold allServices. intros H. apply in_map_iff in H.
  now destruct H as (s & <- & Hs).
Qed.

Lemma lexicalStage_drawn services queryLower found :
  drawnFrom services found -> drawnFrom services (lexicalStage services queryLower found).
Proof.
  unfold lexicalStage. destruct (snd found) eqn:E; [|trivial].
  intros _ x. simpl. apply patternSearch_service.
Qed.

Lemma fallbackStage_drawn services query found :
  drawnFrom services found -> drawnFrom services (fallbackStage services query found).
Proof.
  unfold fallbackStage. destruct (snd found) eqn:E; [|trivial].
  intros _ x. simpl. apply allServices_service.
Qed.

Lemma semanticStage_drawn embedding services query limit :
  drawnFrom services
    (tryCatch (semanticStage embedding services query limit)
              (fun _ => ("none", []))).
Proof.
  unfold semanticStage, bindExc, tryCatch.
  destruct (searchServices embedding query (limit * 2) (1 # 4)) as [[|r rs]|err];
    intros x.
  - intros [].
  - apply (semanticMatches_service services (r :: rs)).
  - intros [].
Qed.

Lemma collectCandidates_service embeddingService services query limit x :
  In x (snd (collectCandidates embeddingService services query limit)) ->
  In (service x) services.
Proof.
  revert x. change (drawnFrom services
                      (collectCandidates embeddingService services query limit)).
  unfold collectCandidates. apply fallbackStage_drawn.
  destruct (JS.truthy query); [|intros x; simpl; tauto].
  apply lexicalStage_drawn.
  destruct embeddingService as [e|]; [|intros x; simpl; tauto].
  destruct (isReady e); [|intros x; simpl; tauto].
  apply semanticStage_drawn.
Qed.

Lemma compareScored_sorts (l : list Scored) :
  Forall (fun x => WellClassified (service x)) l ->
  StronglySorted businessBefore (sortBy compareScored l).
Proof.
  intros HP.
  assert (Hflag : forall x, WellClassified (service x) -> flagged x)
    by (intros x Hx; apply Hx).
  apply StronglySorted_weaken
    with (R := notAfter compareScored) (P := fun x => WellClassified (service x)).
  - intros a b Ha Hb Hab. apply keysBefore_businessBefore; trivial.
    apply compareScored_keys; auto.
  - apply List.Forall_forall. intros x Hx. apply -> (sortBy_In compareScored) in Hx.
    rewrite List.Forall_forall in HP. auto.
  - apply sortBy_sorted with (P := fun x => WellClassified (service x)); trivial.
    + intros a b Ha Hb Hab. apply compareScored_keys; auto.
      apply keysBefore_total. intros Hk.
      apply compareScored_keys in Hk; auto.
      unfold notAfter in Hk. congruence.
    + intros a b c Ha Hb Hc Hab Hbc.
      apply compareScored_keys; auto.
      apply keysBefore_trans with b; apply compareScored_keys; auto.
Qed.

(** C1.  Over a classified catalog the list that Stage 1 returns is sorted
    by the business-priority order: priority services first, then by tier
    with the unclassified last, then by ascending priority score, then by
    descending search score.  The ranked list is a rearrangement of what
    the producing stage (semantic, lexical or all services) found. *)
Theorem discovery_sorted_by_business_priority
    (catalog : list ODataService.t) (embeddingService : option EmbeddingService)
    (args : DiscoverArgs) :
  Forall WellClassified catalog ->
  exists ranked response,
    Permutation
      (snd (collectCandidates embeddingService
              (filterByDomain catalog (domainFilterOf args))
              (queryOf args) (limitOf args)))
      ranked /\
    StronglySorted businessBefore ranked /\
    discoverServicesAndEntities catalog embeddingService args = Ok response /\
    results response = map resultRow (limitedResults catalog embeddingService args) /\
    limitedResults catalog embeddingService args = firstn (limitOf args) ranked /\
    StronglySorted businessBefore (limitedResults catalog embeddingService args).
Proof.
  intros Hcat.
  unfold limitedResults, discoverServicesAndEntities, rankedCandidates.
  destruct (collectCandidates _ _ _ _) as [method scored] eqn:E. simpl.
  assert (Hs : StronglySorted businessBefore (sortBy compareScored scored)).
  { apply compareScored_sorts. apply List.Forall_forall. intros x Hx.
    rewrite List.Forall_forall in Hcat. apply Hcat.
    apply filterByDomain_In with (domainFilter := domainFilterOf args).
    apply collectCandidates_service
      with (embeddingService := embeddingService) (query := queryOf args)
           (limit := limitOf args).
    now rewrite E. }
  eexists. eexists. split; [apply sortBy_Permutation|].
  split; [exact Hs|]. split; [reflexivity|]. simpl.
  split; [reflexivity|]. split; [reflexivity|].
  now apply StronglySorted_firstn.
Qed.

Lemma classifyAgainst_range config serviceId title c :
  classifyAgainst config serviceId title = Some c ->
  (1 <= cl_tier c <= 3)%Z /\ (1 <= cl_priority c)%Z.
Proof.
  unfold classifyAgainst, determineTier.
  destruct (matchesAny _ (excludePatterns config)); [discriminate|].
  destruct (_ || _); [|discriminate].
  destruct (existsb _ _); [intros [= <-]; simpl; unfold PRIORITY_SCORES.PRIORITY_SERVICE; lia|].
  destruct (matchesAny _ (tier1Keywords config));
    [|destruct (matchesAny _ (tier2Keywords config));
      [|destruct (matchesAny _ (tier3Keywords config))]];
    intros [= <-]; simpl;
    unfold PRIORITY_SCORES.TIER_1, PRIORITY_SCORES.TIER_2, PRIORITY_SCORES.TIER_3; lia.
Qed.

Lemma classifyOver_range configs serviceId title :
  (0 <= cl_tier (classifyOver configs serviceId title) <= 3)%Z /\
  (1 <= cl_priority (classifyOver configs serviceId title))%Z.
Proof.
  induction configs as [|config rest IH]; simpl.
  - unfold PRIORITY_SCORES.UNCLASSIFIED. lia.
  - destruct (classifyAgainst config serviceId title) as [c|] eqn:E; [|exact IH].
    apply classifyAgainst_range in E. lia.
Qed.

(** Every entry of a discovered catalog is classified. *)
Lemma discoverCatalog_WellClassified services :
  Forall WellClassified (discoverCatalog services).
Proof.
  apply List.Forall_forall. intros s Hs.
  unfold discoverCatalog in Hs. apply filter_In in Hs. destruct Hs as [Hs _].
  apply in_map_iff in Hs. destruct Hs as (raw & <- & _).
  unfold WellClassified, tagService. simpl.
  pose proof (classifyOver_range DOMAIN_CONFIGS (ODataService.id raw)
                (ODataService.title raw)) as [Ht Hp].
  split; [eauto|]. split; [right|]; eauto.
Qed.

Lemma discovery_sorted_by_business_priority_witness :
  Forall WellClassified sampleCatalog /\
  exists ranked response,
    Permutation
      (snd (collectCandidates (Some answeringEmbedding)
              (filterByDomain sampleCatalog
                 (domainFilterOf (searchArgs (Some "customer") None (Some 3))))
              (queryOf (searchArgs (Some "customer") None (Some 3)))
              (limitOf (searchArgs (Some "customer") None (Some 3)))))
      ranked /\
    StronglySorted businessBefore ranked /\
    discoverServicesAndEntities sampleCatalog (Some answeringEmbedding)
      (searchArgs (Some "customer") None (Some 3)) = Ok response /\
    results response =
      map resultRow (limitedResults sampleCatalog (Some answeringEmbedding)
                       (searchArgs (Some "customer") None (Some 3))) /\
    limitedResults sampleCatalog (Some answeringEmbedding)
      (searchArgs (Some "customer") None (Some 3)) = firstn 3 ranked /\
    StronglySorted businessBefore
      (limitedResults sampleCatalog (Some answeringEmbedding)
         (searchArgs (Some "customer") None (Some 3))).
Proof.
  split.
  - apply discoverCatalog_WellClassified.
  - apply (discovery_sorted_by_business_priority sampleCatalog
             (Some answeringEmbedding) (searchArgs (Some "customer") None (Some 3))).
    apply discoverCatalog_WellClassified.
Defined.

Example sample_semantic_ranking :
  map (fun x => (ODataService.id (service x), score x))
      (limitedResults sampleCatalog (Some answeringEmbedding)
         (searchArgs (Some "customer") None (Some 3)))
  = [ ("ZFAR_CUSTOMER_LINE_ITEMS_0001", 3 # 10);
      ("ZFAR_BALANCES_V2_SRV_0001", 4 # 10);
      ("ZMATERIAL_SRV", 9 # 10) ].
Proof. vm_compute. reflexivity. Qed.

(** ** Stage 1: fallbacks *)

Lemma limitOf_positive args : (1 <= limitOf args)%nat.
Proof. unfold limitOf. destruct (arg_limit args) as [[|n]|]; lia. Qed.

Lemma limitOf_given args n : arg_limit args = Some n -> (1 <= n)%nat -> limitOf args = n.
Proof. unfold limitOf. intros ->. destruct n; [lia|reflexivity]. Qed.

Lemma collectCandidates_failing embedding services query limit err :
  JS.truthy query = true ->
  isReady embedding = true ->
  searchServices embedding query (limit * 2) (1 # 4) = Throw err ->
  collectCandidates (Some embedding) services query limit
  = fallbackStage services query
      ("pattern", patternSearch services (JS.toLowerCase query)).
Proof.
  intros Hq Hr Hs. unfold collectCandidates, semanticStage, tryCatch, bindExc.
  rewrite Hq, Hr, Hs. reflexivity.
Qed.

Lemma collectCandidates_without services query limit :
  JS.truthy query = true ->
  collectCandidates None services query limit
  = fallbackStage services query
      ("pattern", patternSearch services (JS.toLowerCase query)).
Proof.
  intros Hq. unfold collectCandidates. rewrite Hq. reflexivity.
Qed.

(** C3.  When the embedding provider throws during the semantic stage, the
    error is caught and the tool answers with a response, which is the one
    of the lexical path: its rows are the pattern matches over the
    domain-filtered services, ranked and cut at the limit, under the method
    [pattern]; only when no service matches are they all domain-filtered
    services, under the method [fallback].  It is the response that the
    tool gives without an embedding service. *)
Theorem embedding_failure_falls_back_to_lexical
    (catalog : list ODataService.t) (embedding : EmbeddingService)
    (args : DiscoverArgs) (err : string) :
  JS.truthy (queryOf args) = true ->
  isReady embedding = true ->
  searchServices embedding (queryOf args) (limitOf args * 2) (1 # 4) = Throw err ->
  let services := filterByDomain catalog (domainFilterOf args) in
  let lexical := patternSearch services (JS.toLowerCase (queryOf args)) in
  let candidates :=
    match lexical with [] => allServices services | _ => lexical end in
  collectCandidates (Some embedding) services (queryOf args) (limitOf args)
  = fallbackStage services (queryOf args) ("pattern", lexical) /\
  exists response,
    discoverServicesAndEntities catalog (Some embedding) args = Ok response /\
    discoverServicesAndEntities catalog None args = Ok response /\
    (searchMethod response = "pattern" \/ searchMethod response = "fallback") /\
    response
    = {| resp_query := queryOf args;
         resp_domain := domainFilterOf args;
         searchMethod := match lexical with [] => "fallback" | _ => "pattern" end;
         totalFound := length candidates;
         showing := Nat.min (limitOf args) (length candidates);
         results :=
           map resultRow
               (firstn (limitOf args) (sortBy compareScored candidates)) |}.
Proof.
  intros Hq Hr Hs services lexical candidates.
  pose proof (collectCandidates_failing embedding services _ _ err Hq Hr Hs) as Hc.
  pose proof (collectCandidates_without services _ (limitOf args) Hq) as Hn.
  fold lexical in Hc, Hn.
  split; [exact Hc|].
  unfold discoverServicesAndEntities, rankedCandidates.
  fold services. rewrite Hc, Hn.
  assert (Hquery : JS.orElse (queryOf args) "(all)" = queryOf args)
    by (unfold JS.orElse; now rewrite Hq).
  assert (Hstage :
    fallbackStage services (queryOf args) ("pattern", lexical)
    = (match lexical with [] => "fallback" | _ => "pattern" end, candidates)).
  { unfold fallbackStage, candidates. cbn [snd].
    destruct lexical; [now rewrite Hq|reflexivity]. }
  rewrite Hstage, Hquery.
  eexists. split; [reflexivity|]. split; [reflexivity|].
  split; [cbn [searchMethod]; destruct lexical; [now right|now left]|].
  rewrite length_map, length_firstn, sortBy_length. reflexivity.
Qed.

Lemma embedding_failure_falls_back_to_lexical_witness :
  exists response,
    discoverServicesAndEntities sampleCatalog (Some failingEmbedding)
      (searchArgs (Some "Customer ") (Some "ar") (Some 5)) = Ok response /\
    discoverServicesAndEntities sampleCatalog None
      (searchArgs (Some "Customer ") (Some "ar") (Some 5)) = Ok response /\
    searchMethod response = "pattern" /\
    totalFound response = 2%nat /\
    map row_serviceId (results response)
    = ["ZFAR_CUSTOMER_LINE_ITEMS_0001"; "ZFAR_BALANCES_V2_SRV_0001"].
Proof.
  destruct (embedding_failure_falls_back_to_lexical sampleCatalog failingEmbedding
              (searchArgs (Some "Customer ") (Some "ar") (Some 5))
              "Embedding model not initialized")
    as (_ & response & Hwith & Hwithout & _ & Hresponse); try reflexivity.
  exists response. split; [exact Hwith|]. split; [exact Hwithout|].
  rewrite Hresponse. repeat split; vm_compute; reflexivity.
Defined.

Example sample_failing_embedding :
  match discoverServicesAndEntities sampleCatalog (Some failingEmbedding)
          (searchArgs (Some "Customer ") (Some "ar") (Some 5)) with
  | Ok response =>
      (searchMethod response, map row_serviceId (results response),
       map row_matchReason (results response))
  | Throw _ => (EmptyString, [], [])
  end
  = ("pattern",
     ["ZFAR_CUSTOMER_LINE_ITEMS_0001"; "ZFAR_BALANCES_V2_SRV_0001"],
     ["Label match"; "Label match"]).
Proof. vm_compute. reflexivity. Qed.

Lemma NoDup_map_filter {A B : Type} (f : A -> B) (p : A -> bool) (l : list A) :
  List.NoDup (map f l) -> List.NoDup (map f (List.filter p l)).
Proof.
  induction l as [|x l IH]; simpl; [trivial|].
  intros H. inversion H as [|? ? Hx Hl]; subst.
  destruct (p x); simpl; [|now apply IH].
  constructor; [|now apply IH].
  intros Hin. apply Hx. apply in_map_iff in Hin. destruct Hin as (y & Hy & Hin).
  apply filter_In in Hin. apply in_map_iff. exists y. tauto.
Qed.

Lemma NoDup_firstn {A : Type} (n : nat) (l : list A) :
  List.NoDup l -> List.NoDup (firstn n l).
Proof.
  revert n. induction l as [|x l IH]; intros [|n] H; simpl; try constructor.
  - inversion H; subst. intros Hin. now apply In_firstn_In in Hin.
  - inversion H; subst. now apply IH.
Qed.

Lemma filterByDomain_NoDup catalog domainFilter :
  List.NoDup (map ODataService.id catalog) ->
  List.NoDup (map ODataService.id (filterByDomain catalog domainFilter)).
Proof.
  unfold filterByDomain. destruct (negb _); [apply NoDup_map_filter|trivial].
Qed.

Lemma allServices_ids services :
  map (fun x => ODataService.id (service x)) (allServices services)
  = map ODataService.id services.
Proof. unfold allServices. rewrite map_map. reflexivity. Qed.

Lemma collectCandidates_empty_query embeddingService services query limit :
  query = EmptyString ->
  collectCandidates embeddingService services query limit
  = ("all", allServices services).
Proof. intros ->. reflexivity. Qed.

Lemma collectCandidates_nonempty embeddingService services query limit :
  services <> [] ->
  snd (collectCandidates embeddingService services query limit) <> [].
Proof.
  intros Hs. unfold collectCandidates, fallbackStage.
  match goal with |- context [match snd ?f with _ => _ end] => destruct (snd f) eqn:E end.
  - simpl. destruct services; [congruence|discriminate].
  - rewrite E. discriminate.
Qed.

Lemma resultRow_ids (l : list Scored) :
  map row_serviceId (map resultRow l) = map (fun x => ODataService.id (service x)) l.
Proof. rewrite map_map. reflexivity. Qed.

Lemma collectCandidates_nothing embeddingService services query limit :
  nothingFound embeddingService services query limit ->
  snd (collectCandidates embeddingService services query limit) = allServices services /\
  (fst (collectCandidates embeddingService services query limit) = "all" \/
   fst (collectCandidates embeddingService services query limit) = "fallback").
Proof.
  intros [->|[Hsem Hlex]]; [split; [reflexivity|now left]|].
  unfold collectCandidates, fallbackStage, lexicalStage.
  destruct (JS.truthy query) eqn:Hq; [|split; [reflexivity|now left]].
  assert (Hstage :
    snd (match embeddingService with
         | Some embedding =>
             if isReady embedding
             then tryCatch (semanticStage embedding services query limit)
                           (fun _ => ("none", []))
             else ("none", [])
         | None => ("none", [])
         end) = []).
  { unfold semanticFound in Hsem.
    destruct embeddingService as [embedding|]; [|reflexivity].
    destruct (isReady embedding); [|reflexivity].
    unfold semanticStage, tryCatch, bindExc.
    destruct (searchServices embedding query (limit * 2) (1 # 4)) as [[|r rs]|e];
      [reflexivity|exact Hsem|reflexivity]. }
  rewrite Hstage. cbn [snd]. rewrite Hlex. cbn [snd fst].
  split; [reflexivity|now right].
Qed.

Lemma allServices_neutral services x :
  In x (allServices services) ->
  score x = 5 # 10 /\ matchReason x = "All services".
Proof.
  unfold allServices. intros H. apply in_map_iff in H.
  destruct H as (s & <- & _). now split.
Qed.

Lemma firstn_all_In {A : Type} (n : nat) (l : list A) (x : A) :
  (length l <= n)%nat -> In x l -> In x (firstn n l).
Proof. intros Hlen Hx. now rewrite firstn_all2. Qed.

(** C4.  Stage 1 never answers with an empty list when the domain-filtered
    catalog is not empty.  With an empty query and a limit [N] it returns
    exactly [min N |filtered|] entries, each with the neutral score 0.5 and
    the reason [All services], and without repeated service ids when the
    catalog ids are distinct.  More generally, whenever the query is empty
    or both search stages find nothing, the candidates are all
    domain-filtered services, each with the neutral score: the response
    counts every one of them, shows the first [limit] of their ranking,
    and shows each of them when the limit allows. *)
Theorem empty_query_returns_bounded_all
    (catalog : list ODataService.t) (embeddingService : option EmbeddingService)
    (args : DiscoverArgs) :
  let filtered := filterByDomain catalog (domainFilterOf args) in
  let shown := limitedResults catalog embeddingService args in
  exists response,
    discoverServicesAndEntities catalog embeddingService args = Ok response /\
    results response = map resultRow shown /\
    (filtered <> [] -> shown <> [] /\ results response <> []) /\
    (forall N,
       queryOf args = EmptyString ->
       arg_limit args = Some N -> (1 <= N)%nat ->
       length shown = Nat.min N (length filtered) /\
       length (results response) = Nat.min N (length filtered) /\
       Forall (fun x => score x = 5 # 10 /\ matchReason x = "All services") shown /\
       (List.NoDup (map ODataService.id catalog) ->
        List.NoDup (map row_serviceId (results response)))) /\
    (nothingFound embeddingService filtered (queryOf args) (limitOf args) ->
       shown = firstn (limitOf args) (sortBy compareScored (allServices filtered)) /\
       (searchMethod response = "all" \/ searchMethod response = "fallback") /\
       totalFound response = length filtered /\
       length (results response) = Nat.min (limitOf args) (length filtered) /\
       Forall (fun x => score x = 5 # 10 /\ matchReason x = "All services") shown /\
       ((length filtered <= limitOf args)%nat ->
        forall s, In s filtered ->
                  In (ODataService.id s) (map row_serviceId (results response))) /\
       (List.NoDup (map ODataService.id catalog) ->
        List.NoDup (map row_serviceId (results response)))).
Proof.
  intros filtered shown. subst shown.
  unfold limitedResults, discoverServicesAndEntities, rankedCandidates.
  fold filtered.
  pose proof (collectCandidates_nothing embeddingService filtered (queryOf args)
                (limitOf args)) as Hnothing.
  destruct (collectCandidates embeddingService filtered (queryOf args) (limitOf args))
    as [method scored] eqn:E.
  eexists. split; [reflexivity|]. simpl. split; [reflexivity|]. split; [|split].
  - intros Hne.
    assert (Hs : scored <> []).
    { pose proof (collectCandidates_nonempty embeddingService filtered
                    (queryOf args) (limitOf args) Hne) as H.
      now rewrite E in H. }
    assert (Hl : firstn (limitOf args) (sortBy compareScored scored) <> []).
    { pose proof (limitOf_positive args) as Hp.
      pose proof (sortBy_length compareScored scored) as Hlen.
      destruct (limitOf args) as [|n]; [lia|].
      destruct (sortBy compareScored scored); simpl in *; [|discriminate].
      destruct scored; [congruence|discriminate]. }
    split; [exact Hl|].
    destruct (firstn _ _); [congruence|discriminate].
  - intros N Hq HN H1.
    rewrite (collectCandidates_empty_query _ _ _ _ Hq) in E.
    injection E as <- <-.
    rewrite (limitOf_given args N HN H1).
    assert (Hlen : length (firstn N (sortBy compareScored (allServices filtered)))
                   = Nat.min N (length filtered)).
    { rewrite length_firstn, sortBy_length. unfold allServices.
      now rewrite length_map. }
    split; [exact Hlen|]. split; [now rewrite length_map|]. split.
    + apply List.Forall_forall. intros x Hx. apply In_firstn_In in Hx.
      apply -> (sortBy_In compareScored) in Hx.
      unfold allServices in Hx. apply in_map_iff in Hx.
      destruct Hx as (s & <- & _). now split.
    + intros Hnd. rewrite resultRow_ids. rewrite <- firstn_map.
      apply NoDup_firstn.
      apply Permutation_NoDup
        with (l := map (fun x => ODataService.id (service x)) (allServices filtered)).
      * apply Permutation_map, sortBy_Permutation.
      * rewrite allServices_ids. now apply filterByDomain_NoDup.
  - intros Hfound. destruct (Hnothing Hfound) as [Hall Hmethod].
    cbn [snd fst] in Hall, Hmethod. subst scored.
    assert (Hcount : length (allServices filtered) = length filtered)
      by (unfold allServices; apply length_map).
    split; [reflexivity|]. split; [exact Hmethod|].
    split; [rewrite sortBy_length; exact Hcount|].
    split; [rewrite length_map, length_firstn, sortBy_length; now rewrite Hcount|].
    split; [|split].
    + apply List.Forall_forall. intros x Hx. apply In_firstn_In in Hx.
      apply -> (sortBy_In compareScored) in Hx.
      now apply allServices_neutral with (services := filtered).
    + intros Hlimit s Hs. rewrite resultRow_ids. apply in_map_iff.
      exists {| service := s; score := 5 # 10; matchReason := "All services" |}.
      split; [reflexivity|].
      apply firstn_all_In; [rewrite sortBy_length; lia|].
      apply (sortBy_In compareScored). unfold allServices. apply in_map_iff.
      now exists s.
    + intros Hnd. rewrite resultRow_ids. rewrite <- firstn_map.
      apply NoDup_firstn.
      apply Permutation_NoDup
        with (l := map (fun x => ODataService.id (service x)) (allServices filtered)).
      * apply Permutation_map, sortBy_Permutation.
      * rewrite allServices_ids. now apply filterByDomain_NoDup.
Qed.

Lemma empty_query_returns_bounded_all_witness :
  (exists response,
     discoverServicesAndEntities sampleCatalog (Some failingEmbedding)
       (searchArgs (Some "  ") (Some "AR") (Some 1)) = Ok response /\
     map row_serviceId (results response) = ["ZFAR_CUSTOMER_LINE_ITEMS_0001"] /\
     length (limitedResults sampleCatalog (Some failingEmbedding)
               (searchArgs (Some "  ") (Some "AR") (Some 1))) = 1%nat /\
     List.NoDup (map row_serviceId (results response))) /\
  (exists response,
     discoverServicesAndEntities sampleCatalog (Some failingEmbedding)
       (searchArgs (Some "qqqq") (Some "AR") None) = Ok response /\
     searchMethod response = "fallback" /\
     totalFound response = 2%nat /\
     map row_serviceId (results response)
     = ["ZFAR_CUSTOMER_LINE_ITEMS_0001"; "ZFAR_BALANCES_V2_SRV_0001"]).
Proof.
  split.
  - destruct (empty_query_returns_bounded_all sampleCatalog (Some failingEmbedding)
                (searchArgs (Some "  ") (Some "AR") (Some 1)))
      as (response & Hr & Hrows & _ & Hall & _).
    destruct (Hall 1%nat) as (Hlen & _ & _ & Hnd);
      [reflexivity|reflexivity|lia|].
    exists response. split; [exact Hr|].
    split; [rewrite Hrows; vm_compute; reflexivity|].
    split; [exact Hlen|].
    apply Hnd. vm_compute.
    repeat (constructor; [simpl; intuition discriminate|]). constructor.
  - destruct (empty_query_returns_bounded_all sampleCatalog (Some failingEmbedding)
                (searchArgs (Some "qqqq") (Some "AR") None))
      as (response & Hr & Hrows & _ & _ & Hgeneral).
    destruct Hgeneral as (Hshown & Hmethod & Htotal & _).
    { right. split; vm_compute; reflexivity. }
    exists response. split; [exact Hr|].
    split; [|split].
    + destruct Hmethod as [Hm|Hm]; [|exact Hm].
      vm_compute in Hr. injection Hr as <-. discriminate Hm.
    + rewrite Htotal. vm_compute. reflexivity.
    + rewrite Hrows, Hshown. vm_compute. reflexivity.
Defined.

(** ** Lexical fallback *)

Lemma runningMax_bounds {T : Type} (f : T -> Q) (l : list T) (start : Q) :
  (start <= runningMax f l start)%Q /\
  (forall t, In t l -> (f t <= runningMax f l start)%Q) /\
  (runningMax f l start = start \/ exists t, In t l /\ runningMax f l start = f t).
Proof.
  unfold runningMax. revert start.
  induction l as [|x l IH]; intros start; simpl.
  - split; [apply Qle_refl|]. split; [tauto|now left].
  - destruct (Qgtb (f x) start) eqn:E.
    + apply Qgtb_true in E. destruct (IH (f x)) as (H1 & H2 & H3).
      split; [lra|]. split.
      * intros t [<-|Ht]; [exact H1|now apply H2].
      * right. destruct H3 as [H3|(t & Ht & H3)]; [exists x|exists t]; auto.
    + apply Qgtb_false in E. destruct (IH start) as (H1 & H2 & H3).
      split; [exact H1|]. split.
      * intros t [<-|Ht]; [lra|now apply H2].
      * destruct H3 as [H3|(t & Ht & H3)]; [now left|right; exists t; auto].
Qed.

Lemma fieldScore_nonneg queryLower queryWords target :
  (0 <= weight target)%Q -> (0 <= fieldScore queryLower queryWords target)%Q.
Proof.
  intros Hw. unfold fieldScore.
  repeat match goal with |- context [if ?b then _ else _] => destruct b end; lra.
Qed.

Lemma considerTarget_score queryLower queryWords best reason target :
  (0 <= best)%Q ->
  fst (considerTarget queryLower queryWords (best, reason) target)
  = if Qgtb (fieldScore queryLower queryWords target) best
    then fieldScore queryLower queryWords target else best.
Proof.
  intros Hb. apply Qgtb_false in Hb.
  unfold considerTarget, fieldScore.
  destruct (negb (JS.truthy (text target))); [now rewrite Hb|].
  destruct (JS.includes (text target) queryLower);
    [now destruct (Qgtb (weight target) best)|].
  destruct (1 <? length queryWords)%nat.
  - destruct (forallb _ queryWords); cbn [andb]; [|now rewrite Hb].
    destruct (Qgtb (weight target * (9 # 10)) best); reflexivity.
  - destruct (_ && _); [|now rewrite Hb].
    destruct (Qgtb (weight target * (85 # 100)) best); reflexivity.
Qed.

Lemma fold_considerTarget queryLower queryWords targets best reason :
  (0 <= best)%Q ->
  fst (fold_left (considerTarget queryLower queryWords) targets (best, reason))
  = runningMax (fieldScore queryLower queryWords) targets best.
Proof.
  unfold runningMax. revert best reason.
  induction targets as [|t targets IH]; intros best reason Hb; cbn [fold_left];
    [reflexivity|].
  pose proof (considerTarget_score queryLower queryWords best reason t Hb) as Hstep.
  destruct (considerTarget queryLower queryWords (best, reason) t) as [best' reason'].
  simpl in Hstep. rewrite <- Hstep. apply IH.
  rewrite Hstep.
  destruct (Qgtb (fieldScore queryLower queryWords t) best) eqn:E; [|exact Hb].
  apply Qgtb_true in E. lra.
Qed.

Lemma scoreService_score queryLower queryWords s :
  score (scoreService queryLower queryWords s)
  = runningMax (fieldScore queryLower queryWords) (searchTargets s) 0.
Proof.
  unfold scoreService.
  pose proof (fold_considerTarget queryLower queryWords (searchTargets s) 0
                EmptyString (Qle_refl 0)) as H.
  destruct (fold_left _ _ _) as [best reason]. exact H.
Qed.

Lemma searchTargets_weights s :
  map (fun t => (targetName t, weight t)) (searchTargets s)
  = [ ("ID", 9 # 10); ("Title", 85 # 100); ("Description", 6 # 10);
      ("Label", 95 # 100); ("UseFor", 9 # 10); ("TCode", 85 # 100);
      ("Entities", 8 # 10) ].
Proof. reflexivity. Qed.

Lemma searchTargets_positive s t : In t (searchTargets s) -> (0 < weight t)%Q.
Proof.
  unfold searchTargets. simpl.
  intros [<-|[<-|[<-|[<-|[<-|[<-|[<-|[]]]]]]]]; reflexivity.
Qed.

Lemma patternSearch_kept services queryLower x :
  In x (patternSearch services queryLower) <->
  exists s, In s services /\
            x = scoreService queryLower (queryWordsOf queryLower) s /\
            (0 < score x)%Q.
Proof.
  unfold patternSearch. rewrite filter_In, in_map_iff, Qgtb_true. split.
  - intros [(s & <- & Hs) Hpos]. exists s. auto.
  - intros (s & Hs & -> & Hpos). split; [exists s; auto|exact Hpos].
Qed.

(** C5, as the code has it.  A candidate's score is the maximum over its
    fields of the per-field score (full weight for a whole-query match, 0.9
    of it for an all-words match of a query of several words, 0.85 of it
    for a single-word match); candidates scoring zero are dropped.  The
    searched fields are exactly seven and their weights are Label 0.95 >
    ID 0.9 = UseFor 0.9 > Title 0.85 = TCode 0.85 > Entities 0.8 >
    Description 0.6. *)
Theorem lexical_score_is_weighted_maximum (queryLower : string) (s : ODataService.t) :
  let queryWords := queryWordsOf queryLower in
  let item := scoreService queryLower queryWords s in
  actualWeightOrder s /\
  (forall field w, In (field, w) statedWeights -> weightOf field s = w) /\
  (forall t, In t (searchTargets s) -> In (targetName t, weight t) statedWeights) /\
  length (searchTargets s) = length statedWeights /\
  (forall t, In t (searchTargets s) ->
             (fieldScore queryLower queryWords t <= score item)%Q) /\
  (score item = 0%Q \/
   exists t, In t (searchTargets s) /\ score item = fieldScore queryLower queryWords t) /\
  (forall services x,
     In x (patternSearch services queryLower) <->
     exists s', In s' services /\
                x = scoreService queryLower queryWords s' /\ (0 < score x)%Q).
Proof.
  intros queryWords item. subst item.
  rewrite scoreService_score.
  destruct (runningMax_bounds (fieldScore queryLower queryWords) (searchTargets s) 0)
    as (_ & Hub & Hatt).
  split; [repeat split|]. split; [|split; [|split]].
  - intros field w Hin. unfold statedWeights in Hin. cbn [In] in Hin.
    repeat (destruct Hin as [[= <- <-]|Hin]; [reflexivity|]). destruct Hin.
  - intros t Ht. unfold searchTargets in Ht. cbn [In] in Ht.
    unfold statedWeights. cbn [In].
    repeat (destruct Ht as [<-|Ht]; [cbn [targetName weight]; tauto|]). destruct Ht.
  - reflexivity.
  - split; [exact Hub|]. split; [exact Hatt|].
    intros services x. apply patternSearch_kept.
Qed.

Lemma lexical_score_is_weighted_maximum_witness :
  score (scoreService "letters" (queryWordsOf "letters") dunningHistory) = 9 # 10 /\
  weightOf "UseFor" dunningHistory = 9 # 10 /\
  forall t, In t (searchTargets dunningHistory) ->
            (fieldScore "letters" (queryWordsOf "letters") t
             <= score (scoreService "letters" (queryWordsOf "letters") dunningHistory))%Q.
Proof.
  split; [vm_compute; reflexivity|].
  destruct (lexical_score_is_weighted_maximum "letters" dunningHistory)
    as (_ & Hweights & _ & _ & Hmax & _).
  split; [apply Hweights; unfold statedWeights; cbn [In]; tauto|exact Hmax].
Defined.

(** The order of the weights that the specification lists does not hold: a
    match in the hinted use-for text (0.9) outranks a match in the title
    (0.85), and a match in the transaction code (0.85) outranks one in the
    description (0.6). *)
Lemma lexical_weight_order_counterexample :
  ~ claimedWeightOrder dunningHistory /\
  (scoreService "letters" (queryWordsOf "letters") titleOnly
   = {| service := titleOnly; score := 85 # 100; matchReason := "Title match" |}) /\
  (scoreService "letters" (queryWordsOf "letters") dunningHistory
   = {| service := dunningHistory; score := 9 # 10; matchReason := "UseFor match" |}) /\
  (scoreService "f150" (queryWordsOf "f150") descriptionOnly
   = {| service := descriptionOnly; score := 6 # 10;
        matchReason := "Description match" |}) /\
  (scoreService "f150" (queryWordsOf "f150") dunningProposal
   = {| service := dunningProposal; score := 85 # 100; matchReason := "TCode match" |}).
Proof.
  split.
  - intros (_ & _ & H & _). vm_compute in H. discriminate.
  - repeat split; vm_compute; reflexivity.
Qed.

(** ** Short query words *)

Lemma truthy_nonempty (s : string) : JS.truthy s = true <-> s <> EmptyString.
Proof. destruct s; simpl; split; congruence. Qed.








(** A two-word query with one short word is matched on its long word
    alone, as a single-word query. *)
Example short_word_dropped :
  scoreService "ar customer" (queryWordsOf "ar customer") lineItemsService
  = {| service := lineItemsService; score := (95 # 100) * (85 # 100);
       matchReason := "Label (partial)" |}.
Proof. vm_compute. reflexivity. Qed.

(** A query of short words scores by a whole-query match only. *)
Example short_words_whole_query :
  map (fun x => (ODataService.id (service x), score x, matchReason x))
      (patternSearch
         [ catalogEntry "ZLIST_SRV" "Open items" "list of ar items";
           catalogEntry "ZOTHER_SRV" "Arrears" "of interest to ar clerks" ]
         "of ar")
  = [ ("ZLIST_SRV", 6 # 10, "Description match") ].
Proof. vm_compute. reflexivity. Qed.

(** ** Key composition *)

Lemma hasProperty_own parameters key :
  inheritedMember key = None ->
  hasProperty parameters key
  = match parameters !! key with Some _ => true | None => false end.
Proof. intros H. unfold hasProperty. rewrite H. now destruct (parameters !! key). Qed.

Lemma propertyText_own parameters key v :
  parameters !! key = Some v -> propertyText parameters key = toStringJS v.
Proof. intros H. unfold propertyText. now rewrite H. Qed.

Lemma mapExc_keyPart parameters keys :
  Forall (fun key => inheritedMember key = None) keys ->
  mapExc (keyPart parameters) keys
  = match firstMissingKey keys parameters with
    | Some key => Throw ("Missing key: " +:+ key)
    | None => Ok (map (keyPair parameters) keys)
    end.
Proof.
  unfold firstMissingKey.
  induction keys as [|k keys IH]; cbn [mapExc find map]; intros Hown; [reflexivity|].
  inversion Hown as [|? ? Hk Hrest]; subst.
  unfold keyPart at 1. rewrite (hasProperty_own _ _ Hk).
  destruct (parameters !! k) as [v|] eqn:E; cbn [negb bindExc]; [|reflexivity].
  rewrite (IH Hrest). destruct (find _ keys); cbn [bindExc]; [reflexivity|].
  unfold keyPair. cbn [map]. rewrite (propertyText_own _ _ _ E). now rewrite E.
Qed.

(** Where no key property is named like a member of [Object.prototype],
    the key is composed as described: with exactly one key property it is
    the bare stringified value; otherwise it is the [name='value'] pairs
    joined by commas; and when a value is missing the error names the first
    missing key property in declaration order. *)
Lemma key_composition_on_own_properties
    (entityType : EntityType.t) (parameters : gmap string JSValue) :
  Forall (fun key => inheritedMember key = None) (EntityType.keys entityType) ->
  buildKeyValue entityType parameters = composedKey entityType parameters.
Proof.
  unfold buildKeyValue, composedKey. intros Hown.
  destruct (EntityType.keys entityType) as [|k [|k2 rest]] eqn:E.
  - reflexivity.
  - unfold firstMissingKey. cbn [find].
    inversion Hown as [|? ? Hk _]; subst.
    rewrite (hasProperty_own _ _ Hk). unfold propertyText.
    now destruct (parameters !! k).
  - rewrite (mapExc_keyPart _ _ Hown). cbn [bindExc].
    now destruct (firstMissingKey (k :: k2 :: rest) parameters).
Qed.

(** C9.  The test for a missing key is [key in parameters], which also
    sees the members every object inherits.  For an entity whose only key
    property is [constructor] and a call without parameters the code
    raises nothing and composes the key from the inherited member, where
    the composition as described raises [Missing key: constructor]; and
    for the key properties [constructor] and [CompanyCode] the error names
    [CompanyCode], which is not the first key property that is missing. *)
Theorem key_check_sees_inherited_members :
  buildKeyValue constructorEntity ∅ = Ok "function Object() { [native code] }" /\
  composedKey constructorEntity ∅ = Throw "Missing key: constructor" /\
  buildKeyValue constructorItemEntity ∅ = Throw "Missing key: CompanyCode" /\
  composedKey constructorItemEntity ∅ = Throw "Missing key: constructor".
Proof. repeat split; vm_compute; reflexivity. Qed.

Example key_single :
  buildKeyValue customerEntity (list_to_map [("CustomerId", JNumber 42)]) = Ok "42".
Proof. vm_compute. reflexivity. Qed.

Example key_single_text :
  buildKeyValue customerEntity (list_to_map [("CustomerId", JString "C 1")]) = Ok "C 1".
Proof. vm_compute. reflexivity. Qed.

Example key_composite :
  buildKeyValue itemEntity
    (list_to_map [("Line", JNumber 3); ("CompanyCode", JString "1000");
                  ("Document", JString "D7")])
  = Ok "CompanyCode='1000',Document='D7',Line='3'".
Proof. vm_compute. reflexivity. Qed.

Example key_missing_first :
  buildKeyValue itemEntity (list_to_map [("CompanyCode", JString "1000")])
  = Throw "Missing key: Document".
Proof. vm_compute. reflexivity. Qed.

Example key_single_missing :
  buildKeyValue customerEntity ∅ = Throw "Missing key: CustomerId".
Proof. vm_compute. reflexivity. Qed.

(** ** Capability guards *)

Lemma ensureMetadata_quiet schemaProvider serviceId service :
  quiet (ensureMetadata schemaProvider serviceId service).
Proof.
  intros w. unfold ensureMetadata.
  destruct (ODataService.metadata service); [reflexivity|].
  destruct (metadataCache w !! serviceId); [reflexivity|].
  unfold bindAction, fetchServiceMetadata, modify, ret.
  destruct (schemaProvider _ service); reflexivity.
Qed.

Lemma capabilityOf_cases operation entityType flag word :
  capabilityOf operation entityType = Some (flag, word) ->
  (operation = "create" /\ flag = EntityType.creatable entityType /\ word = "creatable") \/
  (operation = "update" /\ flag = EntityType.updatable entityType /\ word = "updatable") \/
  (operation = "delete" /\ flag = EntityType.deletable entityType /\ word = "deletable").
Proof.
  unfold capabilityOf.
  destruct (String.eqb_spec operation "create") as [->|_];
    [intros [= <- <-]; now left|].
  destruct (String.eqb_spec operation "update") as [->|_];
    [intros [= <- <-]; right; now left|].
  destruct (String.eqb_spec operation "delete") as [->|_];
    [intros [= <- <-]; right; now right|discriminate].
Qed.

Lemma ensureMetadata_schemaLoaded schemaProvider serviceId service w m w1 :
  ensureMetadata schemaProvider serviceId service w = (Ok m, w1) ->
  schemaLoaded schemaProvider serviceId service m w w1.
Proof.
  unfold ensureMetadata, schemaLoaded.
  destruct (ODataService.metadata service) as [m0|] eqn:Em.
  { unfold ret. intros [= <- <-]. repeat split. now left. }
  destruct (metadataCache w !! serviceId) as [mc|] eqn:Ec.
  { intros [= <- <-]. repeat split. right. split; [reflexivity|].
    split; [reflexivity|]. left. now repeat split. }
  unfold bindAction, fetchServiceMetadata, modify, ret.
  destruct (schemaProvider (length (fetches w)) service) as [mf|e] eqn:Ef;
    [|discriminate].
  intros [= <- <-]. repeat split. right. split; [reflexivity|].
  split; [reflexivity|]. right. now repeat split.
Qed.

(** C6, as the code has it.  When the entity's capability flag for the
    requested mutation (create, update or delete) is false, the call fails
    with the error that names the capability and the SAP client is not
    called at all, so no write reaches upstream; the guard is passed before
    the key is built.  The schema that supplies the flags is loaded before
    the guard: the state reached is the one in which the schema is
    available, with the client token refreshed.  That state is the state
    before the call when the service already carried its metadata;
    otherwise the schema was put on the catalog entry from the cache or
    after one upstream fetch, which is logged and cached. *)
Theorem capability_guard_blocks_writes
    (schemaProvider : nat -> ODataService.t -> Exc ServiceMetadata.t)
    (sapClient : nat -> SapCall -> Exc string)
    (args : ExecuteArgs) (w w1 : World)
    (service : ODataService.t) (m : ServiceMetadata.t)
    (entityType : EntityType.t) (word : string) :
  findService (catalogServices w) (xarg_serviceId args) = Some service ->
  ensureMetadata schemaProvider (xarg_serviceId args) service w = (Ok m, w1) ->
  findEntity m (xarg_entityName args) = Some entityType ->
  capabilityOf (JS.toLowerCase (xarg_operation args)) entityType = Some (false, word) ->
  executeOperation schemaProvider sapClient args w
  = (IsError (errorResponse args
                ("Entity '" +:+ xarg_entityName args +:+ "' is not " +:+ word)),
     refreshClientToken w1) /\
  sapCalls (refreshClientToken w1) = sapCalls w /\
  (ODataService.metadata service <> None -> w1 = w) /\
  schemaLoaded schemaProvider (xarg_serviceId args) service m w w1.
Proof.
  intros Hfind Hmeta Hentity Hcap.
  pose proof (ensureMetadata_quiet schemaProvider (xarg_serviceId args) service w) as Hq.
  rewrite Hmeta in Hq. simpl in Hq.
  assert (Hloaded : ODataService.metadata service <> None -> w1 = w).
  { intros Hne. unfold ensureMetadata in Hmeta.
    destruct (ODataService.metadata service); [|congruence].
    unfold ret in Hmeta. congruence. }
  assert (Hcalls : sapCalls (refreshClientToken w1) = sapCalls w).
  { unfold refreshClientToken. now destruct (truthyText (userToken w1)). }
  split; [|split; [exact Hcalls|split; [exact Hloaded|]]].
  2: now apply ensureMetadata_schemaLoaded.
  unfold executeOperation, executeBody.
  apply capabilityOf_cases in Hcap.
  destruct Hcap as [(Hop & Hflag & ->)|[(Hop & Hflag & ->)|(Hop & Hflag & ->)]];
    rewrite Hop; cbn [existsb validOps String.eqb Ascii.eqb Bool.eqb orb negb];
    rewrite Hfind; unfold bindAction at 1; rewrite Hmeta, Hentity;
    unfold bindAction, modify, dispatch;
    cbn [String.eqb Ascii.eqb Bool.eqb]; rewrite <- Hflag; cbn [negb];
    reflexivity.
Qed.

Lemma capability_guard_blocks_writes_witness :
  fst (executeOperation schemaUp sapUp createCustomer freshWorld)
  = IsError (errorResponse createCustomer "Entity 'Customer' is not creatable") /\
  sapCalls (snd (executeOperation schemaUp sapUp createCustomer freshWorld)) = [].
Proof.
  destruct (capability_guard_blocks_writes schemaUp sapUp createCustomer freshWorld
              (snd (ensureMetadata schemaUp "ZFAR_CUSTOMER_LINE_ITEMS_0001"
                      lineItemsService freshWorld))
              lineItemsService lineItemsMetadata customerEntity "creatable")
    as (Hrun & Hcalls & _); try reflexivity.
  rewrite Hrun. split; [reflexivity|exact Hcalls].
Defined.

(** On a registry that has not yet loaded the schema the guard does not
    leave the state unchanged, and it is not passed before any upstream
    call: the refused create has fetched the schema, which is logged,
    cached and put on the catalog entry. *)
Lemma capability_guard_follows_schema_fetch :
  fst (executeOperation schemaUp sapUp createCustomer freshWorld)
  = IsError (errorResponse createCustomer "Entity 'Customer' is not creatable") /\
  snd (executeOperation schemaUp sapUp createCustomer freshWorld) <> freshWorld /\
  fetches freshWorld = [] /\
  fetches (snd (executeOperation schemaUp sapUp createCustomer freshWorld))
  = [ {| fetch_serviceId := "ZFAR_CUSTOMER_LINE_ITEMS_0001";
         fetch_succeeded := true |} ] /\
  metadataCache freshWorld !! "ZFAR_CUSTOMER_LINE_ITEMS_0001" = None /\
  metadataCache (snd (executeOperation schemaUp sapUp createCustomer freshWorld))
    !! "ZFAR_CUSTOMER_LINE_ITEMS_0001" = Some lineItemsMetadata.
Proof.
  split; [vm_compute; reflexivity|]. split.
  - intros H. apply (f_equal (fun w => length (fetches w))) in H.
    vm_compute in H. discriminate.
  - repeat split; vm_compute; reflexivity.
Qed.

Example guarded_update_and_delete :
  fst (executeOperation schemaUp sapUp
         (actArgs "ZFAR_CUSTOMER_LINE_ITEMS_0001" "Customer" "update"
                  [("CustomerId", JString "C1")]) freshWorld)
  = IsError ("[LEVEL 3 - ERROR] Entity 'Customer' is not updatable" +:+ newline +:+ newline) /\
  fst (executeOperation schemaUp sapUp
         (actArgs "ZFAR_CUSTOMER_LINE_ITEMS_0001" "Customer" "delete" []) freshWorld)
  = IsError ("[LEVEL 3 - ERROR] Entity 'Customer' is not deletable" +:+ newline +:+ newline).
Proof. split; vm_compute; reflexivity. Qed.

(** A permitted update: the key is composed, the key fields are stripped
    from the payload, and one call reaches the SAP client. *)
Example permitted_update :
  sapCalls (snd (executeOperation schemaUp sapUp
                   (actArgs "ZFAR_CUSTOMER_LINE_ITEMS_0001" "Item" "update"
                            [("CompanyCode", JString "1000"); ("Document", JString "D7");
                             ("Line", JNumber 3); ("Amount", JNumber 10)])
                   freshWorld))
  = [ UpdateEntity "/sap/opu/odata/sap/ZFAR_CUSTOMER_LINE_ITEMS_0001/" (Some "Items")
        "CompanyCode='1000',Document='D7',Line='3'"
        (list_to_map [("Amount", JNumber 10)]) ].
Proof. vm_compute. reflexivity. Qed.

Example read_single_missing_key :
  executeOperation schemaUp sapUp
    (actArgs "ZFAR_CUSTOMER_LINE_ITEMS_0001" "Item" "read-single"
             [("Line", JNumber 3)]) freshWorld
  = (IsError ("[LEVEL 3 - ERROR] Missing key: CompanyCode" +:+ newline +:+ newline),
     snd (ensureMetadata schemaUp "ZFAR_CUSTOMER_LINE_ITEMS_0001" lineItemsService
            freshWorld)).
Proof. vm_compute. reflexivity. Qed.

(** ** Schema fetches *)

Lemma steady_ret {A : Type} (a : A) : steady (ret a).
Proof. intros w. now split. Qed.

Lemma steady_throw {A : Type} (e : string) : steady (@throw A e).
Proof. intros w. now split. Qed.

Lemma steady_liftExc {A : Type} (c : Exc A) : steady (liftExc c).
Proof. intros w. now split. Qed.

Lemma steady_callSap sapClient c : steady (callSap sapClient c).
Proof. intros w. now split. Qed.

Lemma steady_bind {A B : Type} (c : Action A) (k : A -> Action B) :
  steady c -> (forall a, steady (k a)) -> steady (bindAction c k).
Proof.
  intros Hc Hk w. unfold bindAction.
  specialize (Hc w). destruct (c w) as [[a|e] w1]; simpl in *; [|exact Hc].
  specialize (Hk a w1). destruct Hc as [Hf Hm], Hk as [Hf' Hm'].
  split; congruence.
Qed.

Lemma steady_token : steady (modify refreshClientToken).
Proof.
  intros w. unfold modify, refreshClientToken. simpl. now destruct (truthyText _).
Qed.

Lemma dispatch_steady sapClient operation service entityType entityName
    parameters queryOptions :
  steady (dispatch sapClient operation service entityType entityName
                   parameters queryOptions).
Proof.
  unfold dispatch.
  repeat match goal with
         | |- steady (if ?b then _ else _) => destruct b
         | |- steady (bindAction _ _) => apply steady_bind; [|intros ?]
         | |- steady (ret _) => apply steady_ret
         | |- steady (throw _) => apply steady_throw
         | |- steady (liftExc _) => apply steady_liftExc
         | |- steady (callSap _ _) => apply steady_callSap
         end.
Qed.

Lemma findService_id services serviceId service :
  findService services serviceId = Some service -> ODataService.id service = serviceId.
Proof.
  unfold findService. intros H. apply find_some in H.
  now apply String.eqb_eq.
Qed.

Lemma ensureMetadata_step schemaProvider serviceId service w :
  findService (catalogServices w) serviceId = Some service ->
  fetchStep serviceId w (snd (ensureMetadata schemaProvider serviceId service w)).
Proof.
  intros Hfind. pose proof (findService_id _ _ _ Hfind) as Hid.
  unfold ensureMetadata.
  destruct (ODataService.metadata service) eqn:Em; [left; now split|].
  destruct (metadataCache w !! serviceId) eqn:Ec; [left; now split|].
  right. unfold bindAction, fetchServiceMetadata, modify, ret. rewrite Hid.
  destruct (schemaProvider _ service) as [m|e]; simpl.
  - exists service, true. repeat split; trivial. now exists m.
  - exists service, false. repeat split; trivial.
Qed.

Lemma fetchStep_steady {A : Type} serviceId w w1 (c : Action A) :
  fetchStep serviceId w w1 -> steady c -> fetchStep serviceId w (snd (c w1)).
Proof.
  intros Hstep Hc. destruct (Hc w1) as [Hf Hm]. unfold fetchStep.
  rewrite Hf, Hm. exact Hstep.
Qed.

Lemma fetchStep_refl serviceId w : fetchStep serviceId w w.
Proof. left. now split. Qed.

Lemma getEntityMetadata_step schemaProvider args w :
  fetchStep (marg_serviceId args) w (snd (getEntityMetadata schemaProvider args w)).
Proof.
  unfold getEntityMetadata.
  destruct (_ || _); [apply fetchStep_refl|].
  destruct (findService (catalogServices w) (marg_serviceId args)) as [service|] eqn:Ef;
    [|apply fetchStep_refl].
  pose proof (ensureMetadata_step schemaProvider _ _ _ Ef) as Hstep.
  destruct (ensureMetadata schemaProvider (marg_serviceId args) service w)
    as [[m|e] w1]; simpl in *; [|exact Hstep].
  now destruct (findEntity m (marg_entityName args)).
Qed.

Lemma executeOperation_step schemaProvider sapClient args w :
  fetchStep (xarg_serviceId args) w
            (snd (executeOperation schemaProvider sapClient args w)).
Proof.
  assert (Hbody : fetchStep (xarg_serviceId args) w
                            (snd (executeBody schemaProvider sapClient args w))).
  { unfold executeBody.
    destruct (negb _); [apply fetchStep_refl|].
    destruct (findService (catalogServices w) (xarg_serviceId args)) as [service|] eqn:Ef;
      [|apply fetchStep_refl].
    pose proof (ensureMetadata_step schemaProvider _ _ _ Ef) as Hstep.
    unfold bindAction at 1.
    destruct (ensureMetadata schemaProvider (xarg_serviceId args) service w)
      as [[m|e] w1]; simpl in Hstep; [|exact Hstep].
    destruct (findEntity m (xarg_entityName args)); [|exact Hstep].
    apply fetchStep_steady; [exact Hstep|].
    apply steady_bind; [apply steady_token|intros _; apply dispatch_steady]. }
  unfold executeOperation.
  now destruct (executeBody schemaProvider sapClient args w) as [[done|e] w1].
Qed.

Lemma runCall_step schemaProvider sapClient c w :
  fetchStep (callServiceId c) w (runCall schemaProvider sapClient c w).
Proof.
  destruct c as [args|args]; simpl.
  - apply getEntityMetadata_step.
  - apply executeOperation_step.
Qed.

Lemma filter_snoc_length {A : Type} (p : A -> bool) (l : list A) (x : A) :
  length (List.filter p (l ++ [x]))
  = (length (List.filter p l) + if p x then 1 else 0)%nat.
Proof.
  rewrite List.filter_app, List.length_app. simpl. now destruct (p x).
Qed.

Lemma fetchStep_fetchedOnce serviceId w w' :
  fetchStep serviceId w w' -> fetchedOnce w -> fetchedOnce w'.
Proof.
  unfold fetchedOnce, successfulFetches.
  intros [[Hf Hm]|(service & ok & _ & _ & Hnone & Hf & Hm)] [Hcached Hcount].
  - rewrite Hf, Hm. now split.
  - rewrite Hf. destruct ok.
    + destruct Hm as [m Hm]. rewrite Hm. split; intros sid.
      * rewrite filter_snoc_length. simpl.
        destruct (String.eqb_spec serviceId sid) as [<-|Hne]; simpl.
        -- intros _. rewrite lookup_insert_eq. eauto.
        -- rewrite Nat.add_0_r, lookup_insert_ne by exact Hne. apply Hcached.
      * rewrite filter_snoc_length. simpl.
        destruct (String.eqb_spec serviceId sid) as [<-|Hne]; simpl.
        -- destruct (length (List.filter _ (fetches w))) as [|n] eqn:En; [lia|].
           exfalso. specialize (Hcached serviceId). rewrite En, Hnone in Hcached.
           destruct Hcached as [x Hx]; [lia|discriminate].
        -- rewrite Nat.add_0_r. apply Hcount.
    + rewrite Hm. split; intros sid; rewrite filter_snoc_length; simpl;
        rewrite andb_false_r, Nat.add_0_r; [apply Hcached|apply Hcount].
Qed.

Lemma runCalls_fetchedOnce schemaProvider sapClient calls w :
  fetchedOnce w -> fetchedOnce (runCalls schemaProvider sapClient calls w).
Proof.
  unfold runCalls. revert w.
  induction calls as [|c calls IH]; intros w Hw; simpl; [exact Hw|].
  apply IH. eapply fetchStep_fetchedOnce; [apply runCall_step|exact Hw].
Qed.

Lemma runCall_at_hand schemaProvider sapClient c w :
  metadataAtHand w (callServiceId c) ->
  fetches (runCall schemaProvider sapClient c w) = fetches w.
Proof.
  intros Hhand.
  destruct (runCall_step schemaProvider sapClient c w)
    as [[Hf _]|(service & ok & Hfind & Hmeta & Hnone & _)]; [exact Hf|].
  exfalso. destruct Hhand as [[m Hc]|(service' & m & Hfind' & Hm)].
  - congruence.
  - congruence.
Qed.

Lemma not_at_hand w serviceId service :
  findService (catalogServices w) serviceId = Some service ->
  ~ metadataAtHand w serviceId ->
  ODataService.metadata service = None /\ metadataCache w !! serviceId = None.
Proof.
  intros Hfind Hnot. split.
  - destruct (ODataService.metadata service) as [m|] eqn:Em; [|reflexivity].
    exfalso. apply Hnot. right. now exists service, m.
  - destruct (metadataCache w !! serviceId) as [m|] eqn:Ec; [|reflexivity].
    exfalso. apply Hnot. left. now exists m.
Qed.

Lemma ensureMetadata_fetch_missing schemaProvider serviceId service w :
  ODataService.metadata service = None ->
  metadataCache w !! serviceId = None ->
  exists ok,
    fetches (snd (ensureMetadata schemaProvider serviceId service w))
    = fetches w ++ [ {| fetch_serviceId := ODataService.id service;
                        fetch_succeeded := ok |} ].
Proof.
  intros Hm Hc. unfold ensureMetadata. rewrite Hm, Hc.
  unfold bindAction, fetchServiceMetadata, modify, ret.
  destruct (schemaProvider (length (fetches w)) service) as [m|e];
    [now exists true|now exists false].
Qed.

(** A call that reaches the schema of a service whose metadata is not at
    hand invokes the fetch. *)
Lemma runCall_fetches schemaProvider sapClient c w service :
  reachesSchema c = true ->
  findService (catalogServices w) (callServiceId c) = Some service ->
  ~ metadataAtHand w (callServiceId c) ->
  exists ok,
    fetches (runCall schemaProvider sapClient c w)
    = fetches w ++ [ {| fetch_serviceId := callServiceId c; fetch_succeeded := ok |} ].
Proof.
  intros Hreach Hfind Hnot.
  destruct (not_at_hand _ _ _ Hfind Hnot) as [Hm Hc].
  pose proof (findService_id _ _ _ Hfind) as Hid.
  destruct (ensureMetadata_fetch_missing schemaProvider (callServiceId c) service w
              Hm Hc) as [ok Hfetch].
  rewrite Hid in Hfetch. exists ok. rewrite <- Hfetch. clear Hfetch.
  destruct c as [args|args]; cbn [runCall callServiceId reachesSchema] in *.
  - apply andb_prop in Hreach. destruct Hreach as [Hs He].
    unfold getEntityMetadata. rewrite Hs, He. cbn [negb orb]. rewrite Hfind.
    destruct (ensureMetadata schemaProvider (marg_serviceId args) service w)
      as [[m|e] w1]; [|reflexivity].
    now destruct (findEntity m (marg_entityName args)).
  - assert (Hworld : snd (executeOperation schemaProvider sapClient args w)
                     = snd (executeBody schemaProvider sapClient args w)).
    { unfold executeOperation.
      now destruct (executeBody schemaProvider sapClient args w) as [[done|e] w1]. }
    rewrite Hworld. unfold executeBody. unfold validOps. rewrite Hreach.
    cbn [negb]. rewrite Hfind. unfold bindAction at 1.
    destruct (ensureMetadata schemaProvider (xarg_serviceId args) service w)
      as [[m|e] w1]; [|reflexivity].
    destruct (findEntity m (xarg_entityName args)) as [entityType|]; [|reflexivity].
    cbn [snd].
    assert (Hsteady :
      steady (bindAction (modify refreshClientToken)
                (fun _ => dispatch sapClient (JS.toLowerCase (xarg_operation args))
                            service entityType (xarg_entityName args)
                            (default ∅ (xarg_parameters args)) (queryOptionsOf args)))).
    { apply steady_bind; [apply steady_token|intros _; apply dispatch_steady]. }
    now destruct (Hsteady w1) as [Hf _].
Qed.

(** When that fetch fails, the call does nothing else. *)
Lemma runCall_failed_fetch schemaProvider sapClient c w service err :
  reachesSchema c = true ->
  findService (catalogServices w) (callServiceId c) = Some service ->
  ~ metadataAtHand w (callServiceId c) ->
  schemaProvider (length (fetches w)) service = Throw err ->
  runCall schemaProvider sapClient c w = logFetch w (failedFetch (callServiceId c)).
Proof.
  intros Hreach Hfind Hnot Hdown.
  destruct (not_at_hand _ _ _ Hfind Hnot) as [Hm Hc].
  pose proof (findService_id _ _ _ Hfind) as Hid.
  destruct c as [args|args]; cbn [runCall callServiceId reachesSchema] in *.
  - apply andb_prop in Hreach. destruct Hreach as [Hs He].
    unfold getEntityMetadata. rewrite Hs, He. cbn [negb orb]. rewrite Hfind.
    unfold ensureMetadata. rewrite Hm, Hc.
    unfold bindAction, fetchServiceMetadata. rewrite Hdown, Hid. reflexivity.
  - unfold executeOperation, executeBody. unfold validOps. rewrite Hreach.
    cbn [negb]. rewrite Hfind.
    unfold bindAction at 1. unfold ensureMetadata. rewrite Hm, Hc.
    unfold bindAction at 1, fetchServiceMetadata. rewrite Hdown, Hid. reflexivity.
Qed.

(** C7, as the code has it.  In any sequence of inspect and act calls the
    schema of a service is fetched with success at most once, and a call on
    a service whose metadata is at hand (on the catalog entry or in the
    cache) issues no fetch.  A failed fetch caches nothing: the call that
    met it logs the failed fetch and changes nothing else, the metadata is
    still not at hand, and the next call that reaches the schema of that
    service invokes the fetch again. *)
Theorem schema_fetched_once_on_success
    (schemaProvider : nat -> ODataService.t -> Exc ServiceMetadata.t)
    (sapClient : nat -> SapCall -> Exc string)
    (calls : list ToolCall) (w : World) :
  fetchedOnce w ->
  (forall serviceId,
     (successfulFetches serviceId (runCalls schemaProvider sapClient calls w) <= 1)%nat) /\
  (forall c,
     let w' := runCalls schemaProvider sapClient calls w in
     metadataAtHand w' (callServiceId c) ->
     fetches (runCall schemaProvider sapClient c w') = fetches w') /\
  (forall c service err,
     let w' := runCalls schemaProvider sapClient calls w in
     let w'' := runCall schemaProvider sapClient c w' in
     reachesSchema c = true ->
     findService (catalogServices w') (callServiceId c) = Some service ->
     ~ metadataAtHand w' (callServiceId c) ->
     schemaProvider (length (fetches w')) service = Throw err ->
     w'' = logFetch w' (failedFetch (callServiceId c)) /\
     metadataCache w'' = metadataCache w' /\
     ~ metadataAtHand w'' (callServiceId c) /\
     (forall next,
        reachesSchema next = true ->
        callServiceId next = callServiceId c ->
        exists ok,
          fetches (runCall schemaProvider sapClient next w'')
          = fetches w' ++ [ failedFetch (callServiceId c);
                            {| fetch_serviceId := callServiceId c;
                               fetch_succeeded := ok |} ])).
Proof.
  intros Hw. split; [|split].
  - apply (runCalls_fetchedOnce schemaProvider sapClient calls w Hw).
  - intros c w'. apply runCall_at_hand.
  - intros c service err w' w'' Hreach Hfind Hnot Hdown. subst w''.
    rewrite (runCall_failed_fetch _ _ _ _ _ _ Hreach Hfind Hnot Hdown).
    assert (Hstill : ~ metadataAtHand (logFetch w' (failedFetch (callServiceId c)))
                       (callServiceId c)).
    { intros [Hc|(s & m & Hs & Hm)]; apply Hnot; [now left|right; now exists s, m]. }
    split; [reflexivity|]. split; [reflexivity|]. split; [exact Hstill|].
    intros next Hnext Hsame.
    destruct (runCall_fetches schemaProvider sapClient next
                (logFetch w' (failedFetch (callServiceId c))) service) as [ok Hok].
    + exact Hnext.
    + rewrite Hsame. exact Hfind.
    + rewrite Hsame. exact Hstill.
    + exists ok. rewrite Hok, Hsame. cbn [logFetch fetches].
      now rewrite <- List.app_assoc.
Qed.

Lemma freshWorld_fetchedOnce : fetchedOnce freshWorld.
Proof.
  unfold fetchedOnce, successfulFetches. simpl. split; intros sid; lia.
Qed.

Lemma schema_fetched_once_on_success_witness :
  successfulFetches "ZFAR_CUSTOMER_LINE_ITEMS_0001"
    (runCalls schemaUp sapUp
       [Inspect inspectCustomer; Act createCustomer; Inspect inspectCustomer]
       freshWorld) = 1%nat /\
  (forall serviceId,
     (successfulFetches serviceId
        (runCalls schemaUp sapUp
           [Inspect inspectCustomer; Act createCustomer; Inspect inspectCustomer]
           freshWorld) <= 1)%nat) /\
  runCall schemaDown sapUp (Inspect inspectCustomer) freshWorld
  = logFetch freshWorld (failedFetch "ZFAR_CUSTOMER_LINE_ITEMS_0001").
Proof.
  split; [vm_compute; reflexivity|]. split.
  - apply (schema_fetched_once_on_success schemaUp sapUp
             [Inspect inspectCustomer; Act createCustomer; Inspect inspectCustomer]
             freshWorld freshWorld_fetchedOnce).
  - refine (proj1 (proj2 (proj2 (schema_fetched_once_on_success schemaDown sapUp []
                                   freshWorld freshWorld_fetchedOnce))
                     (Inspect inspectCustomer) lineItemsService
                     "connect ECONNREFUSED" _ _ _ _)).
    + reflexivity.
    + reflexivity.
    + intros [[m Hm]|(s & m & Hs & Hm)].
      * vm_compute in Hm. discriminate.
      * vm_compute in Hs. injection Hs as <-. discriminate Hm.
    + reflexivity.
Defined.

(** With the schema provider down, two calls on the same service fetch
    twice: the fetch is not invoked at most once per service id. *)
Lemma fetch_retried_after_failure :
  fetchesOf "ZFAR_CUSTOMER_LINE_ITEMS_0001"
    (runCalls schemaDown sapUp [Inspect inspectCustomer; Inspect inspectCustomer]
       freshWorld) = 2%nat /\
  fst (getEntityMetadata schemaDown inspectCustomer freshWorld)
  = IsError ("ERROR: Failed to load metadata for ZFAR_CUSTOMER_LINE_ITEMS_0001: "
             +:+ "Error: connect ECONNREFUSED").
Proof. split; vm_compute; reflexivity. Qed.

(** ** The embedding snapshot *)

Lemma loadCache_accepts cache currentServices embeddings :
  fst (loadCache (Some (Ok cache)) currentServices embeddings) = true <->
  cache_version cache = CACHE_VERSION /\
  cache_model cache = MODEL_NAME /\
  (forall services,
     currentServices = Some services ->
     (Z.abs (cache_entityCount cache - expectedCountOf services)
      <= toleranceOf (expectedCountOf services))%Z).
Proof.
  unfold loadCache.
  destruct (String.eqb_spec (cache_version cache) CACHE_VERSION) as [Hv|Hv]; cbn [negb].
  2: { split; [discriminate|]. intros [H _]. contradiction. }
  destruct (String.eqb_spec (cache_model cache) MODEL_NAME) as [Hm|Hm]; cbn [negb].
  2: { split; [discriminate|]. intros (_ & H & _). contradiction. }
  destruct currentServices as [services|].
  - destruct (Z.ltb_spec (toleranceOf (expectedCountOf services))
                (Z.abs (cache_entityCount cache - expectedCountOf services)))
      as [Hlt|Hle]; simpl.
    + split; [discriminate|]. intros (_ & _ & H). specialize (H services eq_refl). lia.
    + split; [|reflexivity]. intros _. repeat split; trivial.
      intros s [= <-]. exact Hle.
  - simpl. split; [|reflexivity]. intros _. repeat split; trivial. discriminate.
Qed.

Lemma loadCache_result cache currentServices embeddings :
  snd (loadCache (Some (Ok cache)) currentServices embeddings)
  = if fst (loadCache (Some (Ok cache)) currentServices embeddings)
    then cache_embeddings cache else embeddings.
Proof.
  unfold loadCache.
  destruct (negb (String.eqb (cache_version cache) CACHE_VERSION)); [reflexivity|].
  destruct (negb (String.eqb (cache_model cache) MODEL_NAME)); [reflexivity|].
  now destruct (match currentServices with Some _ => _ | None => _ end).
Qed.

(** C8, as the code has it.  A snapshot whose version or model differs is
    refused and indexing then embeds everything again.  Otherwise the
    snapshot is accepted exactly when its stored entity count differs from
    the number of business entities of the current services by at most
    [max 10 (count / 20)]; in particular a difference of at most 5% is
    accepted.  No signature of the service ids takes part. *)
Theorem snapshot_validation
    (cache : EmbeddingCache) (currentServices : option (list ODataService.t))
    (embeddings : gmap string EmbeddingEntry) :
  (fst (loadCache (Some (Ok cache)) currentServices embeddings) = true <->
   cache_version cache = CACHE_VERSION /\
   cache_model cache = MODEL_NAME /\
   (forall services,
      currentServices = Some services ->
      (Z.abs (cache_entityCount cache - expectedCountOf services)
       <= Z.max 10 (expectedCountOf services / 20))%Z)) /\
  (snd (loadCache (Some (Ok cache)) currentServices embeddings)
   = if fst (loadCache (Some (Ok cache)) currentServices embeddings)
     then cache_embeddings cache else embeddings) /\
  (forall reindex services,
     cache_version cache <> CACHE_VERSION \/ cache_model cache <> MODEL_NAME ->
     indexEntities reindex (Some (Ok cache)) services false embeddings
     = reindex services embeddings) /\
  (forall services,
     cache_version cache = CACHE_VERSION ->
     cache_model cache = MODEL_NAME ->
     (20 * Z.abs (cache_entityCount cache - expectedCountOf services)
      <= expectedCountOf services)%Z ->
     loadCache (Some (Ok cache)) (Some services) embeddings
     = (true, cache_embeddings cache)).
Proof.
  split; [apply loadCache_accepts|]. split; [apply loadCache_result|]. split.
  - intros reindex services Hmiss. unfold indexEntities.
    pose proof (loadCache_accepts cache (Some services) embeddings) as Hacc.
    pose proof (loadCache_result cache (Some services) embeddings) as Hres.
    destruct (loadCache (Some (Ok cache)) (Some services) embeddings) as [[|] loaded];
      simpl in *.
    + exfalso. destruct Hacc as [Hacc _]. destruct (Hacc eq_refl) as (Hv & Hm & _).
      destruct Hmiss; contradiction.
    + now rewrite Hres.
  - intros services Hv Hm Hdrift.
    pose proof (loadCache_accepts cache (Some services) embeddings) as Hacc.
    pose proof (loadCache_result cache (Some services) embeddings) as Hres.
    destruct (loadCache (Some (Ok cache)) (Some services) embeddings) as [ok loaded].
    simpl in *.
    assert (Hok : ok = true).
    { apply Hacc. repeat split; trivial. intros s [= <-]. unfold toleranceOf.
      assert ((Z.abs (cache_entityCount cache - expectedCountOf services)
               <= expectedCountOf services / 20)%Z)
        by (apply Z.div_le_lower_bound; lia).
      lia. }
    subst ok. now rewrite Hres.
Qed.

Lemma snapshot_validation_witness :
  loadCache (Some (Ok (snapshotOf "1.0" "Xenova/all-MiniLM-L6-v2" 19)))
            (Some twentyCorpus) ∅
  = (true, ∅) /\
  (forall reindex,
     indexEntities reindex
       (Some (Ok (snapshotOf "0.9" "Xenova/all-MiniLM-L6-v2" 20))) twentyCorpus false ∅
     = reindex twentyCorpus ∅).
Proof.
  destruct (snapshot_validation (snapshotOf "1.0" "Xenova/all-MiniLM-L6-v2" 19)
              (Some twentyCorpus) ∅) as (_ & _ & _ & Hdrift).
  destruct (snapshot_validation (snapshotOf "0.9" "Xenova/all-MiniLM-L6-v2" 20)
              (Some twentyCorpus) ∅) as (_ & _ & Hmiss & _).
  split.
  - apply Hdrift; [reflexivity|reflexivity|vm_compute; discriminate].
  - intros reindex. apply Hmiss. left. discriminate.
Defined.

(** Acceptance is not a function of the corpus signature: two corpora with
    the same [computeServicesHash] get opposite answers for one snapshot;
    and a stored count that is off by half is accepted when the difference
    is within ten entities. *)
Lemma snapshot_acceptance_ignores_signature :
  computeServicesHash valueHelpCorpus = computeServicesHash businessCorpus /\
  computeServicesHash businessCorpus = "ZFAR_BALANCES_V2_SRV_0001|11" /\
  fst (loadCache (Some (Ok (snapshotOf CACHE_VERSION MODEL_NAME 0)))
                 (Some valueHelpCorpus) ∅) = true /\
  fst (loadCache (Some (Ok (snapshotOf CACHE_VERSION MODEL_NAME 0)))
                 (Some businessCorpus) ∅) = false /\
  expectedCountOf twentyCorpus = 20%Z /\
  fst (loadCache (Some (Ok (snapshotOf CACHE_VERSION MODEL_NAME 10)))
                 (Some twentyCorpus) ∅) = true.
Proof. repeat split; vm_compute; reflexivity. Qed.

(** * Further properties *)

(** ** Classification: shape, order, letter case *)

Lemma classifyAgainst_admits config serviceId title :
  classifyAgainst config serviceId title = None <->
  domainAdmits config serviceId title = false.
Proof.
  unfold classifyAgainst, domainAdmits.
  destruct (matchesAny _ (excludePatterns config)); simpl; [tauto|].
  destruct (_ || _); simpl; [|tauto].
  destruct (existsb _ _); split; discriminate.
Qed.

Lemma classifyOver_first configs serviceId title :
  cl_domain (classifyOver configs serviceId title)
  = option_map name (find (fun c => domainAdmits c serviceId title) configs).
Proof.
  induction configs as [|c rest IH]; simpl; [reflexivity|].
  destruct (classifyAgainst c serviceId title) as [r|] eqn:E.
  - assert (Ha : domainAdmits c serviceId title = true).
    { destruct (domainAdmits c serviceId title) eqn:Ed; [reflexivity|].
      apply classifyAgainst_admits in Ed. congruence. }
    rewrite Ha. simpl. now apply classifyAgainst_domain in E.
  - apply classifyAgainst_admits in E. now rewrite E.
Qed.

(** X1.  First match, not best match: the domain assigned is the one of
    the first configured domain, in declaration order, that admits the
    service; in particular a service that AR admits is tagged AR whatever
    SD and FI match. *)
Theorem classify_first_match (serviceId title : string) :
  cl_domain (classifyService serviceId title)
  = option_map name (find (fun c => domainAdmits c serviceId title) DOMAIN_CONFIGS) /\
  (domainAdmits AR_DOMAIN serviceId title = true ->
   cl_domain (classifyService serviceId title) = Some "AR") /\
  (domainAdmits AR_DOMAIN serviceId title = false ->
   domainAdmits SD_DOMAIN serviceId title = true ->
   cl_domain (classifyService serviceId title) = Some "SD").
Proof.
  unfold classifyService. rewrite classifyOver_first.
  split; [reflexivity|]. unfold DOMAIN_CONFIGS. cbn [find].
  split.
  - intros ->. reflexivity.
  - intros -> ->. reflexivity.
Qed.

Lemma classify_first_match_witness :
  domainAdmits SD_DOMAIN "ZFAR_BILLING_SRV" "Dunning and billing" = true /\
  domainAdmits FI_DOMAIN "ZFAR_BILLING_SRV" "Dunning and billing" = true /\
  cl_domain (classifyService "ZFAR_BILLING_SRV" "Dunning and billing") = Some "AR" /\
  cl_domain (classifyService "RAR_BILLING_SRV" "Dunning and billing") = Some "SD".
Proof.
  split; [vm_compute; reflexivity|]. split; [vm_compute; reflexivity|]. split.
  - apply (classify_first_match "ZFAR_BILLING_SRV" "Dunning and billing").
    vm_compute. reflexivity.
  - apply (classify_first_match "RAR_BILLING_SRV" "Dunning and billing");
      vm_compute; reflexivity.
Defined.

Lemma classifyAgainst_shape config serviceId title c :
  classifyAgainst config serviceId title = Some c ->
  cl_domain c = Some (name config) /\
  ((cl_isPriorityService c = true /\ cl_tier c = 1%Z /\ cl_priority c = 1%Z /\
    In (JS.toUpperCase serviceId) (map JS.toUpperCase (priorityServices config))) \/
   (cl_isPriorityService c = false /\ (1 <= cl_tier c <= 3)%Z /\
    cl_priority c = (10 * cl_tier c)%Z /\
    ~ In (JS.toUpperCase serviceId) (map JS.toUpperCase (priorityServices config)))).
Proof.
  unfold classifyAgainst, determineTier.
  destruct (matchesAny _ (excludePatterns config)); [discriminate|].
  destruct (_ || _); [|discriminate].
  destruct (existsb _ (priorityServices config)) eqn:Ep.
  - intros [= <-]. simpl. split; [reflexivity|]. left.
    split; [reflexivity|]. split; [reflexivity|]. split; [reflexivity|].
    apply existsb_exists in Ep. destruct Ep as (ps & Hin & Heq).
    apply String.eqb_eq in Heq. rewrite <- Heq.
    apply in_map_iff. exists ps. split; [reflexivity|exact Hin].
  - assert (Hnot : ~ In (JS.toUpperCase serviceId)
                        (map JS.toUpperCase (priorityServices config))).
    { intros Hin. apply in_map_iff in Hin. destruct Hin as (ps & Heq & Hin).
      assert (existsb (fun ps => String.eqb (JS.toUpperCase ps) (JS.toUpperCase serviceId))
                      (priorityServices config) = true).
      { apply existsb_exists. exists ps. split; [exact Hin|]. now apply String.eqb_eq. }
      congruence. }
    destruct (matchesAny _ (tier1Keywords config));
      [|destruct (matchesAny _ (tier2Keywords config));
        [|destruct (matchesAny _ (tier3Keywords config))]];
      intros [= <-]; simpl; (split; [reflexivity|]); right;
      unfold PRIORITY_SCORES.TIER_1, PRIORITY_SCORES.TIER_2, PRIORITY_SCORES.TIER_3;
      repeat split; trivial; lia.
Qed.

Lemma getPriorityServicesForDomain_config config :
  In config DOMAIN_CONFIGS ->
  getPriorityServicesForDomain (name config) = priorityServices config.
Proof.
  unfold DOMAIN_CONFIGS. simpl.
  intros [<-|[<-|[<-|[]]]]; reflexivity.
Qed.

Lemma classifyOver_shape configs serviceId title :
  let c := classifyOver configs serviceId title in
  (cl_domain c = None /\ cl_tier c = 0%Z /\ cl_priority c = 100%Z /\
   cl_isPriorityService c = false) \/
  (exists config, In config configs /\ cl_domain c = Some (name config) /\
     ((cl_isPriorityService c = true /\ cl_tier c = 1%Z /\ cl_priority c = 1%Z /\
       In (JS.toUpperCase serviceId)
          (map JS.toUpperCase (priorityServices config))) \/
      (cl_isPriorityService c = false /\ (1 <= cl_tier c <= 3)%Z /\
       cl_priority c = (10 * cl_tier c)%Z /\
       ~ In (JS.toUpperCase serviceId)
            (map JS.toUpperCase (priorityServices config))))).
Proof.
  induction configs as [|config rest IH]; simpl.
  - left. repeat split.
  - destruct (classifyAgainst config serviceId title) as [c|] eqn:E.
    + right. apply classifyAgainst_shape in E. destruct E as [Hd Hshape].
      exists config. split; [now left|]. now split.
    + destruct IH as [IH|(c & Hin & Hd & Hshape)]; [now left|].
      right. exists c. split; [now right|]. now split.
Qed.

(** X2.  The classification has one of three shapes: unclassified (no
    domain, tier 0, score 100); a priority service of a configured domain
    (tier 1, score 1), exactly when the upper-cased id is in that domain's
    priority list; or tier 1 to 3 of a configured domain with score ten
    times the tier. *)
Theorem classification_shape (serviceId title : string) :
  let c := classifyService serviceId title in
  (cl_domain c = None /\ cl_tier c = 0%Z /\ cl_priority c = 100%Z /\
   cl_isPriorityService c = false) \/
  (exists d, cl_domain c = Some d /\ In d getConfiguredDomains /\
     ((cl_isPriorityService c = true /\ cl_tier c = 1%Z /\ cl_priority c = 1%Z /\
       In (JS.toUpperCase serviceId)
          (map JS.toUpperCase (getPriorityServicesForDomain d))) \/
      (cl_isPriorityService c = false /\ (1 <= cl_tier c <= 3)%Z /\
       cl_priority c = (10 * cl_tier c)%Z /\
       ~ In (JS.toUpperCase serviceId)
            (map JS.toUpperCase (getPriorityServicesForDomain d))))).
Proof.
  intros c. subst c. unfold classifyService.
  destruct (classifyOver_shape DOMAIN_CONFIGS serviceId title)
    as [H|(config & Hin & Hd & Hshape)]; [now left|].
  right. exists (name config). split; [exact Hd|].
  split; [unfold getConfiguredDomains; now apply in_map|].
  now rewrite getPriorityServicesForDomain_config.
Qed.

Lemma upperChar_idem (c : ascii) : JS.upperChar (JS.upperChar c) = JS.upperChar c.
Proof. destruct c as [[] [] [] [] [] [] [] []]; reflexivity. Qed.

Lemma isDigit_upper (c : ascii) : isDigit (JS.upperChar c) = isDigit c.
Proof. destruct c as [[] [] [] [] [] [] [] []]; reflexivity. Qed.

Lemma isLineTerminator_upper (c : ascii) :
  isLineTerminator (JS.upperChar c) = isLineTerminator c.
Proof. destruct c as [[] [] [] [] [] [] [] []]; reflexivity. Qed.

Lemma deriv_upper (x : ascii) (r : re) :
  deriv true (JS.upperChar x) r = deriv true x r.
Proof.
  induction r; simpl; try reflexivity.
  - unfold sameChar. now rewrite upperChar_idem.
  - now rewrite isLineTerminator_upper.
  - now rewrite isDigit_upper.
  - now rewrite IHr1, IHr2.
  - now rewrite IHr1, IHr2.
  - now rewrite IHr.
Qed.

Lemma matches_upper (r : re) (s : string) :
  matches true r (JS.toUpperCase s) = matches true r s.
Proof.
  revert r. induction s as [|x s IH]; intros r; simpl; [reflexivity|].
  now rewrite deriv_upper, IH.
Qed.

Lemma matchesAny_upper (s : string) (patterns : list RegExp) :
  forallb ignoreCase patterns = true ->
  matchesAny (JS.toUpperCase s) patterns = matchesAny s patterns.
Proof.
  unfold matchesAny. induction patterns as [|p ps IH]; simpl; [reflexivity|].
  intros H. apply andb_prop in H. destruct H as [Hp Hps].
  rewrite (IH Hps). unfold test. rewrite Hp. now rewrite matches_upper.
Qed.

Lemma matchesAny_sameLetters (a b : string) (patterns : list RegExp) :
  forallb ignoreCase patterns = true -> sameLetters a b ->
  matchesAny a patterns = matchesAny b patterns.
Proof.
  intros Hp Hab. rewrite <- (matchesAny_upper a), <- (matchesAny_upper b) by exact Hp.
  now rewrite Hab.
Qed.

Lemma toUpperCase_app (a b : string) :
  JS.toUpperCase (a +:+ b) = JS.toUpperCase a +:+ JS.toUpperCase b.
Proof.
  unfold JS.toUpperCase. induction a as [|c a IH]; simpl; [reflexivity|].
  now rewrite IH.
Qed.

Lemma classifyAgainst_sameLetters config serviceId serviceId' title title' :
  caseBlind config = true ->
  sameLetters serviceId serviceId' -> sameLetters title title' ->
  classifyAgainst config serviceId title = classifyAgainst config serviceId' title'.
Proof.
  unfold caseBlind. rewrite !forallb_app, !andb_true_iff.
  intros (Hp & H1 & H2 & H3 & Hx) Hid Ht.
  assert (Hs : sameLetters (serviceId +:+ " " +:+ title) (serviceId' +:+ " " +:+ title')).
  { unfold sameLetters in *. now rewrite !toUpperCase_app, Hid, Ht. }
  unfold classifyAgainst, determineTier. unfold sameLetters in Hid. rewrite Hid.
  rewrite (matchesAny_sameLetters title title' _ Hp Ht).
  rewrite (matchesAny_sameLetters _ _ _ H1 Hs), (matchesAny_sameLetters _ _ _ H2 Hs),
          (matchesAny_sameLetters _ _ _ H3 Hs).
  reflexivity.
Qed.

Lemma DOMAIN_CONFIGS_caseBlind : forallb caseBlind DOMAIN_CONFIGS = true.
Proof. vm_compute. reflexivity. Qed.

(** X3.  Letter case never matters to the classifier: ids and titles that
    differ in case only get the same classification. *)
Theorem classify_case_insensitive (serviceId serviceId' title title' : string) :
  sameLetters serviceId serviceId' -> sameLetters title title' ->
  classifyService serviceId title = classifyService serviceId' title'.
Proof.
  intros Hid Ht. unfold classifyService.
  pose proof DOMAIN_CONFIGS_caseBlind as Hall.
  induction DOMAIN_CONFIGS as [|config rest IH]; simpl; [reflexivity|].
  simpl in Hall. apply andb_prop in Hall. destruct Hall as [Hc Hrest].
  rewrite (classifyAgainst_sameLetters config _ _ _ _ Hc Hid Ht).
  destruct (classifyAgainst config serviceId' title'); [reflexivity|].
  now apply IH.
Qed.

Lemma classify_case_insensitive_witness :
  classifyService "zfar_Balances_v2_srv_0001" "customer BALANCES"
  = classifyService "ZFAR_BALANCES_V2_SRV_0001" "Customer balances".
Proof.
  apply (classify_case_insensitive "zfar_Balances_v2_srv_0001"
           "ZFAR_BALANCES_V2_SRV_0001" "customer BALANCES" "Customer balances");
    reflexivity.
Defined.

(** ** Stage 1: what the results say *)

Lemma considerTarget_justified queryLower queryWords acc t :
  considerTarget queryLower queryWords acc t = acc \/
  reasonJustified queryLower queryWords t
    (fst (considerTarget queryLower queryWords acc t))
    (snd (considerTarget queryLower queryWords acc t)).
Proof.
  unfold considerTarget, reasonJustified. destruct acc as [best reason].
  destruct (JS.truthy (text t)) eqn:Et; cbn [negb]; [|now left].
  apply truthy_nonempty in Et.
  destruct (JS.includes (text t) queryLower) eqn:Eq.
  { destruct (Qgtb (weight t) best); [|now left].
    right. split; [exact Et|]. left. now repeat split. }
  destruct (1 <? length queryWords)%nat eqn:El.
  { destruct (forallb _ queryWords) eqn:Ea; cbn [andb]; [|now left].
    destruct (Qgtb (weight t * (9 # 10)) best); [|now left].
    right. split; [exact Et|]. right. left. apply Nat.ltb_lt in El. now repeat split. }
  destruct (length queryWords =? 1)%nat eqn:E1; cbn [andb]; [|now left].
  destruct (JS.includes (text t) (hd EmptyString queryWords)) eqn:Ew; [|now left].
  destruct (Qgtb (weight t * (85 # 100)) best); [|now left].
  right. split; [exact Et|]. right. right.
  apply Nat.eqb_eq in E1. destruct queryWords as [|word [|w2 rest]]; try discriminate.
  repeat split. now exists word.
Qed.

Lemma fold_considerTarget_justified queryLower queryWords targets acc :
  fold_left (considerTarget queryLower queryWords) targets acc = acc \/
  exists t, In t targets /\
    reasonJustified queryLower queryWords t
      (fst (fold_left (considerTarget queryLower queryWords) targets acc))
      (snd (fold_left (considerTarget queryLower queryWords) targets acc)).
Proof.
  revert acc. induction targets as [|t targets IH]; intros acc; cbn [fold_left].
  - now left.
  - destruct (IH (considerTarget queryLower queryWords acc t)) as [Hsame|(t' & Hin & Hj)].
    + rewrite Hsame.
      destruct (considerTarget_justified queryLower queryWords acc t) as [Hacc|Hj].
      * left. exact Hacc.
      * right. exists t. split; [now left|exact Hj].
    + right. exists t'. split; [now right|exact Hj].
Qed.

Lemma searchTargets_bounded s t : In t (searchTargets s) -> (weight t <= 95 # 100)%Q.
Proof.
  unfold searchTargets. simpl.
  intros [<-|[<-|[<-|[<-|[<-|[<-|[<-|[]]]]]]]]; simpl; unfold Qle; simpl; lia.
Qed.

(** X4.  Every match reason of the lexical fallback is truthful: a kept
    candidate names a non-empty field of its service that really holds the
    whole query, all the query words or the single query word, its score
    is that field's weight times 1, 0.9 or 0.85, and so lies above 0 and at
    most at 0.95. *)
Theorem pattern_reason_is_truthful
    (services : list ODataService.t) (queryLower : string) (x : Scored) :
  In x (patternSearch services queryLower) ->
  In (service x) services /\
  (0 < score x)%Q /\ (score x <= 95 # 100)%Q /\
  exists t, In t (searchTargets (service x)) /\
    reasonJustified queryLower (queryWordsOf queryLower) t (score x) (matchReason x).
Proof.
  intros Hx. pose proof (patternSearch_service _ _ _ Hx) as Hs.
  apply patternSearch_kept in Hx. destruct Hx as (s & Hin & -> & Hpos).
  rewrite scoreService_service in *.
  split; [exact Hin|]. split; [exact Hpos|].
  assert (Hj : exists t, In t (searchTargets s) /\
             reasonJustified queryLower (queryWordsOf queryLower) t
               (score (scoreService queryLower (queryWordsOf queryLower) s))
               (matchReason (scoreService queryLower (queryWordsOf queryLower) s))).
  { unfold scoreService in *.
    destruct (fold_considerTarget_justified queryLower (queryWordsOf queryLower)
                (searchTargets s) (0%Q, EmptyString)) as [Hsame|Hj].
    - rewrite Hsame in Hpos. simpl in Hpos. lra.
    - destruct (fold_left _ _ _) as [best reason]. exact Hj. }
  split; [|exact Hj].
  destruct Hj as (t & Ht & _ & Hkind).
  pose proof (searchTargets_bounded s t Ht) as Hb.
  pose proof (searchTargets_positive s t Ht) as Hp.
  destruct Hkind as [(_ & -> & _)|[(_ & -> & _)|(_ & -> & _)]]; lra.
Qed.

Lemma pattern_reason_is_truthful_witness :
  exists x, In x (patternSearch sampleCatalog "customer balance") /\
    (score x <= 95 # 100)%Q /\
    exists t, In t (searchTargets (service x)) /\
      reasonJustified "customer balance" (queryWordsOf "customer balance") t
        (score x) (matchReason x).
Proof.
  exists (scoreService "customer balance" (queryWordsOf "customer balance")
            lineItemsService).
  assert (H : In (scoreService "customer balance" (queryWordsOf "customer balance")
                    lineItemsService)
                 (patternSearch sampleCatalog "customer balance")).
  { vm_compute. right. left. reflexivity. }
  split; [exact H|].
  destruct (pattern_reason_is_truthful sampleCatalog "customer balance" _ H)
    as (_ & _ & Hle & Hj).
  split; [exact Hle|exact Hj].
Defined.

Lemma truthy_toLowerCase (q : string) : JS.truthy (JS.toLowerCase q) = JS.truthy q.
Proof. now destruct q. Qed.

Lemma collectCandidates_lexical services query limit :
  collectCandidates None services query limit
  = fallbackStage services query
      (if JS.truthy query
       then ("pattern", patternSearch services (JS.toLowerCase query))
       else ("none", [])).
Proof.
  unfold collectCandidates. now destruct (JS.truthy query).
Qed.

(** X5.  Without semantic search the ranking does not depend on the letter
    case of the query: two calls whose queries differ in case only, with
    the same domain filter and limit, report the same method, total and
    rows. *)
Theorem lexical_search_ignores_query_case
    (catalog : list ODataService.t) (args args' : DiscoverArgs) :
  JS.toLowerCase (queryOf args) = JS.toLowerCase (queryOf args') ->
  arg_domain args = arg_domain args' ->
  arg_limit args = arg_limit args' ->
  exists r r',
    discoverServicesAndEntities catalog None args = Ok r /\
    discoverServicesAndEntities catalog None args' = Ok r' /\
    searchMethod r = searchMethod r' /\
    totalFound r = totalFound r' /\
    results r = results r'.
Proof.
  intros Hq Hd Hl.
  assert (Ht : JS.truthy (queryOf args) = JS.truthy (queryOf args'))
    by (rewrite <- (truthy_toLowerCase (queryOf args)), Hq; apply truthy_toLowerCase).
  assert (Hdom : domainFilterOf args = domainFilterOf args')
    by (unfold domainFilterOf; now rewrite Hd).
  assert (Hlim : limitOf args = limitOf args')
    by (unfold limitOf; now rewrite Hl).
  assert (Hc : collectCandidates None (filterByDomain catalog (domainFilterOf args))
                 (queryOf args) (limitOf args)
               = collectCandidates None (filterByDomain catalog (domainFilterOf args'))
                   (queryOf args') (limitOf args')).
  { rewrite !collectCandidates_lexical, Hq, Hdom. unfold fallbackStage. now rewrite Ht. }
  unfold discoverServicesAndEntities, rankedCandidates. rewrite Hc, Hlim.
  destruct (collectCandidates None (filterByDomain catalog (domainFilterOf args'))
              (queryOf args') (limitOf args')) as [method scored].
  eexists. eexists. split; [reflexivity|]. split; [reflexivity|]. now repeat split.
Qed.

Lemma lexical_search_ignores_query_case_witness :
  exists r r',
    discoverServicesAndEntities sampleCatalog None
      (searchArgs (Some "BALANCES") (Some "AR") None) = Ok r /\
    discoverServicesAndEntities sampleCatalog None
      (searchArgs (Some " balances ") (Some "AR") None) = Ok r' /\
    searchMethod r = searchMethod r' /\
    totalFound r = totalFound r' /\
    results r = results r'.
Proof.
  apply (lexical_search_ignores_query_case sampleCatalog
           (searchArgs (Some "BALANCES") (Some "AR") None)
           (searchArgs (Some " balances ") (Some "AR") None));
    reflexivity.
Defined.

Lemma filterByDomain_domain catalog domainFilter s :
  domainFilter <> "ALL" ->
  In s (filterByDomain catalog domainFilter) ->
  ODataService.domain s = Some domainFilter.
Proof.
  intros Hne. unfold filterByDomain.
  destruct (String.eqb_spec domainFilter "ALL") as [He|_]; [contradiction|].
  cbn [negb]. intros H. apply filter_In in H. destruct H as [_ H].
  unfold hasDomain in H. destruct (ODataService.domain s) as [d|]; [|discriminate].
  apply String.eqb_eq in H. now subst.
Qed.

(** X6.  The response of Stage 1 is consistent: it shows the first
    [min limit totalFound] candidates (20 at most when no limit is given),
    every row is a service of the catalog, and under a domain filter other
    than ALL every row carries exactly that domain. *)
Theorem discovery_response_consistent
    (catalog : list ODataService.t) (embeddingService : option EmbeddingService)
    (args : DiscoverArgs) :
  exists r,
    discoverServicesAndEntities catalog embeddingService args = Ok r /\
    showing r = Nat.min (limitOf args) (totalFound r) /\
    length (results r) = showing r /\
    (arg_limit args = None -> (showing r <= 20)%nat) /\
    (forall row, In row (results r) ->
       exists s, In s catalog /\
         row_serviceId row = ODataService.id s /\
         row_domain row = ODataService.domain s /\
         row_tier row = ODataService.tier s /\
         (domainFilterOf args <> "ALL" ->
          row_domain row = Some (domainFilterOf args))).
Proof.
  unfold discoverServicesAndEntities, rankedCandidates.
  destruct (collectCandidates _ _ _ _) as [method scored] eqn:E.
  eexists. split; [reflexivity|]. simpl.
  rewrite length_map, length_firstn.
  split; [reflexivity|]. split; [reflexivity|]. split.
  - intros Hnone. unfold limitOf. rewrite Hnone. lia.
  - intros row Hrow. apply in_map_iff in Hrow. destruct Hrow as (x & <- & Hx).
    apply In_firstn_In in Hx. apply -> (sortBy_In compareScored) in Hx.
    assert (Hs : In (service x) (filterByDomain catalog (domainFilterOf args))).
    { apply collectCandidates_service
        with (embeddingService := embeddingService) (query := queryOf args)
             (limit := limitOf args).
      now rewrite E. }
    exists (service x). split; [now apply filterByDomain_In in Hs|].
    simpl. repeat split.
    intros Hne. now apply filterByDomain_domain with (catalog := catalog).
Qed.

Lemma discovery_response_consistent_witness :
  exists r,
    discoverServicesAndEntities sampleCatalog None (searchArgs None (Some "ar") None)
    = Ok r /\
    (showing r <= 20)%nat /\
    (forall row, In row (results r) -> row_domain row = Some "AR").
Proof.
  destruct (discovery_response_consistent sampleCatalog None
              (searchArgs None (Some "ar") None))
    as (r & Hr & _ & _ & Hlimit & Hrows).
  exists r. split; [exact Hr|]. split; [apply Hlimit; reflexivity|].
  intros row Hrow. destruct (Hrows row Hrow) as (s & _ & _ & _ & _ & Hdomain).
  apply Hdomain. vm_compute. discriminate.
Defined.

(** ** The sort is stable *)

Section Stability.
Context {A : Type} (cmp : A -> A -> Q) (P : A -> Prop).

Hypothesis trans :
  forall a b c, P a -> P b -> P c ->
                notAfter cmp a b -> notAfter cmp b c -> notAfter cmp a c.

Lemma insertBy_filter_tied (a x : A) (s : list A) :
  P a -> P x -> Forall P s ->
  List.filter (tiedb cmp a) (insertBy cmp x s)
  = List.filter (tiedb cmp a) (x :: s).
Proof.
  intros Ha Hx. induction s as [|y s IH]; intros Hs; [reflexivity|].
  rewrite List.Forall_forall in Hs.
  assert (Hy : P y) by (apply Hs; now left).
  assert (Hs' : Forall P s)
    by (apply List.Forall_forall; intros z Hz; apply Hs; now right).
  cbn [insertBy]. destruct (Qgtb (cmp x y) 0) eqn:E; [|reflexivity].
  cbn [List.filter]. rewrite (IH Hs'). cbn [List.filter].
  destruct (tiedb cmp a x) eqn:Eax, (tiedb cmp a y) eqn:Eay; try reflexivity.
  exfalso. unfold tiedb in *.
  apply andb_prop in Eax, Eay. destruct Eax as [_ Hxa], Eay as [Hay _].
  apply negb_true_iff in Hxa, Hay.
  assert (Hxy : notAfter cmp x y) by (apply (trans x a y); assumption).
  unfold notAfter in Hxy. congruence.
Qed.

Lemma sortBy_stable (a : A) (l : list A) :
  P a -> Forall P l ->
  List.filter (tiedb cmp a) (sortBy cmp l) = List.filter (tiedb cmp a) l.
Proof.
  intros Ha. induction l as [|x l IH]; intros Hl; [reflexivity|].
  rewrite List.Forall_forall in Hl.
  assert (Hx : P x) by (apply Hl; now left).
  assert (Hl' : Forall P l)
    by (apply List.Forall_forall; intros z Hz; apply Hl; now right).
  cbn [sortBy fold_right]. fold (sortBy cmp l).
  rewrite insertBy_filter_tied; trivial.
  - cbn [List.filter]. now rewrite (IH Hl').
  - apply List.Forall_forall. intros z Hz. apply -> (sortBy_In cmp) in Hz.
    apply Hl. now right.
Qed.
End Stability.

Lemma tiedb_sameRank (a x : Scored) :
  flagged a -> flagged x -> tiedb compareScored a x = sameRank a x.
Proof.
  intros Ha Hx.
  pose proof (compareScored_keys a x Ha Hx) as Hax.
  pose proof (compareScored_keys x a Hx Ha) as Hxa.
  unfold notAfter in Hax, Hxa.
  apply eq_true_iff_eq. unfold tiedb, sameRank.
  rewrite !andb_true_iff, !negb_true_iff, Hax, Hxa.
  rewrite Bool.eqb_true_iff, !Z.eqb_eq, Qeq_bool_iff.
  unfold keysBefore, flagRank.
  split.
  - intros [H1 H2].
    assert (Hf : isPriority a = isPriority x)
      by (destruct (isPriority a), (isPriority x); trivial;
          destruct H1 as [H1|[H1 _]], H2 as [H2|[H2 _]]; lia).
    rewrite Hf in *.
    destruct H1 as [H1|[_ H1]]; [lia|]. destruct H2 as [H2|[_ H2]]; [lia|].
    assert (Ht : tierKey a = tierKey x)
      by (destruct H1 as [H1|[H1 _]], H2 as [H2|[H2 _]]; lia).
    destruct H1 as [H1|[_ H1]]; [lia|]. destruct H2 as [H2|[_ H2]]; [lia|].
    assert (Hp : priorityKey a = priorityKey x)
      by (destruct H1 as [H1|[H1 _]], H2 as [H2|[H2 _]]; lia).
    destruct H1 as [H1|[_ H1]]; [lia|]. destruct H2 as [H2|[_ H2]]; [lia|].
    repeat split; trivial. now apply Qle_antisym.
  - intros (((Hf & Ht) & Hp) & Hs). rewrite Hf.
    split; right; (split; [reflexivity|]); right; (split; [lia|]); right;
      (split; [lia|]); rewrite Hs; apply Qle_refl.
Qed.

(** X7.  The ranking is stable: candidates of the same rank (same flag,
    tier, priority score and search score) keep the order in which the
    producing stage found them, so with an empty query services of one
    class stay in catalog order. *)
Theorem ranking_is_stable
    (catalog : list ODataService.t) (embeddingService : option EmbeddingService)
    (args : DiscoverArgs) (a : Scored) :
  Forall WellClassified catalog ->
  WellClassified (service a) ->
  List.filter (sameRank a) (snd (rankedCandidates catalog embeddingService args))
  = List.filter (sameRank a)
      (snd (collectCandidates embeddingService
              (filterByDomain catalog (domainFilterOf args))
              (queryOf args) (limitOf args))).
Proof.
  intros Hcat Ha. unfold rankedCandidates.
  destruct (collectCandidates _ _ _ _) as [method scored] eqn:E. cbn [snd].
  assert (Hall : Forall (fun x => WellClassified (service x)) scored).
  { apply List.Forall_forall. intros x Hx.
    rewrite List.Forall_forall in Hcat. apply Hcat.
    apply filterByDomain_In with (domainFilter := domainFilterOf args).
    apply collectCandidates_service
      with (embeddingService := embeddingService) (query := queryOf args)
           (limit := limitOf args).
    now rewrite E. }
  assert (Hflag : forall x, WellClassified (service x) -> flagged x)
    by (intros x Hx; apply Hx).
  rewrite (filter_ext_in (sameRank a) (tiedb compareScored a)
             (sortBy compareScored scored)).
  2: { intros x Hx. symmetry. apply tiedb_sameRank; [now apply Hflag|].
       apply Hflag. apply -> (sortBy_In compareScored) in Hx.
       rewrite List.Forall_forall in Hall. now apply Hall. }
  rewrite (filter_ext_in (sameRank a) (tiedb compareScored a) scored).
  2: { intros x Hx. symmetry. apply tiedb_sameRank; [now apply Hflag|].
       apply Hflag. rewrite List.Forall_forall in Hall. now apply Hall. }
  apply sortBy_stable with (P := fun x => WellClassified (service x)); trivial.
  intros x y z Hx Hy Hz Hxy Hyz.
  apply compareScored_keys; auto.
  apply keysBefore_trans with y; apply compareScored_keys; auto.
Qed.

Lemma ranking_is_stable_witness :
  map (fun x => ODataService.id (service x))
      (List.filter
         (sameRank {| service := tagService (catalogEntry "ZA" "a" "a");
                      score := 5 # 10; matchReason := "All services" |})
         (snd (rankedCandidates
                 (discoverCatalog
                    [ catalogEntry "ZB_SRV" "b" "b";
                      catalogEntry "ZFAR_BALANCES_V2_SRV_0001" "Balances" "c";
                      catalogEntry "ZA_SRV" "a" "a" ])
                 None (searchArgs None None None))))
  = ["ZB_SRV"; "ZA_SRV"].
Proof.
  rewrite (ranking_is_stable
             (discoverCatalog
                [ catalogEntry "ZB_SRV" "b" "b";
                  catalogEntry "ZFAR_BALANCES_V2_SRV_0001" "Balances" "c";
                  catalogEntry "ZA_SRV" "a" "a" ])
             None (searchArgs None None None)).
  - vm_compute. reflexivity.
  - apply discoverCatalog_WellClassified.
  - pose proof (discoverCatalog_WellClassified [catalogEntry "ZA" "a" "a"]) as H.
    now inversion H.
Defined.

(** ** Level 2: inspect *)

Lemma findService_storeMetadata services serviceId m s :
  findService services serviceId = Some s ->
  findService (storeMetadata serviceId m services) serviceId
  = Some (ODataService.withMetadata s m).
Proof.
  unfold findService. induction services as [|x rest IH]; simpl; [discriminate|].
  destruct (String.eqb (ODataService.id x) serviceId) eqn:E.
  - intros [= <-]. simpl. now rewrite E.
  - intros H. simpl. rewrite E. now apply IH.
Qed.

(** After the metadata step has succeeded the catalog entry carries the
    metadata. *)
Lemma ensureMetadata_loaded schemaProvider serviceId service w m w1 :
  findService (catalogServices w) serviceId = Some service ->
  ensureMetadata schemaProvider serviceId service w = (Ok m, w1) ->
  exists s1,
    findService (catalogServices w1) serviceId = Some s1 /\
    ODataService.metadata s1 = Some m /\
    forgetMetadata s1 = forgetMetadata service.
Proof.
  intros Hfind. unfold ensureMetadata.
  destruct (ODataService.metadata service) as [m0|] eqn:Em.
  - unfold ret. intros [= <- <-]. exists service. now repeat split.
  - destruct (metadataCache w !! serviceId) as [mc|] eqn:Ec.
    + intros [= <- <-]. exists (ODataService.withMetadata service mc).
      simpl. split; [now apply findService_storeMetadata|]. now split.
    + unfold bindAction, fetchServiceMetadata, modify, ret.
      destruct (schemaProvider _ service) as [mf|e]; [|discriminate].
      intros [= <- <-]. exists (ODataService.withMetadata service mf).
      simpl. split; [now apply findService_storeMetadata|]. now split.
Qed.

Lemma ensureMetadata_at_hand schemaProvider serviceId s1 m w1 :
  ODataService.metadata s1 = Some m ->
  ensureMetadata schemaProvider serviceId s1 w1 = (Ok m, w1).
Proof. intros H. unfold ensureMetadata. now rewrite H. Qed.

Lemma describeEntity_forget s s' e :
  forgetMetadata s = forgetMetadata s' -> describeEntity s e = describeEntity s' e.
Proof.
  intros H. unfold describeEntity.
  assert (ODataService.id s = ODataService.id s')
    by (change (ODataService.id (forgetMetadata s) = ODataService.id (forgetMetadata s'));
        now rewrite H).
  assert (ODataService.title s = ODataService.title s')
    by (change (ODataService.title (forgetMetadata s)
                = ODataService.title (forgetMetadata s')); now rewrite H).
  assert (ODataService.domain s = ODataService.domain s')
    by (change (ODataService.domain (forgetMetadata s)
                = ODataService.domain (forgetMetadata s')); now rewrite H).
  assert (ODataService.tier s = ODataService.tier s')
    by (change (ODataService.tier (forgetMetadata s)
                = ODataService.tier (forgetMetadata s')); now rewrite H).
  congruence.
Qed.

(** X8.  A successful inspect is idempotent: asked again, the tool gives
    the same schema and changes nothing, because the first call left the
    metadata on the catalog entry. *)
Theorem inspect_is_idempotent
    (schemaProvider : nat -> ODataService.t -> Exc ServiceMetadata.t)
    (args : MetadataArgs) (w w1 : World) (schema : EntitySchema) :
  getEntityMetadata schemaProvider args w = (Content schema, w1) ->
  getEntityMetadata schemaProvider args w1 = (Content schema, w1).
Proof.
  unfold getEntityMetadata.
  destruct (_ || _); [discriminate|].
  destruct (findService (catalogServices w) (marg_serviceId args)) as [service|] eqn:Ef;
    [|discriminate].
  destruct (ensureMetadata schemaProvider (marg_serviceId args) service w)
    as [[m|e] w'] eqn:Ee; [|discriminate].
  destruct (findEntity m (marg_entityName args)) as [entityType|] eqn:En;
    [|discriminate].
  intros [= <- <-].
  destruct (ensureMetadata_loaded _ _ _ _ _ _ Ef Ee) as (s1 & Hf1 & Hm1 & Hforget).
  rewrite Hf1, (ensureMetadata_at_hand _ _ _ _ _ Hm1), En.
  now rewrite (describeEntity_forget _ _ _ Hforget).
Qed.

Lemma inspect_is_idempotent_witness :
  exists schema w1,
    getEntityMetadata schemaUp inspectCustomer freshWorld = (Content schema, w1) /\
    getEntityMetadata schemaUp inspectCustomer w1 = (Content schema, w1) /\
    schema_keyProperties schema = ["CustomerId"] /\
    length (fetches w1) = 1%nat.
Proof.
  eexists. eexists. split; [vm_compute; reflexivity|].
  split.
  - apply (inspect_is_idempotent schemaUp inspectCustomer freshWorld).
    vm_compute. reflexivity.
  - split; reflexivity.
Defined.

Lemma find_by_name (entityTypes : list EntityType.t) (n : string) :
  In n (map EntityType.name entityTypes) ->
  exists e, find (fun e => String.eqb (EntityType.name e) n) entityTypes = Some e /\
            EntityType.name e = n.
Proof.
  induction entityTypes as [|x rest IH]; simpl; [tauto|].
  destruct (String.eqb_spec (EntityType.name x) n) as [Heq|Hne].
  - intros _. now exists x.
  - intros [H|H]; [contradiction|now apply IH].
Qed.

(** X9.  The error for an unknown entity is actionable: it lists the names
    of the entities the service has (or [none]), the schema stays loaded,
    and every listed name can then be inspected with success and without
    any further change of state. *)
Theorem unknown_entity_lists_alternatives
    (schemaProvider : nat -> ODataService.t -> Exc ServiceMetadata.t)
    (args : MetadataArgs) (w w1 : World)
    (service : ODataService.t) (m : ServiceMetadata.t) :
  JS.truthy (marg_serviceId args) = true ->
  JS.truthy (marg_entityName args) = true ->
  findService (catalogServices w) (marg_serviceId args) = Some service ->
  ensureMetadata schemaProvider (marg_serviceId args) service w = (Ok m, w1) ->
  findEntity m (marg_entityName args) = None ->
  getEntityMetadata schemaProvider args w
  = (IsError ("ERROR: Entity '" +:+ marg_entityName args +:+ "' not found in "
              +:+ marg_serviceId args +:+ "." +:+ newline +:+ newline
              +:+ "Available entities: "
              +:+ JS.orElse
                    (JS.join ", " (map EntityType.name (ServiceMetadata.entityTypes m)))
                    "none"),
     w1) /\
  (forall n,
     In n (map EntityType.name (ServiceMetadata.entityTypes m)) ->
     n <> EmptyString ->
     exists schema,
       getEntityMetadata schemaProvider
         {| marg_serviceId := marg_serviceId args; marg_entityName := n |} w1
       = (Content schema, w1) /\
       schema_name schema = n).
Proof.
  intros Hs He Hfind Hmeta Hnone. split.
  - unfold getEntityMetadata. rewrite Hs, He, Hfind, Hmeta, Hnone. reflexivity.
  - intros n Hn Hne.
    destruct (ensureMetadata_loaded _ _ _ _ _ _ Hfind Hmeta) as (s1 & Hf1 & Hm1 & _).
    destruct (find_by_name _ _ Hn) as (e & Hfe & Hname).
    exists (describeEntity s1 e). split; [|exact Hname].
    unfold getEntityMetadata. cbn [marg_serviceId marg_entityName].
    rewrite Hs. apply truthy_nonempty in Hne. rewrite Hne. cbn [negb orb].
    rewrite Hf1, (ensureMetadata_at_hand _ _ _ _ _ Hm1).
    unfold findEntity. now rewrite Hfe.
Qed.

Lemma unknown_entity_lists_alternatives_witness :
  getEntityMetadata schemaUp
    (inspectArgs "ZFAR_CUSTOMER_LINE_ITEMS_0001" "Invoice") freshWorld
  = (IsError ("ERROR: Entity 'Invoice' not found in ZFAR_CUSTOMER_LINE_ITEMS_0001."
              +:+ newline +:+ newline +:+ "Available entities: Customer, Item"),
     snd (ensureMetadata schemaUp "ZFAR_CUSTOMER_LINE_ITEMS_0001"
            lineItemsService freshWorld)).
Proof.
  refine (proj1 (unknown_entity_lists_alternatives schemaUp
                   (inspectArgs "ZFAR_CUSTOMER_LINE_ITEMS_0001" "Invoice") freshWorld
                   (snd (ensureMetadata schemaUp "ZFAR_CUSTOMER_LINE_ITEMS_0001"
                           lineItemsService freshWorld))
                   lineItemsService lineItemsMetadata _ _ _ _ _)); reflexivity.
Defined.

(** ** Level 3: the calls that reach the SAP client *)

Lemma stripKeys_kept (keys : list string) (parameters : gmap string JSValue) (k : string) :
  ~ In k keys ->
  fold_left (fun data key => delete key data) keys parameters !! k = parameters !! k.
Proof.
  revert parameters. induction keys as [|x rest IH]; intros parameters Hk; [reflexivity|].
  cbn [fold_left]. rewrite IH by (intros H; apply Hk; now right).
  apply lookup_delete_ne. intros ->. apply Hk. now left.
Qed.

Lemma stripKeys_absent (keys : list string) (parameters : gmap string JSValue) (k : string) :
  parameters !! k = None ->
  fold_left (fun data key => delete key data) keys parameters !! k = None.
Proof.
  revert parameters. induction keys as [|x rest IH]; intros parameters Hk; [exact Hk|].
  cbn [fold_left]. apply IH.
  destruct (decide (x = k)) as [->|Hne].
  - apply lookup_delete_eq.
  - now rewrite lookup_delete_ne.
Qed.

Lemma stripKeys_removed (keys : list string) (parameters : gmap string JSValue) (k : string) :
  In k keys ->
  fold_left (fun data key => delete key data) keys parameters !! k = None.
Proof.
  revert parameters. induction keys as [|x rest IH]; intros parameters Hk; [destruct Hk|].
  cbn [fold_left]. destruct (decide (x = k)) as [->|Hne].
  - apply stripKeys_absent, lookup_delete_eq.
  - destruct Hk as [Hk|Hk]; [contradiction|]. now apply IH.
Qed.

(** What the [switch] does to the state: nothing, or one call is logged,
    and that call is the one the operation stands for. *)
Lemma dispatch_effect sapClient operation service entityType entityName
    parameters queryOptions w :
  snd (dispatch sapClient operation service entityType entityName
         parameters queryOptions w) = w \/
  exists c,
    snd (dispatch sapClient operation service entityType entityName
           parameters queryOptions w) = logCall w c /\
    callFor operation service entityType parameters queryOptions c.
Proof.
  unfold dispatch, callFor.
  destruct (String.eqb_spec operation "read") as [->|_].
  { right. eexists. unfold bindAction, callSap, ret.
    destruct (sapClient _ _); cbn [snd]; (split; [reflexivity|]); left; now split. }
  destruct (String.eqb_spec operation "read-single") as [->|_].
  { unfold bindAction, liftExc, callSap, ret.
    destruct (buildKeyValue entityType parameters) as [key|e] eqn:Ek; [|now left].
    right. eexists.
    destruct (sapClient _ _); cbn [snd]; (split; [reflexivity|]);
      right; left; (split; [reflexivity|]); now exists key. }
  destruct (String.eqb_spec operation "create") as [->|_].
  { destruct (EntityType.creatable entityType) eqn:Ec; cbn [negb]; [|now left].
    right. eexists. unfold bindAction, callSap, ret.
    destruct (sapClient _ _); cbn [snd]; (split; [reflexivity|]);
      right; right; left; now repeat split. }
  destruct (String.eqb_spec operation "update") as [->|_].
  { destruct (EntityType.updatable entityType) eqn:Eu; cbn [negb]; [|now left].
    unfold bindAction, liftExc, callSap, ret.
    destruct (buildKeyValue entityType parameters) as [key|e] eqn:Ek; [|now left].
    right. eexists.
    destruct (sapClient _ _); cbn [snd]; (split; [reflexivity|]);
      right; right; right; left; (split; [reflexivity|]); (split; [reflexivity|]);
      exists key; eexists; (split; [reflexivity|]); (split; [reflexivity|]);
      (split; [apply stripKeys_removed|apply stripKeys_kept]). }
  destruct (String.eqb_spec operation "delete") as [->|_].
  { destruct (EntityType.deletable entityType) eqn:Ed; cbn [negb]; [|now left].
    unfold bindAction, liftExc, callSap, ret.
    destruct (buildKeyValue entityType parameters) as [key|e] eqn:Ek; [|now left].
    right. eexists.
    destruct (sapClient _ _); cbn [snd]; (split; [reflexivity|]);
      right; right; right; right; (split; [reflexivity|]); (split; [reflexivity|]);
      now exists key. }
  now left.
Qed.

Lemma executeOperation_world schemaProvider sapClient args w :
  snd (executeOperation schemaProvider sapClient args w)
  = snd (executeBody schemaProvider sapClient args w).
Proof.
  unfold executeOperation.
  now destruct (executeBody schemaProvider sapClient args w) as [[done|e] w'].
Qed.

Lemma refreshClientToken_calls w : sapCalls (refreshClientToken w) = sapCalls w.
Proof. unfold refreshClientToken. now destruct (truthyText (userToken w)). Qed.

(** X10.  One act, at most one call: [executeOperation] leaves the log of
    SAP calls as it was, or adds exactly one call to it; that call is made
    for a service of the catalog and an entity of its schema, is of the
    kind the operation names, is a write only when the entity's flag
    allows it, and an update carries the parameters without the key
    fields. *)
Theorem act_issues_at_most_one_call
    (schemaProvider : nat -> ODataService.t -> Exc ServiceMetadata.t)
    (sapClient : nat -> SapCall -> Exc string)
    (args : ExecuteArgs) (w : World) :
  sapCalls (snd (executeOperation schemaProvider sapClient args w)) = sapCalls w \/
  exists service m entityType c,
    findService (catalogServices w) (xarg_serviceId args) = Some service /\
    fst (ensureMetadata schemaProvider (xarg_serviceId args) service w) = Ok m /\
    findEntity m (xarg_entityName args) = Some entityType /\
    callFor (JS.toLowerCase (xarg_operation args)) service entityType
            (default ∅ (xarg_parameters args)) (queryOptionsOf args) c /\
    sapCalls (snd (executeOperation schemaProvider sapClient args w))
    = sapCalls w ++ [c].
Proof.
  rewrite executeOperation_world.
  remember (snd (executeBody schemaProvider sapClient args w)) as w' eqn:Hw'.
  unfold executeBody in Hw'.
  destruct (negb _); [left; now subst w'|].
  destruct (findService (catalogServices w) (xarg_serviceId args)) as [service|] eqn:Ef;
    [|left; now subst w'].
  pose proof (ensureMetadata_quiet schemaProvider (xarg_serviceId args) service w) as Hq.
  unfold bindAction at 1 in Hw'.
  destruct (ensureMetadata schemaProvider (xarg_serviceId args) service w)
    as [[m|e] w1] eqn:Ee; cbn [snd] in Hq; [|left; now subst w'].
  destruct (findEntity m (xarg_entityName args)) as [entityType|] eqn:En;
    [|left; now subst w'].
  unfold bindAction at 1, modify in Hw'.
  destruct (dispatch_effect sapClient (JS.toLowerCase (xarg_operation args)) service
              entityType (xarg_entityName args) (default ∅ (xarg_parameters args))
              (queryOptionsOf args) (refreshClientToken w1)) as [Hsame|(c & Hlog & Hc)].
  - left. rewrite Hw', Hsame, refreshClientToken_calls. exact Hq.
  - right. exists service, m, entityType, c. rewrite Hw', Hlog.
    split; [reflexivity|]. split; [now rewrite Ee|]. split; [exact En|].
    split; [exact Hc|].
    cbn [logCall sapCalls]. now rewrite refreshClientToken_calls, Hq.
Qed.

(** X11.  The operations that address one entity (read-single, and update
    and delete when the entity allows them) either fail with the message
    of the key composition, without any call, or issue exactly one call,
    which carries the composed key. *)
Theorem key_addressed_operations
    (schemaProvider : nat -> ODataService.t -> Exc ServiceMetadata.t)
    (sapClient : nat -> SapCall -> Exc string)
    (args : ExecuteArgs) (w w1 : World)
    (service : ODataService.t) (m : ServiceMetadata.t) (entityType : EntityType.t) :
  findService (catalogServices w) (xarg_serviceId args) = Some service ->
  ensureMetadata schemaProvider (xarg_serviceId args) service w = (Ok m, w1) ->
  findEntity m (xarg_entityName args) = Some entityType ->
  keyAddressed (JS.toLowerCase (xarg_operation args)) entityType ->
  match buildKeyValue entityType (default ∅ (xarg_parameters args)) with
  | Throw message =>
      executeOperation schemaProvider sapClient args w
      = (IsError (errorResponse args message), refreshClientToken w1) /\
      sapCalls (refreshClientToken w1) = sapCalls w
  | Ok key =>
      exists c,
        sapCalls (snd (executeOperation schemaProvider sapClient args w))
        = sapCalls w ++ [c] /\
        callKey c = Some key /\
        callFor (JS.toLowerCase (xarg_operation args)) service entityType
                (default ∅ (xarg_parameters args)) (queryOptionsOf args) c
  end.
Proof.
  intros Hfind Hmeta Hentity Hop.
  pose proof (ensureMetadata_quiet schemaProvider (xarg_serviceId args) service w) as Hq.
  rewrite Hmeta in Hq. cbn [snd] in Hq.
  pose proof (dispatch_effect sapClient (JS.toLowerCase (xarg_operation args)) service
                entityType (xarg_entityName args) (default ∅ (xarg_parameters args))
                (queryOptionsOf args) (refreshClientToken w1)) as Heffect.
  assert (Hbody :
    executeBody schemaProvider sapClient args w
    = dispatch sapClient (JS.toLowerCase (xarg_operation args)) service entityType
        (xarg_entityName args) (default ∅ (xarg_parameters args)) (queryOptionsOf args)
        (refreshClientToken w1)).
  { unfold executeBody.
    destruct Hop as [Hop|[[Hop _]|[Hop _]]]; rewrite Hop;
      cbn [existsb validOps String.eqb Ascii.eqb Bool.eqb orb negb];
      rewrite Hfind; unfold bindAction at 1; rewrite Hmeta, Hentity;
      reflexivity. }
  rewrite executeOperation_world. unfold executeOperation. rewrite Hbody.
  destruct (buildKeyValue entityType (default ∅ (xarg_parameters args)))
    as [key|message] eqn:Ek.
  - destruct Heffect as [Hsame|(c & Hlog & Hc)].
    + exfalso. revert Hsame. unfold dispatch, bindAction, liftExc, callSap, ret.
      destruct Hop as [Hop|[[Hop Hflag]|[Hop Hflag]]]; rewrite Hop;
        cbn [String.eqb Ascii.eqb Bool.eqb]; rewrite ?Hflag, Ek; cbn [negb];
        destruct (sapClient _ _); cbn [snd]; intros Hsame;
        apply (f_equal (fun x => length (sapCalls x))) in Hsame;
        cbn [logCall sapCalls] in Hsame; rewrite List.length_app in Hsame;
        cbn [length] in Hsame; lia.
    + exists c. rewrite Hlog. cbn [logCall sapCalls].
      rewrite refreshClientToken_calls, Hq. split; [reflexivity|]. split; [|exact Hc].
      unfold callFor in Hc.
      destruct Hc as [[Hc _]|[(_ & k & Hk & ->)|[(Hc & _)|[(_ & _ & k & d & Hk & -> & _)|
                      (_ & _ & k & Hk & ->)]]]]; cbn [callKey]; try congruence.
      * destruct Hop as [Hop|[[Hop _]|[Hop _]]]; rewrite Hop in Hc; discriminate.
      * destruct Hop as [Hop|[[Hop _]|[Hop _]]]; rewrite Hop in Hc; discriminate.
  - split.
    + unfold dispatch, bindAction, liftExc.
      destruct Hop as [Hop|[[Hop Hflag]|[Hop Hflag]]]; rewrite Hop;
        cbn [String.eqb Ascii.eqb Bool.eqb]; rewrite ?Hflag, Ek; reflexivity.
    + now rewrite refreshClientToken_calls.
Qed.

Lemma key_addressed_operations_witness :
  exists c,
    sapCalls (snd (executeOperation schemaUp sapUp updateItem freshWorld)) = [] ++ [c] /\
    callKey c = Some "CompanyCode='1000',Document='D1',Line='1'" /\
    callFor "update" lineItemsService itemEntity
            (default ∅ (xarg_parameters updateItem)) (queryOptionsOf updateItem) c.
Proof.
  refine (key_addressed_operations schemaUp sapUp updateItem freshWorld
            (snd (ensureMetadata schemaUp "ZFAR_CUSTOMER_LINE_ITEMS_0001"
                    lineItemsService freshWorld))
            lineItemsService lineItemsMetadata itemEntity _ _ _ _).
  - reflexivity.
  - reflexivity.
  - reflexivity.
  - right. left. split; reflexivity.
Defined.

(** ** Sessions: what tool calls never do *)

Lemma getEntityMetadata_unknown schemaProvider args w :
  findService (catalogServices w) (marg_serviceId args) = None ->
  exists message, getEntityMetadata schemaProvider args w = (IsError message, w).
Proof.
  intros H. unfold getEntityMetadata. rewrite H.
  destruct (_ || _); eexists; reflexivity.
Qed.

Lemma executeOperation_unknown schemaProvider sapClient args w :
  findService (catalogServices w) (xarg_serviceId args) = None ->
  exists message,
    executeOperation schemaProvider sapClient args w = (IsError message, w).
Proof.
  intros H. unfold executeOperation, executeBody.
  destruct (negb _); [eexists; reflexivity|].
  rewrite H. eexists; reflexivity.
Qed.

(** X12.  A session whose calls name no service of the catalog changes
    nothing: no schema is fetched, no call is made, the cache, the catalog
    and the tokens stay as they were; and each such call is answered with
    an error. *)
Theorem unknown_services_change_nothing
    (schemaProvider : nat -> ODataService.t -> Exc ServiceMetadata.t)
    (sapClient : nat -> SapCall -> Exc string)
    (calls : list ToolCall) (w : World) :
  Forall (fun c => findService (catalogServices w) (callServiceId c) = None) calls ->
  runCalls schemaProvider sapClient calls w = w /\
  Forall (fun c =>
            match c with
            | Inspect args =>
                exists message,
                  getEntityMetadata schemaProvider args w = (IsError message, w)
            | Act args =>
                exists message,
                  executeOperation schemaProvider sapClient args w
                  = (IsError message, w)
            end) calls.
Proof.
  unfold runCalls. induction 1 as [|c rest Hc Hrest [IHrun IHall]].
  - split; [reflexivity|constructor].
  - assert (Hstep : runCall schemaProvider sapClient c w = w).
    { destruct c as [args|args]; cbn [runCall callServiceId] in *.
      - destruct (getEntityMetadata_unknown schemaProvider args w Hc) as [msg ->].
        reflexivity.
      - destruct (executeOperation_unknown schemaProvider sapClient args w Hc)
          as [msg ->].
        reflexivity. }
    split.
    + cbn [fold_left]. rewrite Hstep. exact IHrun.
    + constructor; [|exact IHall].
      destruct c as [args|args]; cbn [callServiceId] in Hc.
      * now apply getEntityMetadata_unknown.
      * now apply executeOperation_unknown.
Qed.

Lemma unknown_services_change_nothing_witness :
  runCalls schemaUp sapUp
    [Inspect (inspectArgs "ZNOSUCH_SRV" "Customer");
     Act (actArgs "ZNOSUCH_SRV" "Customer" "delete" [("CustomerId", JString "C1")])]
    freshWorld
  = freshWorld.
Proof.
  refine (proj1 (unknown_services_change_nothing schemaUp sapUp _ freshWorld _)).
  repeat constructor.
Defined.

Lemma grown_refl (l : list ODataService.t) :
  Forall2
    (fun s s' => forgetMetadata s' = forgetMetadata s /\
                 (ODataService.metadata s <> None ->
                  ODataService.metadata s' = ODataService.metadata s)) l l.
Proof. induction l; constructor; auto. Qed.

Lemma catalogGrown_refl w : catalogGrown w w.
Proof. apply grown_refl. Qed.

Lemma catalogGrown_same w w' :
  catalogServices w' = catalogServices w -> catalogGrown w w'.
Proof. unfold catalogGrown. intros ->. apply grown_refl. Qed.

Lemma catalogGrown_trans w1 w2 w3 :
  catalogGrown w1 w2 -> catalogGrown w2 w3 -> catalogGrown w1 w3.
Proof.
  unfold catalogGrown.
  generalize (catalogServices w1) (catalogServices w2) (catalogServices w3).
  intros l1 l2 l3 H12. revert l3.
  induction H12 as [|a b l1 l2 [Hf Hm] _ IH]; intros l3 H23; inversion H23; subst.
  - constructor.
  - constructor; [|now apply IH].
    match goal with H : _ /\ _ |- _ => destruct H as [Hf' Hm'] end.
    split; [congruence|].
    intros Ha. rewrite <- (Hm Ha). apply Hm'. rewrite (Hm Ha). exact Ha.
Qed.

Lemma storeMetadata_grown serviceId m services s :
  findService services serviceId = Some s ->
  ODataService.metadata s = None ->
  Forall2
    (fun s s' => forgetMetadata s' = forgetMetadata s /\
                 (ODataService.metadata s <> None ->
                  ODataService.metadata s' = ODataService.metadata s))
    services (storeMetadata serviceId m services).
Proof.
  unfold findService. induction services as [|x rest IH]; cbn [find storeMetadata].
  - constructor.
  - destruct (String.eqb (ODataService.id x) serviceId).
    + intros [= <-] Hnone. constructor; [|apply grown_refl].
      split; [reflexivity|]. intros Hne. now rewrite Hnone in Hne.
    + intros Hf Hnone. constructor; [now split|now apply IH].
Qed.

Lemma ensureMetadata_grown schemaProvider serviceId service w :
  findService (catalogServices w) serviceId = Some service ->
  catalogGrown w (snd (ensureMetadata schemaProvider serviceId service w)) /\
  userToken (snd (ensureMetadata schemaProvider serviceId service w)) = userToken w.
Proof.
  intros Hfind. unfold ensureMetadata.
  destruct (ODataService.metadata service) eqn:Em.
  { split; [apply catalogGrown_refl|reflexivity]. }
  destruct (metadataCache w !! serviceId).
  { split; [|reflexivity]. now apply storeMetadata_grown with (s := service). }
  unfold bindAction, fetchServiceMetadata, modify, ret.
  destruct (schemaProvider _ service).
  - split; [|reflexivity]. now apply storeMetadata_grown with (s := service).
  - split; [now apply catalogGrown_same|reflexivity].
Qed.

Lemma refreshClientToken_keeps w :
  catalogServices (refreshClientToken w) = catalogServices w /\
  userToken (refreshClientToken w) = userToken w.
Proof. unfold refreshClientToken. now destruct (truthyText (userToken w)). Qed.

Lemma dispatch_keeps sapClient operation service entityType entityName
    parameters queryOptions w :
  catalogServices (snd (dispatch sapClient operation service entityType entityName
                          parameters queryOptions w)) = catalogServices w /\
  userToken (snd (dispatch sapClient operation service entityType entityName
                    parameters queryOptions w)) = userToken w.
Proof.
  destruct (dispatch_effect sapClient operation service entityType entityName
              parameters queryOptions w) as [->|(c & -> & _)]; now split.
Qed.

Lemma getEntityMetadata_grown schemaProvider args w :
  catalogGrown w (snd (getEntityMetadata schemaProvider args w)) /\
  userToken (snd (getEntityMetadata schemaProvider args w)) = userToken w.
Proof.
  unfold getEntityMetadata.
  destruct (_ || _); [split; [apply catalogGrown_refl|reflexivity]|].
  destruct (findService (catalogServices w) (marg_serviceId args)) as [service|] eqn:Ef;
    [|split; [apply catalogGrown_refl|reflexivity]].
  pose proof (ensureMetadata_grown schemaProvider _ _ _ Ef) as H.
  destruct (ensureMetadata schemaProvider (marg_serviceId args) service w)
    as [[m|e] w1]; [|exact H].
  now destruct (findEntity m (marg_entityName args)).
Qed.

Lemma executeOperation_grown schemaProvider sapClient args w :
  catalogGrown w (snd (executeOperation schemaProvider sapClient args w)) /\
  userToken (snd (executeOperation schemaProvider sapClient args w)) = userToken w.
Proof.
  rewrite executeOperation_world.
  remember (snd (executeBody schemaProvider sapClient args w)) as w' eqn:Hw'.
  unfold executeBody in Hw'.
  destruct (negb _); [subst w'; split; [apply catalogGrown_refl|reflexivity]|].
  destruct (findService (catalogServices w) (xarg_serviceId args)) as [service|] eqn:Ef;
    [|subst w'; split; [apply catalogGrown_refl|reflexivity]].
  pose proof (ensureMetadata_grown schemaProvider _ _ _ Ef) as [Hg Hu].
  unfold bindAction at 1 in Hw'.
  destruct (ensureMetadata schemaProvider (xarg_serviceId args) service w)
    as [[m|e] w1]; cbn [snd] in Hg, Hu; [|now subst w'].
  destruct (findEntity m (xarg_entityName args)) as [entityType|]; [|now subst w'].
  unfold bindAction at 1, modify in Hw'.
  destruct (dispatch_keeps sapClient (JS.toLowerCase (xarg_operation args)) service
              entityType (xarg_entityName args) (default ∅ (xarg_parameters args))
              (queryOptionsOf args) (refreshClientToken w1)) as [Hc Ht].
  destruct (refreshClientToken_keeps w1) as [Hc1 Ht1].
  rewrite <- Hw' in Hc, Ht.
  split.
  - apply catalogGrown_trans with (w2 := w1); [exact Hg|].
    apply catalogGrown_same. congruence.
  - congruence.
Qed.

Lemma runCall_grown schemaProvider sapClient c w :
  catalogGrown w (runCall schemaProvider sapClient c w) /\
  userToken (runCall schemaProvider sapClient c w) = userToken w.
Proof.
  destruct c as [args|args]; cbn [runCall].
  - apply getEntityMetadata_grown.
  - apply executeOperation_grown.
Qed.

(** X13.  Whatever the calls of a session and whatever upstream answers,
    the catalog keeps its entries, their order and their classification;
    an entry may gain metadata but never loses or changes the metadata it
    has; and the user token is never touched by a tool call. *)
Theorem session_preserves_catalog
    (schemaProvider : nat -> ODataService.t -> Exc ServiceMetadata.t)
    (sapClient : nat -> SapCall -> Exc string)
    (calls : list ToolCall) (w : World) :
  catalogGrown w (runCalls schemaProvider sapClient calls w) /\
  map forgetMetadata (catalogServices (runCalls schemaProvider sapClient calls w))
  = map forgetMetadata (catalogServices w) /\
  userToken (runCalls schemaProvider sapClient calls w) = userToken w.
Proof.
  assert (H : catalogGrown w (runCalls schemaProvider sapClient calls w) /\
              userToken (runCalls schemaProvider sapClient calls w) = userToken w).
  { unfold runCalls. revert w. induction calls as [|c rest IH]; intros w.
    - split; [apply catalogGrown_refl|reflexivity].
    - cbn [fold_left].
      destruct (runCall_grown schemaProvider sapClient c w) as [Hg Hu].
      destruct (IH (runCall schemaProvider sapClient c w)) as [Hg' Hu'].
      split; [now apply catalogGrown_trans with (w2 := runCall schemaProvider sapClient c w)|].
      congruence. }
  destruct H as [Hg Hu]. split; [exact Hg|]. split; [|exact Hu].
  unfold catalogGrown in Hg.
  induction Hg as [|a b l l' [Hf _] _ IH]; [reflexivity|].
  cbn [map]. now rewrite Hf, IH.
Qed.

(** ** Catalog statistics *)

Lemma countStep_lookup (counts : gmap string nat) (s : ODataService.t) (d : string) :
  default 0%nat
    (<[domainKey s := (default 0%nat (counts !! domainKey s) + 1)%nat]> counts !! d)
  = (default 0%nat (counts !! d) + (if inDomain d s then 1 else 0))%nat.
Proof.
  unfold inDomain. destruct (String.eqb_spec (domainKey s) d) as [->|Hne].
  - now rewrite lookup_insert_eq.
  - rewrite lookup_insert_ne by exact Hne. lia.
Qed.

Lemma countFold_lookup (catalog : list ODataService.t) (counts : gmap string nat)
    (d : string) :
  default 0%nat
    (fold_left
       (fun counts service =>
          <[domainKey service :=
              (default 0%nat (counts !! domainKey service) + 1)%nat]> counts)
       catalog counts !! d)
  = (default 0%nat (counts !! d) + length (List.filter (inDomain d) catalog))%nat.
Proof.
  revert counts. induction catalog as [|s rest IH]; intros counts; cbn [fold_left List.filter].
  - cbn [length]. lia.
  - rewrite IH, countStep_lookup. destruct (inDomain d s); cbn [length]; lia.
Qed.

Lemma countFold_positive (catalog : list ODataService.t) (counts : gmap string nat) :
  (forall d n, counts !! d = Some n -> (1 <= n)%nat) ->
  forall d n,
    fold_left
      (fun counts service =>
         <[domainKey service :=
             (default 0%nat (counts !! domainKey service) + 1)%nat]> counts)
      catalog counts !! d = Some n ->
    (1 <= n)%nat.
Proof.
  revert counts. induction catalog as [|s rest IH]; intros counts Hpos d n;
    cbn [fold_left]; [apply Hpos|].
  apply IH. intros d' n'.
  destruct (decide (domainKey s = d')) as [<-|Hne].
  - rewrite lookup_insert_eq. intros [= <-]. lia.
  - rewrite lookup_insert_ne by exact Hne. apply Hpos.
Qed.

Lemma totalCount_step (counts : gmap string nat) (d : string) :
  totalCount (<[d := (default 0%nat (counts !! d) + 1)%nat]> counts)
  = S (totalCount counts).
Proof.
  unfold totalCount.
  assert (Hcomm : forall (j1 j2 : string) (z1 z2 y : nat),
            (z1 + (z2 + y) = z2 + (z1 + y))%nat) by (intros; lia).
  destruct (counts !! d) as [n|] eqn:E; cbn [default].
  - rewrite <- insert_delete_eq.
    rewrite map_fold_insert_L;
      [|intros; cbv beta; apply Hcomm; assumption|apply lookup_delete_eq].
    pose proof (map_fold_delete_L (M := gmap string)
                  (fun (_ : string) (n acc : nat) => (n + acc)%nat) 0%nat d n counts) as H.
    cbv beta in H. rewrite H; [unfold id; lia|intros; apply Hcomm; assumption|exact E].
  - rewrite map_fold_insert_L;
      [unfold id; cbv beta; lia|intros; cbv beta; apply Hcomm; assumption|exact E].
Qed.

Lemma totalCount_fold (catalog : list ODataService.t) (counts : gmap string nat) :
  totalCount
    (fold_left
       (fun counts service =>
          <[domainKey service :=
              (default 0%nat (counts !! domainKey service) + 1)%nat]> counts)
       catalog counts)
  = (totalCount counts + length catalog)%nat.
Proof.
  revert counts. induction catalog as [|s rest IH]; intros counts; cbn [fold_left length].
  - lia.
  - rewrite IH, totalCount_step. lia.
Qed.

Lemma discoverCatalog_domainKey services s :
  In s (discoverCatalog services) ->
  domainKey s = "unclassified" \/ In (domainKey s) getConfiguredDomains.
Proof.
  unfold discoverCatalog. intros H. apply filter_In in H. destruct H as [H _].
  apply in_map_iff in H. destruct H as (raw & <- & _).
  unfold domainKey, tagService. cbn [ODataService.domain].
  destruct (cl_domain (classifyService (ODataService.id raw) (ODataService.title raw)))
    as [d|] eqn:E; [|now left].
  apply classifyOver_domain in E. destruct E as (config & Hin & <- & _).
  right. unfold getConfiguredDomains.
  assert (Hname : In (name config) (map name DOMAIN_CONFIGS)) by now apply in_map.
  cbn in Hname |- *.
  destruct Hname as [<-|[<-|[<-|[]]]]; cbn; tauto.
Qed.

(** X14.  The statistics by domain are exact: the object holds, for each
    domain that occurs, the number of catalog entries of that domain (one
    at least), nothing for the others, and the counts add up to the size
    of the catalog; for a discovered catalog the only keys are the
    configured domains and [unclassified]. *)
Theorem domain_counts_are_exact (catalog : list ODataService.t) :
  (forall d,
     getServicesByDomain catalog !! d
     = match length (List.filter (inDomain d) catalog) with
       | O => None
       | n => Some n
       end) /\
  totalCount (getServicesByDomain catalog) = length catalog /\
  (forall services d n,
     catalog = discoverCatalog services ->
     getServicesByDomain catalog !! d = Some n ->
     d = "unclassified" \/ In d getConfiguredDomains).
Proof.
  assert (Hlookup : forall d,
    getServicesByDomain catalog !! d
    = match length (List.filter (inDomain d) catalog) with
      | O => None
      | n => Some n
      end).
  { intros d. unfold getServicesByDomain.
    pose proof (countFold_lookup catalog ∅ d) as Hc.
    pose proof (countFold_positive catalog ∅) as Hp.
    rewrite lookup_empty in Hc. cbn [default] in Hc.
    destruct (fold_left _ catalog ∅ !! d) as [n|] eqn:E.
    - cbn [default Nat.add] in Hc. rewrite <- Hc.
      assert (1 <= n)%nat.
      { apply (Hp ltac:(intros d' n'; rewrite lookup_empty; discriminate) d n E). }
      destruct n; [lia|reflexivity].
    - cbn [default Nat.add] in Hc. now rewrite <- Hc. }
  split; [exact Hlookup|]. split.
  - unfold getServicesByDomain. rewrite totalCount_fold.
    unfold totalCount. now rewrite map_fold_empty.
  - intros services d n -> Hd. rewrite Hlookup in Hd.
    destruct (List.filter (inDomain d) (discoverCatalog services)) as [|s rest] eqn:E;
      [discriminate|].
    assert (Hs : In s (List.filter (inDomain d) (discoverCatalog services)))
      by (rewrite E; now left).
    apply filter_In in Hs. destruct Hs as [Hin Hdom].
    unfold inDomain in Hdom. apply String.eqb_eq in Hdom. subst d.
    now apply discoverCatalog_domainKey with (services := services).
Qed.

Lemma domain_counts_are_exact_witness :
  getServicesByDomain sampleCatalog !! "AR" = Some 2%nat /\
  ("AR" = "unclassified" \/ In "AR" getConfiguredDomains).
Proof.
  split; [vm_compute; reflexivity|].
  refine (proj2 (proj2 (domain_counts_are_exact sampleCatalog)) _ "AR" 2%nat eq_refl _).
  vm_compute. reflexivity.
Defined.

(** ** The metadata resource and Level 2 *)

Lemma find_by_name_In (entityTypes : list EntityType.t) (n : string) (e : EntityType.t) :
  find (fun e => String.eqb (EntityType.name e) n) entityTypes = Some e ->
  In e entityTypes.
Proof. intros H. now apply find_some in H. Qed.

(** X15.  The metadata resource and the inspect tool agree and share the
    loaded schema: after the resource was read, every entity it lists (with
    a name, and names being distinct) is inspected without any fetch or
    other change of state, and the schema returned has the keys, the
    property count and the capabilities the resource listed. *)
Theorem resource_agrees_with_inspect
    (schemaProvider : nat -> ODataService.t -> Exc ServiceMetadata.t)
    (serviceId : string) (w w1 : World) (r : ServiceResource) (summary : EntitySummary) :
  readServiceMetadata schemaProvider serviceId w = (Ok r, w1) ->
  List.NoDup (map sum_name (res_entities r)) ->
  In summary (res_entities r) ->
  serviceId <> EmptyString ->
  sum_name summary <> EmptyString ->
  exists schema,
    getEntityMetadata schemaProvider
      {| marg_serviceId := serviceId; marg_entityName := sum_name summary |} w1
    = (Content schema, w1) /\
    schema_serviceId schema = res_id r /\
    schema_name schema = sum_name summary /\
    schema_entitySet schema = sum_entitySet summary /\
    schema_keyProperties schema = sum_keys summary /\
    schema_propertyCount schema = sum_propertyCount summary /\
    schema_creatable schema = sum_creatable summary /\
    schema_updatable schema = sum_updatable summary /\
    schema_deletable schema = sum_deletable summary.
Proof.
  unfold readServiceMetadata. intros Hread Hnodup Hin Hsid Hname.
  destruct (findService (catalogServices w) serviceId) as [service|] eqn:Ef;
    [|discriminate].
  unfold bindAction, ret in Hread.
  destruct (ensureMetadata schemaProvider serviceId service w) as [[m|e] w'] eqn:Ee;
    [|discriminate].
  injection Hread as <- <-. cbn [res_entities res_id] in *.
  destruct (ensureMetadata_loaded _ _ _ _ _ _ Ef Ee) as (s1 & Hf1 & Hm1 & Hforget).
  apply in_map_iff in Hin. destruct Hin as (e0 & <- & He0).
  assert (Hn : In (EntityType.name e0)
                  (map EntityType.name (ServiceMetadata.entityTypes m)))
    by now apply in_map.
  destruct (find_by_name _ _ Hn) as (e1 & Hfind & Hsame).
  assert (He1 : e1 = e0).
  { apply (NoDup_map_agree (fun e => sum_name (summariseEntity e))
             (ServiceMetadata.entityTypes m)).
    - now rewrite map_map in Hnodup.
    - now apply find_by_name_In in Hfind.
    - exact He0.
    - exact Hsame. }
  subst e1.
  exists (describeEntity s1 e0). split.
  - unfold getEntityMetadata. cbn [marg_serviceId marg_entityName].
    apply truthy_nonempty in Hsid. apply truthy_nonempty in Hname.
    cbn [summariseEntity sum_name] in Hname. cbn [summariseEntity sum_name].
    rewrite Hsid, Hname. cbn [negb orb].
    rewrite Hf1, (ensureMetadata_at_hand _ _ _ _ _ Hm1).
    unfold findEntity. now rewrite Hfind.
  - cbn. repeat split.
    change (ODataService.id (forgetMetadata s1) = ODataService.id (forgetMetadata service)).
    now rewrite Hforget.
Qed.

Lemma resource_agrees_with_inspect_witness :
  exists schema,
    getEntityMetadata schemaUp (inspectArgs "ZFAR_CUSTOMER_LINE_ITEMS_0001" "Item")
      (snd (readServiceMetadata schemaUp "ZFAR_CUSTOMER_LINE_ITEMS_0001" freshWorld))
    = (Content schema,
       snd (readServiceMetadata schemaUp "ZFAR_CUSTOMER_LINE_ITEMS_0001" freshWorld)) /\
    schema_keyProperties schema = ["CompanyCode"; "Document"; "Line"].
Proof.
  destruct (resource_agrees_with_inspect schemaUp "ZFAR_CUSTOMER_LINE_ITEMS_0001"
              freshWorld
              (snd (readServiceMetadata schemaUp "ZFAR_CUSTOMER_LINE_ITEMS_0001"
                      freshWorld))
              {| res_id := "ZFAR_CUSTOMER_LINE_ITEMS_0001";
                 res_title := "Customer Line Items";
                 res_domain := Some "AR";
                 res_tier := Some 1%Z;
                 res_entities := map summariseEntity [customerEntity; itemEntity] |}
              (summariseEntity itemEntity))
    as (schema & Hrun & _ & _ & _ & Hkeys & _).
  - vm_compute. reflexivity.
  - cbn. repeat (constructor; [cbn; intuition discriminate|]). constructor.
  - cbn. right. left. reflexivity.
  - discriminate.
  - discriminate.
  - exists schema. split; [exact Hrun|exact Hkeys].
Defined.

(** ** Semantic search *)



Lemma scoreEntries_sound sqrt queryVector entries minScore scored :
  Embedding.scoreEntries sqrt queryVector entries minScore = Ok scored ->
  forall r, In r scored ->
    (minScore <= result_score r)%Q /\
    exists key item,
      In (key, item) entries /\
      entry_serviceId item = metadata_serviceId r /\
      Embedding.cosineSimilarity sqrt queryVector (vector item) = Ok (result_score r).
Proof.
  revert scored. induction entries as [|[key item] rest IH]; intros scored;
    cbn [Embedding.scoreEntries].
  - intros [= <-] r [].
  - unfold bindExc.
    destruct (Embedding.cosineSimilarity sqrt queryVector (vector item))
      as [score|e] eqn:Ec; [|discriminate].
    destruct (Embedding.scoreEntries sqrt queryVector rest minScore)
      as [tail|e] eqn:Et; [|discriminate].
    intros [= <-] r Hr.
    assert (Htail : In r tail ->
              (minScore <= result_score r)%Q /\
              exists key0 item0,
                In (key0, item0) ((key, item) :: rest) /\
                entry_serviceId item0 = metadata_serviceId r /\
                Embedding.cosineSimilarity sqrt queryVector (vector item0)
                = Ok (result_score r)).
    { intros H. destruct (IH tail eq_refl r H) as (Hm & k & i & Hin & Hs & Hc).
      split; [exact Hm|]. exists k, i. split; [now right|now split]. }
    destruct (Qle_bool minScore score) eqn:Eq; [|now apply Htail].
    destruct Hr as [<-|Hr]; [|now apply Htail].
    split; [now apply Qle_bool_iff|].
    exists key, item. split; [now left|]. now split.
Qed.


(** What a search that answers returns. *)
Lemma semantic_search_top embedder sqrt query topK minScore st st' found :
  Embedding.searchServices embedder sqrt query topK minScore st = (Ok found, st') ->
  (length found <= topK)%nat /\
  (forall r, In r found ->
     (minScore <= result_score r)%Q /\
     exists key item,
       In (key, item) (st_embeddings st) /\
       entry_serviceId item = metadata_serviceId r).
Proof.
  unfold Embedding.searchServices.
  destruct (st_initialized st) eqn:Ei; cbn [negb]; [|discriminate].
  destruct (length (st_embeddings st) =? 0)%nat eqn:El.
  { intros [= <- <-]. split; [cbn; lia|intros r []]. }
  unfold Embedding.embed. rewrite Ei. cbn [negb].
  destruct (embedder (st_calls st) query) as [queryVector|e] eqn:Eq; [|discriminate].
  cbn [st_embeddings]. unfold bindExc.
  destruct (Embedding.scoreEntries sqrt queryVector (st_embeddings st) minScore)
    as [scored|e] eqn:Es; [|discriminate].
  intros [= <- <-]. fold byScore.
  split; [rewrite length_firstn; lia|].
  intros r Hr. apply In_firstn_In in Hr. apply -> (sortBy_In byScore) in Hr.
  destruct (scoreEntries_sound _ _ _ _ _ Es r Hr) as (Hm & key & item & Hin & Hs & _).
  split; [exact Hm|]. now exists key, item.
Qed.



(** ** Discovery over the indexed embeddings *)

Lemma semanticMatches_result services semanticResults x :
  In x (semanticMatches services semanticResults) ->
  exists r, In r semanticResults /\
            score x = result_score r /\
            ODataService.id (service x) = metadata_serviceId r.
Proof.
  induction semanticResults as [|r rest IH]; cbn [semanticMatches]; [intros []|].
  destruct (find _ services) as [s|] eqn:E.
  - intros [<-|H].
    + exists r. split; [now left|]. split; [reflexivity|].
      apply find_some in E. cbn [service]. now apply String.eqb_eq.
    + destruct (IH H) as (r' & Hin & Hs). exists r'. split; [now right|exact Hs].
  - intros H. destruct (IH H) as (r' & Hin & Hs). exists r'. split; [now right|exact Hs].
Qed.

Lemma semanticMatches_length services semanticResults :
  (length (semanticMatches services semanticResults) <= length semanticResults)%nat.
Proof.
  induction semanticResults as [|r rest IH]; cbn [semanticMatches length]; [lia|].
  destruct (find _ services); cbn [length]; lia.
Qed.

(** The label [semantic] is only given to candidates that the semantic
    stage produced. *)
Lemma collectCandidates_semantic embeddingService services query limit :
  fst (collectCandidates embeddingService services query limit) = "semantic" ->
  exists embedding semanticResults,
    embeddingService = Some embedding /\
    isReady embedding = true /\
    JS.truthy query = true /\
    searchServices embedding query (limit * 2) (1 # 4) = Ok semanticResults /\
    snd (collectCandidates embeddingService services query limit)
    = semanticMatches services semanticResults.
Proof.
  unfold collectCandidates, fallbackStage, lexicalStage.
  destruct (JS.truthy query) eqn:Eq; [|cbn; discriminate].
  destruct embeddingService as [embedding|]; [|cbn; destruct (patternSearch _ _); discriminate].
  destruct (isReady embedding) eqn:Er;
    [|cbn; destruct (patternSearch _ _); discriminate].
  unfold semanticStage, tryCatch, bindExc.
  destruct (searchServices embedding query (limit * 2) (1 # 4))
    as [[|r rs]|err] eqn:Es;
    [cbn; destruct (patternSearch _ _); discriminate
    | |cbn; destruct (patternSearch _ _); discriminate].
  cbn [snd fst].
  destruct (semanticMatches services (r :: rs)) as [|x xs] eqn:Em.
  - cbn [snd]. destruct (patternSearch _ _); cbn; discriminate.
  - cbn [snd fst]. intros _. exists embedding, (r :: rs). now repeat split.
Qed.

(** X17.  With the embedding service of the code behind it, a discovery
    that reports the method [semantic] ranks candidates that all scored at
    least 0.25 against the query, are services of the catalog, were indexed
    under their service id, and number at most twice the limit. *)
Theorem semantic_discovery_is_thresholded
    (embedder : nat -> string -> Exc (list Q)) (sqrt : Q -> Q)
    (st : EmbeddingState) (catalog : list ODataService.t) (args : DiscoverArgs) :
  fst (rankedCandidates catalog (Some (embeddingServiceAt embedder sqrt st)) args)
  = "semantic" ->
  Embedding.isReady st = true /\
  (length (snd (rankedCandidates catalog
                  (Some (embeddingServiceAt embedder sqrt st)) args))
   <= limitOf args * 2)%nat /\
  (forall x,
     In x (snd (rankedCandidates catalog
                  (Some (embeddingServiceAt embedder sqrt st)) args)) ->
     ((1 # 4) <= score x)%Q /\
     In (service x) catalog /\
     exists key item,
       In (key, item) (st_embeddings st) /\
       entry_serviceId item = ODataService.id (service x)).
Proof.
  unfold rankedCandidates.
  destruct (collectCandidates _ _ _ _) as [method scored] eqn:E.
  cbn [fst snd]. intros ->.
  destruct (collectCandidates_semantic
              (Some (embeddingServiceAt embedder sqrt st))
              (filterByDomain catalog (domainFilterOf args)) (queryOf args)
              (limitOf args)) as (embedding & found & [= <-] & Hready & _ & Hsearch & Hc).
  { now rewrite E. }
  rewrite E in Hc. cbn [snd] in Hc. subst scored.
  cbn [embeddingServiceAt isReady searchServices] in Hready, Hsearch.
  destruct (Embedding.searchServices embedder sqrt (queryOf args) (limitOf args * 2)
              (1 # 4) st) as [outcome st'] eqn:Erun.
  cbn [fst] in Hsearch. subst outcome.
  destruct (semantic_search_top embedder sqrt _ _ _ _ _ _ Erun) as (Hlen & Hmembers).
  split; [exact Hready|]. split.
  - rewrite sortBy_length. pose proof (semanticMatches_length
      (filterByDomain catalog (domainFilterOf args)) found). lia.
  - intros x Hx. apply -> (sortBy_In compareScored) in Hx.
    pose proof (semanticMatches_service _ _ _ Hx) as Hs.
    apply filterByDomain_In in Hs.
    destruct (semanticMatches_result _ _ _ Hx) as (r & Hr & Hscore & Hid).
    destruct (Hmembers r Hr) as (Hmin & key & item & Hin & Hsid).
    split; [now rewrite Hscore|]. split; [exact Hs|].
    exists key, item. split; [exact Hin|congruence].
Qed.

Lemma semantic_discovery_is_thresholded_witness :
  Embedding.isReady indexedState = true /\
  (length (snd (rankedCandidates sampleCatalog
                  (Some (embeddingServiceAt unitEmbedder squareRoot indexedState))
                  (searchArgs (Some "open items") None None)))
   <= 40)%nat.
Proof.
  destruct (semantic_discovery_is_thresholded unitEmbedder squareRoot indexedState
              sampleCatalog (searchArgs (Some "open items") None None))
    as (Hready & Hlength & _).
  - vm_compute. reflexivity.
  - split; [exact Hready|exact Hlength].
Defined.

(** ** Indexing *)

Lemma mapSet_In key value (m : Embeddings) k v :
  In (k, v) (mapSet key value m) -> (k = key /\ v = value) \/ In (k, v) m.
Proof.
  induction m as [|[k0 v0] rest IH]; cbn [mapSet].
  - intros [[= <- <-]|[]]. now left.
  - destruct (String.eqb_spec k0 key) as [->|Hne].
    + intros [[= <- <-]|H]; [now left|right; now right].
    + intros [[= <- <-]|H]; [right; now left|].
      destruct (IH H) as [Hnew|Hold]; [now left|right; now right].
Qed.

Lemma mapSet_keys key value (m : Embeddings) :
  map fst (mapSet key value m)
  = if existsb (String.eqb key) (map fst m) then map fst m else map fst m ++ [key].
Proof.
  induction m as [|[k0 v0] rest IH]; cbn [mapSet map fst existsb]; [reflexivity|].
  rewrite (String.eqb_sym key k0).
  destruct (String.eqb k0 key); cbn [orb map fst]; [reflexivity|].
  rewrite IH. now destruct (existsb _ _).
Qed.

Lemma existsb_eqb_In (key : string) (keys : list string) :
  existsb (String.eqb key) keys = true <-> In key keys.
Proof.
  rewrite existsb_exists. split.
  - intros (x & Hx & Heq). apply String.eqb_eq in Heq. now subst.
  - intros H. exists key. split; [exact H|apply String.eqb_refl].
Qed.

Lemma NoDup_snoc {A : Type} (l : list A) (x : A) :
  List.NoDup l -> ~ In x l -> List.NoDup (l ++ [x]).
Proof.
  induction l as [|y l IH]; cbn [app]; intros Hnd Hx.
  - constructor; [intros []|constructor].
  - inversion Hnd as [|? ? Hy Hl]; subst. constructor.
    + intros Hin. apply in_app_or in Hin. destruct Hin as [Hin|[<-|[]]].
      * contradiction.
      * apply Hx. now left.
    + apply IH; [exact Hl|]. intros Hin. apply Hx. now right.
Qed.

Lemma mapSet_NoDup key value (m : Embeddings) :
  List.NoDup (map fst m) -> List.NoDup (map fst (mapSet key value m)).
Proof.
  intros H. rewrite mapSet_keys.
  destruct (existsb (String.eqb key) (map fst m)) eqn:E; [exact H|].
  apply NoDup_snoc; [exact H|].
  intros Hin. apply existsb_eqb_In in Hin. congruence.
Qed.

Lemma mapSet_has_key key value (m : Embeddings) : In key (map fst (mapSet key value m)).
Proof.
  rewrite mapSet_keys. destruct (existsb (String.eqb key) (map fst m)) eqn:E.
  - now apply existsb_eqb_In.
  - apply in_or_app. right. now left.
Qed.

Lemma mapSet_keeps_keys key value (m : Embeddings) k :
  In k (map fst m) -> In k (map fst (mapSet key value m)).
Proof.
  intros H. rewrite mapSet_keys. destruct (existsb _ _); [exact H|].
  apply in_or_app. now left.
Qed.

Lemma mapSet_length key value (m : Embeddings) :
  (length (mapSet key value m) <= S (length m))%nat /\
  (~ In key (map fst m) -> length (mapSet key value m) = S (length m)).
Proof.
  rewrite <- !(length_map fst), mapSet_keys.
  destruct (existsb (String.eqb key) (map fst m)) eqn:E.
  - split; [lia|]. intros H. exfalso. apply H. now apply existsb_eqb_In.
  - rewrite List.length_app. cbn [length]. split; [lia|]. intros _. lia.
Qed.

Lemma embedAndStore_cases embedder key serviceId doc st :
  st_initialized (Embedding.embedAndStore embedder key serviceId doc st)
  = st_initialized st /\
  (st_embeddings (Embedding.embedAndStore embedder key serviceId doc st)
   = st_embeddings st \/
   exists v,
     st_embeddings (Embedding.embedAndStore embedder key serviceId doc st)
     = mapSet key {| vector := v; entry_serviceId := serviceId |} (st_embeddings st)) /\
  (st_initialized st = true -> alwaysEmbeds embedder ->
   exists v,
     st_embeddings (Embedding.embedAndStore embedder key serviceId doc st)
     = mapSet key {| vector := v; entry_serviceId := serviceId |} (st_embeddings st)).
Proof.
  unfold Embedding.embedAndStore, Embedding.embed.
  destruct (st_initialized st) eqn:Ei; cbn [negb].
  - destruct (embedder (st_calls st) doc) as [v|e] eqn:Ee.
    + cbn. split; [reflexivity|]. split; [right; now exists v|]. intros _ _. now exists v.
    + cbn. split; [now rewrite ?Ei|]. split; [now left|].
      intros _ Hall. destruct (Hall (st_calls st) doc) as [v Hv]. congruence.
  - split; [exact Ei|]. split; [now left|]. discriminate.
Qed.

(** What an indexing loop leaves in the store. *)
Lemma storeAll_entries embedder items st :
  st_initialized (storeAll embedder items st) = st_initialized st /\
  (List.NoDup (map fst (st_embeddings st)) ->
   List.NoDup (map fst (st_embeddings (storeAll embedder items st)))) /\
  (forall key entry,
     In (key, entry) (st_embeddings (storeAll embedder items st)) ->
     In (key, entry) (st_embeddings st) \/
     exists doc, In (key, entry_serviceId entry, doc) items) /\
  (length (st_embeddings (storeAll embedder items st))
   <= length (st_embeddings st) + length items)%nat /\
  (forall k, In k (map fst (st_embeddings st)) ->
             In k (map fst (st_embeddings (storeAll embedder items st)))).
Proof.
  unfold storeAll. revert st.
  induction items as [|[[key serviceId] doc] rest IH]; intros st; cbn [fold_left].
  { repeat split; auto. cbn [length]. lia. }
  destruct (embedAndStore_cases embedder key serviceId doc st) as (Hi & Hstep & _).
  destruct (IH (Embedding.embedAndStore embedder key serviceId doc st))
    as (IHi & IHnd & IHin & IHlen & IHkeys).
  split; [congruence|].
  split; [|split; [|split]].
  - intros Hnd. apply IHnd.
    destruct Hstep as [->|[v ->]]; [exact Hnd|now apply mapSet_NoDup].
  - intros k entry Hin. destruct (IHin k entry Hin) as [Hold|[d Hd]].
    + destruct Hstep as [Hs|[v Hs]]; rewrite Hs in Hold; [now left|].
      apply mapSet_In in Hold. destruct Hold as [[-> ->]|Hold]; [|now left].
      right. exists doc. now left.
    + right. exists d. now right.
  - cbn [length].
    destruct Hstep as [Hs|[v Hs]]; rewrite Hs in IHlen; [lia|].
    pose proof (proj1 (mapSet_length key {| vector := v; entry_serviceId := serviceId |}
                         (st_embeddings st))). lia.
  - intros k Hk. apply IHkeys.
    destruct Hstep as [->|[v ->]]; [exact Hk|now apply mapSet_keeps_keys].
Qed.

(** With a model that answers, nothing is left out. *)
Lemma storeAll_complete embedder items st :
  st_initialized st = true ->
  alwaysEmbeds embedder ->
  (forall item, In item items ->
     In (itemKey item) (map fst (st_embeddings (storeAll embedder items st)))) /\
  (List.NoDup (map fst (st_embeddings st) ++ map itemKey items) ->
   length (st_embeddings (storeAll embedder items st))
   = (length (st_embeddings st) + length items)%nat).
Proof.
  intros Hinit Hall. unfold storeAll. revert st Hinit.
  induction items as [|[[key serviceId] doc] rest IH]; intros st Hinit; cbn [fold_left].
  { split; [intros item []|]. intros _. cbn [length]. lia. }
  destruct (embedAndStore_cases embedder key serviceId doc st) as (Hi & _ & Hdone).
  destruct (Hdone Hinit Hall) as [v Hv].
  assert (Hinit' : st_initialized (Embedding.embedAndStore embedder key serviceId doc st)
                   = true) by congruence.
  destruct (IH _ Hinit') as (IHin & IHlen).
  split.
  - intros item [<-|Hitem]; [|now apply IHin].
    apply (storeAll_entries embedder rest). rewrite Hv. apply mapSet_has_key.
  - intros Hnd. cbn [map itemKey fst length] in *.
    assert (Hfresh : ~ In key (map fst (st_embeddings st))).
    { intros Hk. apply NoDup_remove_2 in Hnd. apply Hnd.
      apply in_or_app. now left. }
    rewrite IHlen.
    + rewrite Hv.
      rewrite (proj2 (mapSet_length key {| vector := v; entry_serviceId := serviceId |}
                        (st_embeddings st)) Hfresh). lia.
    + rewrite Hv, mapSet_keys.
      destruct (existsb (String.eqb key) (map fst (st_embeddings st))) eqn:E.
      { exfalso. apply Hfresh. now apply existsb_eqb_In. }
      rewrite <- List.app_assoc. cbn [app].
      exact Hnd.
Qed.

Lemma indexServicesWithHints_storeAll pipeline embedder services getHint st0 st :
  Embedding.indexServicesWithHints pipeline embedder services getHint st0 = (Ok tt, st) ->
  exists st1,
    st_initialized st1 = true /\
    st_embeddings st1 = st_embeddings st0 /\
    st = storeAll embedder (serviceItems getHint services) st1.
Proof.
  unfold Embedding.indexServicesWithHints.
  destruct (Embedding.initialize pipeline st0) as [[u|e] st1] eqn:Ei; [|discriminate].
  intros [= <-]. exists st1.
  assert (Hst1 : st_initialized st1 = true /\ st_embeddings st1 = st_embeddings st0).
  { unfold Embedding.initialize in Ei.
    destruct (st_initialized st0) eqn:E0.
    - injection Ei as _ <-. now split.
    - destruct pipeline; [|discriminate]. injection Ei as _ <-. now split. }
  destruct Hst1 as [H1 H2]. split; [exact H1|]. split; [exact H2|].
  unfold storeAll, serviceItems. generalize st1.
  induction services as [|s rest IH]; intros acc; cbn [fold_left map]; [reflexivity|].
  apply IH.
Qed.

Lemma startup_index_entries pipeline embedder services getHint st0 st :
  st_embeddings st0 = [] ->
  Embedding.indexServicesWithHints pipeline embedder services getHint st0 = (Ok tt, st) ->
  forall key entry,
    In (key, entry) (st_embeddings st) ->
    entry_serviceId entry = key /\
    exists s, In s services /\ ODataService.id s = key.
Proof.
  intros Hempty Hindex key entry Hin.
  destruct (indexServicesWithHints_storeAll _ _ _ _ _ _ Hindex) as (st1 & _ & He & ->).
  destruct (storeAll_entries embedder (serviceItems getHint services) st1)
    as (_ & _ & Hentries & _).
  destruct (Hentries key entry Hin) as [Hold|[doc Hitem]].
  - rewrite He, Hempty in Hold. destruct Hold.
  - unfold serviceItems in Hitem. apply in_map_iff in Hitem.
    destruct Hitem as (s & [= <- Hsid _] & Hs).
    split; [now rewrite Hsid|]. now exists s.
Qed.

(** X18.  The index that start-up builds from an empty store is keyed by
    service id: the model is loaded, keys are distinct, every entry
    belongs to a service of the catalog and carries that service's id, and
    there are at most as many entries as services; when the model answers
    every text, every service of the catalog is indexed. *)
Theorem startup_index_is_keyed_by_service
    (pipeline : Exc unit) (embedder : nat -> string -> Exc (list Q))
    (services : list ODataService.t) (getHint : string -> option ServiceHint)
    (st0 st : EmbeddingState) :
  st_embeddings st0 = [] ->
  Embedding.indexServicesWithHints pipeline embedder services getHint st0 = (Ok tt, st) ->
  st_initialized st = true /\
  List.NoDup (map fst (st_embeddings st)) /\
  (forall key entry,
     In (key, entry) (st_embeddings st) ->
     entry_serviceId entry = key /\
     exists s, In s services /\ ODataService.id s = key) /\
  (length (st_embeddings st) <= length services)%nat /\
  (alwaysEmbeds embedder ->
   forall s, In s services -> In (ODataService.id s) (map fst (st_embeddings st))).
Proof.
  intros Hempty Hindex.
  pose proof (startup_index_entries _ _ _ _ _ _ Hempty Hindex) as Hentries.
  destruct (indexServicesWithHints_storeAll _ _ _ _ _ _ Hindex) as (st1 & Hinit & He & ->).
  destruct (storeAll_entries embedder (serviceItems getHint services) st1)
    as (Hi & Hnd & _ & Hlen & _).
  split; [congruence|]. split.
  { apply Hnd. rewrite He, Hempty. constructor. }
  split; [exact Hentries|]. split.
  { rewrite He, Hempty in Hlen. cbn [length] in Hlen.
    assert (Hitems : length (serviceItems getHint services) = length services)
      by (unfold serviceItems; apply length_map).
    lia. }
  intros Hall s Hs.
  destruct (storeAll_complete embedder (serviceItems getHint services) st1 Hinit Hall)
    as [Hkeys _].
  apply (Hkeys (ODataService.id s, ODataService.id s,
                buildServiceDocument s (getHint (ODataService.id s)))).
  unfold serviceItems. apply in_map_iff. now exists s.
Qed.

Lemma startup_index_is_keyed_by_service_witness :
  map fst (st_embeddings
             (snd (Embedding.indexServicesWithHints (Ok tt) unitEmbedder sampleCatalog
                     getServiceHint freshState)))
  = map ODataService.id sampleCatalog /\
  List.NoDup (map fst (st_embeddings
             (snd (Embedding.indexServicesWithHints (Ok tt) unitEmbedder sampleCatalog
                     getServiceHint freshState)))).
Proof.
  split; [vm_compute; reflexivity|].
  refine (proj1 (proj2 (startup_index_is_keyed_by_service (Ok tt) unitEmbedder
                          sampleCatalog getServiceHint freshState _ _ _))).
  - reflexivity.
  - vm_compute. reflexivity.
Defined.

Lemma semanticMatches_all services semanticResults :
  (forall r, In r semanticResults ->
     exists s, In s services /\ ODataService.id s = metadata_serviceId r) ->
  length (semanticMatches services semanticResults) = length semanticResults.
Proof.
  induction semanticResults as [|r rest IH]; intros H; cbn [semanticMatches length];
    [reflexivity|].
  destruct (H r (or_introl eq_refl)) as (s & Hs & Hid).
  destruct (find _ services) as [s'|] eqn:E.
  - cbn [length]. f_equal. apply IH. intros r' Hr'. apply H. now right.
  - exfalso. apply (find_none _ _ E) in Hs. apply String.eqb_neq in Hs. contradiction.
Qed.

(** X19.  Start-up indexing and semantic search fit together: after the
    index was built from the catalog, every result of a semantic search
    names a service of the catalog, so the conversion of semantic results
    into candidates over the whole catalog drops none of them. *)
Theorem startup_results_name_catalog_services
    (pipeline : Exc unit) (embedder : nat -> string -> Exc (list Q)) (sqrt : Q -> Q)
    (catalog : list ODataService.t) (getHint : string -> option ServiceHint)
    (st0 st st' : EmbeddingState)
    (query : string) (topK : nat) (minScore : Q) (found : list SearchResult) :
  st_embeddings st0 = [] ->
  Embedding.indexServicesWithHints pipeline embedder catalog getHint st0 = (Ok tt, st) ->
  Embedding.searchServices embedder sqrt query topK minScore st = (Ok found, st') ->
  (forall r, In r found ->
     exists s, In s catalog /\ ODataService.id s = metadata_serviceId r) /\
  length (semanticMatches catalog found) = length found.
Proof.
  intros Hempty Hindex Hsearch.
  assert (Hall : forall r, In r found ->
            exists s, In s catalog /\ ODataService.id s = metadata_serviceId r).
  { intros r Hr.
    destruct (semantic_search_top _ _ _ _ _ _ _ _ Hsearch) as [_ Hmembers].
    destruct (Hmembers r Hr) as (_ & key & entry & Hin & Hsid).
    destruct (startup_index_entries _ _ _ _ _ _ Hempty Hindex key entry Hin)
      as (Hkey & s & Hs & Hid).
    exists s. split; [exact Hs|congruence]. }
  split; [exact Hall|now apply semanticMatches_all].
Qed.

Lemma startup_results_name_catalog_services_witness :
  length (semanticMatches sampleCatalog
            [ {| metadata_serviceId := "ZMATERIAL_SRV"; result_score := 1 / (1 * 1) |};
              {| metadata_serviceId := "ZFAR_BALANCES_V2_SRV_0001";
                 result_score := 1 / (1 * 1) |} ])
  = 2%nat.
Proof.
  refine (proj2 (startup_results_name_catalog_services (Ok tt) unitEmbedder squareRoot
                   sampleCatalog getServiceHint freshState
                   (snd (Embedding.indexServicesWithHints (Ok tt) unitEmbedder
                           sampleCatalog getServiceHint freshState))
                   (snd (Embedding.searchServices unitEmbedder squareRoot "balances" 2
                           (1 # 4)
                           (snd (Embedding.indexServicesWithHints (Ok tt) unitEmbedder
                                   sampleCatalog getServiceHint freshState))))
                   "balances" 2 (1 # 4) _ _ _ _)).
  - reflexivity.
  - vm_compute. reflexivity.
  - vm_compute. reflexivity.
Defined.

Lemma storeAll_app embedder items1 items2 st :
  storeAll embedder (items1 ++ items2) st
  = storeAll embedder items2 (storeAll embedder items1 st).
Proof. unfold storeAll. apply fold_left_app. Qed.

Lemma embedEntities_storeAll embedder services st :
  Embedding.embedEntities embedder services st
  = storeAll embedder (entityItems services) st.
Proof.
  unfold Embedding.embedEntities. revert st.
  induction services as [|s rest IH]; intros st; [reflexivity|].
  cbn [fold_left entityItems flat_map]. rewrite storeAll_app, IH. f_equal.
  generalize (entityTypesOf s) st. clear.
  intros entities. induction entities as [|e more IH]; intros st; [reflexivity|].
  cbn [fold_left List.filter].
  destruct (shouldSkipEntity (EntityType.name e)); cbn [negb]; [apply IH|].
  cbn [map]. unfold storeAll. cbn [fold_left]. apply IH.
Qed.

Lemma expectedCountOf_items services :
  expectedCountOf services = Z.of_nat (length (entityItems services)).
Proof.
  unfold expectedCountOf.
  assert (H : forall start,
    fold_left
      (fun sum s =>
         (sum + Z.of_nat
                  (length (List.filter
                             (fun e => negb (shouldSkipEntity (EntityType.name e)))
                             (entityTypesOf s))))%Z)
      services start
    = (start + Z.of_nat (length (entityItems services)))%Z).
  { induction services as [|s rest IH]; intros start; cbn [fold_left entityItems flat_map].
    - cbn [length]. lia.
    - rewrite IH. rewrite List.length_app, length_map.
      unfold entityItems. lia. }
  rewrite H. lia.
Qed.

Lemma entityItems_keys services : map itemKey (entityItems services) = embeddingIds services.
Proof.
  unfold entityItems, embeddingIds.
  induction services as [|s rest IH]; [reflexivity|].
  cbn [flat_map]. rewrite List.map_app, IH. f_equal.
  rewrite map_map. reflexivity.
Qed.

(** X20.  A snapshot saved after the entities of a catalog were embedded
    into an empty store never counts more entries than the catalog has
    business entities, is accepted when the same catalog is indexed again
    as long as the entries that are missing stay within the tolerance, and
    misses none when the model is loaded, answers every text and the
    embedding keys are distinct. *)
Theorem fresh_index_snapshot_is_accepted
    (embedder : nat -> string -> Exc (list Q))
    (services : list ODataService.t) (st0 : EmbeddingState) (now : Z)
    (held : gmap string EmbeddingEntry) :
  st_embeddings st0 = [] ->
  (cache_entityCount (saveCache now (Embedding.embedEntities embedder services st0))
   <= expectedCountOf services)%Z /\
  ((expectedCountOf services
    - cache_entityCount (saveCache now (Embedding.embedEntities embedder services st0))
    <= Z.max 10 (expectedCountOf services / 20))%Z ->
   loadCache (Some (Ok (saveCache now (Embedding.embedEntities embedder services st0))))
             (Some services) held
   = (true,
      list_to_map (st_embeddings (Embedding.embedEntities embedder services st0)))) /\
  (st_initialized st0 = true ->
   alwaysEmbeds embedder ->
   List.NoDup (embeddingIds services) ->
   cache_entityCount (saveCache now (Embedding.embedEntities embedder services st0))
   = expectedCountOf services).
Proof.
  intros Hempty. rewrite embedEntities_storeAll, expectedCountOf_items.
  cbn [saveCache cache_entityCount].
  destruct (storeAll_entries embedder (entityItems services) st0)
    as (_ & _ & _ & Hlen & _).
  rewrite Hempty in Hlen. cbn [length] in Hlen.
  split; [lia|]. split.
  - intros Htol. unfold loadCache. cbn [saveCache cache_version cache_model
      cache_entityCount cache_embeddings].
    rewrite !String.eqb_refl. cbn [negb].
    rewrite expectedCountOf_items. unfold toleranceOf.
    destruct (Z.ltb_spec
                (Z.max 10 (Z.of_nat (length (entityItems services)) / 20))
                (Z.abs (Z.of_nat (length (st_embeddings
                                            (storeAll embedder (entityItems services) st0)))
                        - Z.of_nat (length (entityItems services)))))
      as [Hlt|Hle]; [lia|reflexivity].
  - intros Hinit Hall Hnd.
    destruct (storeAll_complete embedder (entityItems services) st0 Hinit Hall)
      as [_ Hcount].
    rewrite Hcount; [rewrite Hempty; cbn [length]; lia|].
    rewrite Hempty. cbn [map app]. now rewrite entityItems_keys.
Qed.

Lemma fresh_index_snapshot_is_accepted_witness :
  loadCache
    (Some (Ok (saveCache 0 (Embedding.embedEntities unitEmbedder businessCorpus
                              loadedState))))
    (Some businessCorpus) ∅
  = (true,
     list_to_map (st_embeddings (Embedding.embedEntities unitEmbedder businessCorpus
                                   loadedState))).
Proof.
  refine (proj1 (proj2 (fresh_index_snapshot_is_accepted unitEmbedder businessCorpus
                          loadedState 0 ∅ _)) _).
  - reflexivity.
  - vm_compute. discriminate.
Defined.

(** ** Parsing service metadata *)

Lemma extractEntitySets_In xmlDoc es :
  In es (extractEntitySets xmlDoc) ->
  exists setNode,
    In setNode (entitySetNodes xmlDoc) /\
    setNode "name" = Some (es_name es) /\
    es_name es <> EmptyString /\
    es_entitytype es = setNode "entitytype" /\
    es_creatable es = unlessFalse (setNode "sap:creatable") /\
    es_updatable es = unlessFalse (setNode "sap:updatable") /\
    es_deletable es = unlessFalse (setNode "sap:deletable").
Proof.
  unfold extractEntitySets. intros H. apply in_flat_map in H.
  destruct H as (setNode & Hnode & Hes). exists setNode. split; [exact Hnode|].
  destruct (setNode "name") as [name|] eqn:En; [|destruct Hes].
  destruct (JS.truthy name) eqn:Et; [|destruct Hes].
  destruct Hes as [<-|[]]. cbn. repeat split.
  now apply truthy_nonempty.
Qed.

Lemma refersTo_name typeName es :
  refersTo typeName es = true ->
  exists qualified name,
    es_entitytype es = Some qualified /\ typeName = Some name /\
    nth_error (splitOn "." qualified) 1 = Some name.
Proof.
  unfold refersTo. destruct (es_entitytype es) as [qualified|]; [|discriminate].
  destruct (nth_error (splitOn "." qualified) 1) as [segment|] eqn:Es; [|discriminate].
  destruct typeName as [name|]; [|discriminate].
  intros H. apply String.eqb_eq in H. subst segment. now exists qualified, name.
Qed.

(** X21.  Parsing keeps the entity types of the document in order, and an
    entity type gets its entity set and its capabilities only from an
    entity set node that has a name and whose type, cut at the dots, has
    the entity type's name as its second part; a capability is then
    granted unless the node says [false].  An entity type without such a
    node has no entity set and no capability at all. *)
Theorem parsed_types_follow_entity_sets
    (xmlDoc : MetadataDocument) (odataVersion : string) :
  map EntityType.name (ServiceMetadata.entityTypes (parseMetadata xmlDoc odataVersion))
  = map (fun n => attributeOr (node n "Name")) (entityTypeNodes xmlDoc) /\
  (forall e,
     In e (ServiceMetadata.entityTypes (parseMetadata xmlDoc odataVersion)) ->
     unlinked e \/
     exists setNode, In setNode (entitySetNodes xmlDoc) /\ linkedTo e setNode).
Proof.
  unfold parseMetadata, extractEntityTypes. cbn [ServiceMetadata.entityTypes]. split.
  - rewrite map_map. reflexivity.
  - intros e He. apply in_map_iff in He. destruct He as (n & <- & Hn).
    unfold extractEntityType.
    destruct (find (refersTo (node n "Name")) (extractEntitySets xmlDoc))
      as [es|] eqn:Ef.
    + right. apply find_some in Ef. destruct Ef as [Hes Hrefers].
      destruct (extractEntitySets_In _ _ Hes)
        as (setNode & Hnode & Hname & Hne & Htype & Hc & Hu & Hd).
      destruct (refersTo_name _ _ Hrefers) as (qualified & name & Hq & Hn' & Hseg).
      exists setNode. split; [exact Hnode|].
      exists (es_name es), qualified. cbn.
      rewrite Hn'. cbn [attributeOr].
      repeat split; try assumption. congruence.
    + left. unfold unlinked. cbn. now repeat split.
Qed.

Lemma splitOn_dotFree (a rest : string) :
  dotFree a = true ->
  splitOn "." (a +:+ "." +:+ rest) = a :: splitOn "." rest.
Proof.
  unfold dotFree. induction a as [|c a IH]; cbn [list_ascii_of_string forallb]; intros H.
  - reflexivity.
  - apply andb_prop in H. destruct H as [Hc Ha].
    change (String c a +:+ "." +:+ rest) with (String c (a +:+ "." +:+ rest)).
    cbn [splitOn]. apply negb_true_iff in Hc. rewrite Hc, (IH Ha). reflexivity.
Qed.

Lemma splitOn_head (text : string) : exists first others, splitOn "." text = first :: others.
Proof.
  induction text as [|c rest (first & others & IH)]; cbn [splitOn].
  - now exists EmptyString, [].
  - destruct (Ascii.eqb c "."); [now eexists _, _|].
    rewrite IH. now eexists _, _.
Qed.

(** X22.  The link between entity sets and entity types reads the second
    dot-separated part of the set's type.  When every entity set of the
    document qualifies its type with a namespace of two parts, an entity
    type whose name is not that second part is left without entity set and
    without any capability, also when an entity set names it. *)
Theorem dotted_namespace_unlinks_types
    (xmlDoc : MetadataDocument) (n : EntityTypeNode) (typeName : string) :
  node n "Name" = Some typeName ->
  (forall setNode qualified,
     In setNode (entitySetNodes xmlDoc) ->
     setNode "entitytype" = Some qualified ->
     exists first second rest,
       qualified = first +:+ "." +:+ second +:+ "." +:+ rest /\
       dotFree first = true /\ dotFree second = true /\ second <> typeName) ->
  unlinked (extractEntityType (extractEntitySets xmlDoc) n).
Proof.
  intros Hname Hsets. unfold extractEntityType.
  destruct (find (refersTo (node n "Name")) (extractEntitySets xmlDoc)) as [es|] eqn:Ef.
  - exfalso. apply find_some in Ef. destruct Ef as [Hes Hrefers].
    destruct (extractEntitySets_In _ _ Hes) as (setNode & Hnode & _ & _ & Htype & _).
    destruct (refersTo_name _ _ Hrefers) as (qualified & name & Hq & Hn & Hseg).
    rewrite Hname in Hn. injection Hn as <-.
    rewrite Htype in Hq.
    destruct (Hsets setNode qualified Hnode Hq)
      as (first & second & rest & -> & Hfirst & Hsecond & Hdiff).
    rewrite (splitOn_dotFree first _ Hfirst), (splitOn_dotFree second _ Hsecond) in Hseg.
    cbn [nth_error] in Hseg. congruence.
  - unfold unlinked. cbn. now repeat split.
Qed.

Lemma dotted_namespace_unlinks_types_witness :
  unlinked (extractEntityType (extractEntitySets dottedDocument)
              {| node := attributes [("Name", "Customer")];
                 parentElement := Some (attributes [("Namespace", "com.sap")]);
                 propertyNodes := [attributes [("Name", "Id"); ("Type", "Edm.String")]];
                 keyNodes := [attributes [("Name", "Id")]] |}).
Proof.
  apply (dotted_namespace_unlinks_types dottedDocument _ "Customer").
  - reflexivity.
  - intros setNode qualified [<-|[]] [= <-].
    exists "com", "sap", "Customer". repeat split. discriminate.
Defined.

(** ** The discovered catalog *)

Lemma isExcludedService_config serviceId config :
  isExcludedService serviceId = false ->
  In config DOMAIN_CONFIGS ->
  matchesAny (JS.toUpperCase serviceId) (excludePatterns config) = false.
Proof.
  unfold isExcludedService. intros H Hin.
  destruct (matchesAny _ (excludePatterns config)) eqn:E; [|reflexivity].
  assert (Hex : existsb
                  (fun config => matchesAny (JS.toUpperCase serviceId)
                                            (excludePatterns config))
                  DOMAIN_CONFIGS = true).
  { apply existsb_exists. now exists config. }
  congruence.
Qed.

Lemma find_agree {A : Type} (p q : A -> bool) (l : list A) :
  (forall x, In x l -> p x = q x) -> find p l = find q l.
Proof.
  induction l as [|x l IH]; intros H; [reflexivity|].
  cbn [find]. rewrite (H x (or_introl eq_refl)).
  destruct (q x); [reflexivity|]. apply IH. intros y Hy. apply H. now right.
Qed.

Lemma discoverCatalog_member services s :
  In s (discoverCatalog services) <->
  exists raw, In raw services /\ s = tagService raw /\
              isExcludedService (ODataService.id raw) = false.
Proof.
  unfold discoverCatalog. rewrite filter_In, in_map_iff. split.
  - intros [(raw & <- & Hraw) Hex]. exists raw. split; [exact Hraw|].
    split; [reflexivity|]. now apply negb_true_iff in Hex.
  - intros (raw & Hraw & -> & Hex). split; [now exists raw|].
    cbn [tagService ODataService.id]. now rewrite Hex.
Qed.

(** X23.  The discovered catalog is the raw catalog, in order, without
    the services that some domain excludes, also when another domain would
    take them; and for the services that remain the exclusions play no
    part: the domain is the one of the first configured domain with a
    prefix pattern that matches the upper-cased id or the title. *)
Theorem discovered_catalog_is_filtered_and_tagged (services : list ODataService.t) :
  map ODataService.id (discoverCatalog services)
  = List.filter (fun serviceId => negb (isExcludedService serviceId))
                (map ODataService.id services) /\
  (forall s,
     In s (discoverCatalog services) ->
     isExcludedService (ODataService.id s) = false /\
     (exists raw, In raw services /\ s = tagService raw) /\
     ODataService.domain s
     = option_map name
         (find (fun c => prefixMatch c (ODataService.id s) (ODataService.title s))
               DOMAIN_CONFIGS)).
Proof.
  split.
  - unfold discoverCatalog. induction services as [|raw rest IH]; [reflexivity|].
    cbn [map List.filter]. cbn [tagService ODataService.id].
    destruct (isExcludedService (ODataService.id raw)); cbn [negb map]; [exact IH|].
    cbn [tagService ODataService.id]. now rewrite IH.
  - intros s Hs. apply discoverCatalog_member in Hs.
    destruct Hs as (raw & Hraw & -> & Hex).
    cbn [tagService ODataService.id ODataService.title ODataService.domain].
    split; [exact Hex|]. split; [now exists raw|].
    unfold classifyService. rewrite classifyOver_first. f_equal.
    apply find_agree. intros config Hconfig.
    unfold domainAdmits, prefixMatch.
    now rewrite (isExcludedService_config _ _ Hex Hconfig).
Qed.

Lemma configured_display_name config :
  In config DOMAIN_CONFIGS ->
  getDomainDisplayName (Some (name config)) = displayName config /\
  displayName config <> "Unclassified".
Proof.
  unfold DOMAIN_CONFIGS. intros [<-|[<-|[<-|[]]]]; split;
    solve [vm_compute; reflexivity | vm_compute; discriminate].
Qed.

(** X24.  For a discovered catalog the two labels of a row go together:
    a row of an unclassified service shows [Unclassified] both as domain
    name and as tier label, with tier 0; every other row shows the display
    name of its configured domain and the label of a tier from 1 to 3,
    neither of which is [Unclassified]. *)
Theorem discovered_rows_are_labelled
    (services : list ODataService.t) (embeddingService : option EmbeddingService)
    (args : DiscoverArgs) (r : DiscoveryResponse) :
  discoverServicesAndEntities (discoverCatalog services) embeddingService args = Ok r ->
  forall row, In row (results r) ->
    (row_domain row = None /\ row_tier row = Some 0%Z /\
     row_domainName row = "Unclassified" /\ row_tierLabel row = "Unclassified" /\
     row_isPriority row = Some false) \/
    (exists config tier,
       In config DOMAIN_CONFIGS /\
       row_domain row = Some (name config) /\
       row_domainName row = displayName config /\
       row_domainName row <> "Unclassified" /\
       (1 <= tier <= 3)%Z /\
       row_tier row = Some tier /\
       row_tierLabel row = getTierLabel (Some tier) /\
       row_tierLabel row <> "Unclassified").
Proof.
  unfold discoverServicesAndEntities, rankedCandidates.
  destruct (collectCandidates _ _ _ _) as [method scored] eqn:E.
  intros [= <-] row Hrow. cbn [results] in Hrow.
  apply in_map_iff in Hrow. destruct Hrow as (x & <- & Hx).
  apply In_firstn_In in Hx. apply -> (sortBy_In compareScored) in Hx.
  assert (Hs : In (service x)
                  (filterByDomain (discoverCatalog services) (domainFilterOf args))).
  { apply collectCandidates_service
      with (embeddingService := embeddingService) (query := queryOf args)
           (limit := limitOf args).
    now rewrite E. }
  apply filterByDomain_In in Hs. apply discoverCatalog_member in Hs.
  destruct Hs as (raw & _ & Hraw & _).
  unfold resultRow. rewrite Hraw.
  cbn [tagService ODataService.domain ODataService.tier ODataService.isPriorityService
       row_domain row_tier row_domainName row_tierLabel row_isPriority].
  unfold classifyService.
  destruct (classifyOver_shape DOMAIN_CONFIGS (ODataService.id raw)
              (ODataService.title raw))
    as [(Hd & Ht & _ & Hp)|(config & Hin & Hd & Hshape)].
  - left. rewrite Hd, Ht, Hp. now repeat split.
  - right. destruct (configured_display_name config Hin) as [Hname Hne].
    exists config, (cl_tier (classifyOver DOMAIN_CONFIGS (ODataService.id raw)
                               (ODataService.title raw))).
    rewrite Hd, Hname.
    assert (Htier : (1 <= cl_tier (classifyOver DOMAIN_CONFIGS (ODataService.id raw)
                                     (ODataService.title raw)) <= 3)%Z).
    { destruct Hshape as [(_ & Ht & _)|(_ & Ht & _)]; [rewrite Ht|]; lia. }
    repeat split; try assumption; try lia.
    set (t := cl_tier _) in *.
    assert (Hcases : t = 1%Z \/ t = 2%Z \/ t = 3%Z) by lia.
    destruct Hcases as [-> | [-> | ->]]; discriminate.
Qed.

Lemma discovered_rows_are_labelled_witness :
  exists r row,
    discoverServicesAndEntities (discoverCatalog rawServices) None
      (searchArgs (Some "balances") None None) = Ok r /\
    In row (results r) /\
    row_domainName row = "Accounts Receivable" /\
    row_tierLabel row <> "Unclassified".
Proof.
  destruct (discoverServicesAndEntities (discoverCatalog rawServices) None
              (searchArgs (Some "balances") None None)) as [r|e] eqn:E;
    [|vm_compute in E; discriminate].
  pose proof (discovered_rows_are_labelled rawServices None
                (searchArgs (Some "balances") None None) r E) as Hrows.
  vm_compute in E. injection E as <-. cbn [results] in Hrows.
  eexists. eexists. split; [reflexivity|]. cbn [results].
  split; [left; reflexivity|].
  split; [reflexivity|].
  destruct (Hrows _ (or_introl eq_refl))
    as [(Hd & _)|(config & tier & _ & _ & _ & _ & _ & _ & _ & Hlabel)].
  - discriminate Hd.
  - exact Hlabel.
Defined.

(** ** Service hints *)

Lemma distinctb_NoDup (l : list string) : distinctb l = true -> List.NoDup l.
Proof.
  induction l as [|x rest IH]; cbn [distinctb]; intros H; [constructor|].
  apply andb_prop in H. destruct H as [Hx Hrest]. constructor; [|now apply IH].
  intros Hin. apply negb_true_iff in Hx.
  assert (Hex : existsb (String.eqb x) rest = true).
  { apply existsb_exists. exists x. split; [exact Hin|apply String.eqb_refl]. }
  congruence.
Qed.

Lemma SERVICE_HINTS_distinct :
  List.NoDup (map (fun entry => JS.toUpperCase (fst entry)) SERVICE_HINTS).
Proof. apply distinctb_NoDup. vm_compute. reflexivity. Qed.

Lemma find_by_key {A : Type} (key : A -> string) (l : list A) (x : A) :
  List.NoDup (map key l) -> In x l ->
  find (fun entry => String.eqb (key entry) (key x)) l = Some x.
Proof.
  induction l as [|y l IH]; cbn [map find]; intros Hnd Hx; [destruct Hx|].
  inversion Hnd as [|? ? Hy Hl]; subst.
  destruct Hx as [->|Hx]; [now rewrite String.eqb_refl|].
  destruct (String.eqb_spec (key y) (key x)) as [Heq|_]; [|now apply IH].
  exfalso. apply Hy. rewrite Heq. now apply in_map.
Qed.

(** X25.  The hint table is looked up by service id without regard to
    letter case, and no entry hides another: a hint is returned for an id
    exactly when the table lists it under an id that differs from the one
    asked for in letter case at most. *)
Theorem hints_are_found_by_id (asked : string) (hint : ServiceHint) :
  getServiceHint asked = Some hint <->
  exists serviceId, In (serviceId, hint) SERVICE_HINTS /\ sameLetters asked serviceId.
Proof.
  unfold getServiceHint, sameLetters. split.
  - destruct (find _ SERVICE_HINTS) as [[serviceId h]|] eqn:E; [|discriminate].
    intros [= ->]. apply find_some in E. destruct E as [Hin Heq].
    exists serviceId. split; [exact Hin|].
    cbn [fst] in Heq. apply String.eqb_eq in Heq. now symmetry.
  - intros (serviceId & Hin & Hsame).
    pose proof (find_by_key (fun entry : string * ServiceHint => JS.toUpperCase (fst entry))
                  SERVICE_HINTS (serviceId, hint) SERVICE_HINTS_distinct Hin) as Hfind.
    cbn [fst] in Hfind. rewrite Hsame. now rewrite Hfind.
Qed.

Lemma hints_are_found_by_id_witness :
  match SERVICE_HINTS with
  | entry :: _ => getServiceHint "zfar_customer_line_items_0001" = Some (snd entry)
  | [] => True
  end.
Proof.
  unfold SERVICE_HINTS at 1. cbv beta iota. cbn [snd].
  apply (proj2 (hints_are_found_by_id "zfar_customer_line_items_0001" _)).
  exists "ZFAR_CUSTOMER_LINE_ITEMS_0001". split.
  - unfold SERVICE_HINTS. left. reflexivity.
  - vm_compute. reflexivity.
Defined.

(** ** The token of the SAP client *)

Lemma ensureMetadata_tokens schemaProvider serviceId service w :
  clientToken (snd (ensureMetadata schemaProvider serviceId service w)) = clientToken w /\
  userToken (snd (ensureMetadata schemaProvider serviceId service w)) = userToken w.
Proof.
  unfold ensureMetadata.
  destruct (ODataService.metadata service); [now split|].
  destruct (metadataCache w !! serviceId); [now split|].
  unfold bindAction, fetchServiceMetadata, modify, ret.
  destruct (schemaProvider _ service); now split.
Qed.

Lemma refreshClientToken_token w :
  clientToken (refreshClientToken w) = clientToken w \/
  exists t, t <> EmptyString /\ userToken w = Some t /\
            clientToken (refreshClientToken w) = Some t.
Proof.
  unfold refreshClientToken, truthyText.
  destruct (userToken w) as [t|]; [|now left].
  destruct (JS.truthy t) eqn:Et; [|now left].
  right. exists t. split; [now apply truthy_nonempty|]. now split.
Qed.

Lemma dispatch_token sapClient operation service entityType entityName
    parameters queryOptions w :
  clientToken (snd (dispatch sapClient operation service entityType entityName
                      parameters queryOptions w)) = clientToken w.
Proof.
  destruct (dispatch_effect sapClient operation service entityType entityName
              parameters queryOptions w) as [->|(c & -> & _)]; reflexivity.
Qed.

(** X26.  A tool call never clears the token of the SAP client: after
    the call the client holds the token it held before, or, after a
    Level 3 call, the non-empty user token of the registry.  So a registry
    without user token acts under the token that was left on the client,
    and Level 2 never touches it. *)
Theorem client_token_is_set_never_cleared
    (schemaProvider : nat -> ODataService.t -> Exc ServiceMetadata.t)
    (sapClient : nat -> SapCall -> Exc string)
    (c : ToolCall) (w : World) :
  clientToken (runCall schemaProvider sapClient c w) = clientToken w \/
  (exists t args,
     c = Act args /\ t <> EmptyString /\ userToken w = Some t /\
     clientToken (runCall schemaProvider sapClient c w) = Some t).
Proof.
  destruct c as [args|args]; cbn [runCall].
  - left. unfold getEntityMetadata.
    destruct (_ || _); [reflexivity|].
    destruct (findService (catalogServices w) (marg_serviceId args)) as [service|];
      [|reflexivity].
    pose proof (ensureMetadata_tokens schemaProvider (marg_serviceId args) service w)
      as [Hc _].
    destruct (ensureMetadata schemaProvider (marg_serviceId args) service w)
      as [[m|e] w1]; cbn [snd] in Hc; [|exact Hc].
    now destruct (findEntity m (marg_entityName args)).
  - rewrite executeOperation_world.
    remember (snd (executeBody schemaProvider sapClient args w)) as w' eqn:Hw'.
    unfold executeBody in Hw'.
    destruct (negb _); [left; now subst w'|].
    destruct (findService (catalogServices w) (xarg_serviceId args)) as [service|];
      [|left; now subst w'].
    pose proof (ensureMetadata_tokens schemaProvider (xarg_serviceId args) service w)
      as [Hc Hu].
    unfold bindAction at 1 in Hw'.
    destruct (ensureMetadata schemaProvider (xarg_serviceId args) service w)
      as [[m|e] w1]; cbn [snd] in Hc, Hu; [|left; now subst w'].
    destruct (findEntity m (xarg_entityName args)) as [entityType|];
      [|left; now subst w'].
    unfold bindAction at 1, modify in Hw'.
    pose proof (dispatch_token sapClient (JS.toLowerCase (xarg_operation args)) service
                  entityType (xarg_entityName args) (default ∅ (xarg_parameters args))
                  (queryOptionsOf args) (refreshClientToken w1)) as Hd.
    rewrite <- Hw' in Hd.
    destruct (refreshClientToken_token w1) as [Hsame|(t & Hne & Ht & Hset)].
    + left. congruence.
    + right. exists t, args. split; [reflexivity|]. split; [exact Hne|].
      split; congruence.
Qed.

(** ** The three levels, one after the other *)

Lemma findService_In services s :
  In s services ->
  exists first,
    findService services (ODataService.id s) = Some first /\
    ODataService.id first = ODataService.id s.
Proof.
  unfold findService. intros Hin.
  destruct (find (fun x => String.eqb (ODataService.id x) (ODataService.id s)) services)
    as [first|] eqn:E.
  - exists first. split; [reflexivity|]. apply find_some in E.
    now apply String.eqb_eq.
  - exfalso. apply (find_none _ _ E) in Hin. rewrite String.eqb_refl in Hin.
    discriminate.
Qed.

(** X27.  What Level 1 shows, Level 2 can inspect: the service id of every
    row of a discovery response resolves in the catalog, so Level 2 never
    answers [Service not found] for it, and once the schema of that service
    is available every entity in it (asked for by a non-empty name) is
    described, under the id that the row showed. *)
Theorem discovered_services_can_be_inspected
    (schemaProvider : nat -> ODataService.t -> Exc ServiceMetadata.t)
    (embeddingService : option EmbeddingService) (args : DiscoverArgs)
    (r : DiscoveryResponse) (row : ResultRow) (w : World) :
  discoverServicesAndEntities (catalogServices w) embeddingService args = Ok r ->
  In row (results r) ->
  exists service,
    findService (catalogServices w) (row_serviceId row) = Some service /\
    ODataService.id service = row_serviceId row /\
    (forall entityName m w1,
       row_serviceId row <> EmptyString ->
       entityName <> EmptyString ->
       ensureMetadata schemaProvider (row_serviceId row) service w = (Ok m, w1) ->
       In entityName (map EntityType.name (ServiceMetadata.entityTypes m)) ->
       exists schema,
         getEntityMetadata schemaProvider
           {| marg_serviceId := row_serviceId row; marg_entityName := entityName |} w
         = (Content schema, w1) /\
         schema_serviceId schema = row_serviceId row /\
         schema_name schema = entityName).
Proof.
  unfold discoverServicesAndEntities, rankedCandidates.
  destruct (collectCandidates _ _ _ _) as [method scored] eqn:E.
  intros [= <-] Hrow. cbn [results] in Hrow.
  apply in_map_iff in Hrow. destruct Hrow as (x & <- & Hx).
  apply In_firstn_In in Hx. apply -> (sortBy_In compareScored) in Hx.
  assert (Hs : In (service x)
                  (filterByDomain (catalogServices w) (domainFilterOf args))).
  { apply collectCandidates_service
      with (embeddingService := embeddingService) (query := queryOf args)
           (limit := limitOf args).
    now rewrite E. }
  apply filterByDomain_In in Hs.
  destruct (findService_In _ _ Hs) as (first & Hfind & Hid).
  cbn [resultRow row_serviceId]. exists first. split; [exact Hfind|].
  split; [exact Hid|].
  intros entityName m w1 Hsid Hname Hmeta Hin.
  destruct (find_by_name _ _ Hin) as (e & He & Hen).
  exists (describeEntity first e). unfold getEntityMetadata.
  cbn [marg_serviceId marg_entityName].
  apply truthy_nonempty in Hsid. apply truthy_nonempty in Hname.
  rewrite Hsid, Hname. cbn [negb orb]. rewrite Hfind, Hmeta.
  unfold findEntity. rewrite He. cbn [describeEntity schema_serviceId schema_name].
  now repeat split.
Qed.

Lemma discovered_services_can_be_inspected_witness :
  exists row service,
    match discoverServicesAndEntities (catalogServices freshWorld) None
            (searchArgs (Some "balances") None None) with
    | Ok r => In row (results r)
    | Throw _ => False
    end /\
    findService (catalogServices freshWorld) (row_serviceId row) = Some service /\
    ODataService.id service = row_serviceId row.
Proof.
  destruct (discoverServicesAndEntities (catalogServices freshWorld) None
              (searchArgs (Some "balances") None None)) as [r|e] eqn:E;
    [|vm_compute in E; discriminate].
  destruct (results r) as [|row rest] eqn:Er;
    [vm_compute in E; injection E as <-; discriminate Er|].
  destruct (discovered_services_can_be_inspected schemaUp None
              (searchArgs (Some "balances") None None) r row freshWorld E)
    as (service & Hfind & Hid & _).
  { rewrite Er. left. reflexivity. }
  exists row, service. split; [left; reflexivity|]. split; [exact Hfind|exact Hid].
Defined.

(** X28.  What Level 2 has described, Level 3 can read: after a
    successful inspect, a [read] of the same entity issues exactly one
    call, for the entity set of the schema at the URL of the service and
    with the query options of the request; no schema is fetched for it,
    and the data that the client returns is handed back. *)
Theorem inspected_entities_can_be_read
    (schemaProvider : nat -> ODataService.t -> Exc ServiceMetadata.t)
    (sapClient : nat -> SapCall -> Exc string)
    (inspected : MetadataArgs) (request : ExecuteArgs)
    (w w1 : World) (schema : EntitySchema) :
  getEntityMetadata schemaProvider inspected w = (Content schema, w1) ->
  xarg_serviceId request = marg_serviceId inspected ->
  xarg_entityName request = marg_entityName inspected ->
  JS.toLowerCase (xarg_operation request) = "read" ->
  exists service,
    findService (catalogServices w1) (marg_serviceId inspected) = Some service /\
    let call := ReadEntitySet (ODataService.url service) (schema_entitySet schema)
                              (queryOptionsOf request) in
    let after := executeOperation schemaProvider sapClient request w1 in
    sapCalls (snd after) = sapCalls w1 ++ [call] /\
    fetches (snd after) = fetches w1 /\
    metadataCache (snd after) = metadataCache w1 /\
    (forall data,
       sapClient (length (sapCalls w1)) call = Ok data ->
       exists done, fst after = Content done /\ responseData done = FromUpstream data) /\
    (forall message,
       sapClient (length (sapCalls w1)) call = Throw message ->
       fst after = IsError (errorResponse request message)).
Proof.
  unfold getEntityMetadata. intros Hinspect Hsid Hname Hop.
  destruct (_ || _); [discriminate|].
  destruct (findService (catalogServices w) (marg_serviceId inspected))
    as [service|] eqn:Ef; [|discriminate].
  destruct (ensureMetadata schemaProvider (marg_serviceId inspected) service w)
    as [[m|e] w'] eqn:Ee; [|discriminate].
  destruct (findEntity m (marg_entityName inspected)) as [entityType|] eqn:En;
    [|discriminate].
  injection Hinspect as <- <-.
  destruct (ensureMetadata_loaded _ _ _ _ _ _ Ef Ee) as (s1 & Hf1 & Hm1 & Hforget).
  exists s1. split; [exact Hf1|]. cbv zeta.
  assert (Hrun :
    executeBody schemaProvider sapClient request w'
    = dispatch sapClient "read" s1 entityType (xarg_entityName request)
        (default ∅ (xarg_parameters request)) (queryOptionsOf request)
        (refreshClientToken w')).
  { unfold executeBody. rewrite Hop, Hsid, Hname.
    cbn [existsb validOps String.eqb Ascii.eqb Bool.eqb orb negb].
    rewrite Hf1. unfold bindAction at 1.
    rewrite (ensureMetadata_at_hand _ _ _ _ _ Hm1), En. reflexivity. }
  unfold executeOperation. rewrite Hrun.
  unfold dispatch. cbn [String.eqb Ascii.eqb Bool.eqb].
  unfold bindAction, callSap, ret.
  cbn [describeEntity schema_entitySet].
  rewrite refreshClientToken_calls.
  destruct (steady_token w') as [Hfetches Hcache]. cbn [snd modify] in Hfetches, Hcache.
  destruct (sapClient (length (sapCalls w')) _) as [data|message] eqn:Ec; cbn [fst snd].
  - split; [cbn [logCall sapCalls]; now rewrite refreshClientToken_calls|].
    split; [exact Hfetches|]. split; [exact Hcache|]. split.
    + intros d [= <-]. eexists. split; reflexivity.
    + discriminate.
  - split; [cbn [logCall sapCalls]; now rewrite refreshClientToken_calls|].
    split; [exact Hfetches|]. split; [exact Hcache|]. split.
    + discriminate.
    + intros msg [= <-]. reflexivity.
Qed.

Lemma inspected_entities_can_be_read_witness :
  exists service,
    findService
      (catalogServices
         (snd (getEntityMetadata schemaUp
                 (inspectArgs "ZFAR_CUSTOMER_LINE_ITEMS_0001" "Item") freshWorld)))
      "ZFAR_CUSTOMER_LINE_ITEMS_0001" = Some service /\
    sapCalls
      (snd (executeOperation schemaUp sapUp readItems
              (snd (getEntityMetadata schemaUp
                      (inspectArgs "ZFAR_CUSTOMER_LINE_ITEMS_0001" "Item") freshWorld))))
    = [] ++ [ReadEntitySet (ODataService.url service) (Some "Items")
                           (queryOptionsOf readItems)].
Proof.
  destruct (inspected_entities_can_be_read schemaUp sapUp
              (inspectArgs "ZFAR_CUSTOMER_LINE_ITEMS_0001" "Item") readItems freshWorld
              (snd (getEntityMetadata schemaUp
                      (inspectArgs "ZFAR_CUSTOMER_LINE_ITEMS_0001" "Item") freshWorld))
              (describeEntity lineItemsService itemEntity))
    as (service & Hfind & Hcalls & _).
  - vm_compute. reflexivity.
  - reflexivity.
  - reflexivity.
  - vm_compute. reflexivity.
  - exists service. split; [exact Hfind|exact Hcalls].
Defined.
